(** * Scheduling, attendance, grade-scale and trial-lesson logic of the
    school-management backend (packages/backend), shallow embedding.

    Conventions of the embedding:
    - a calendar date is a day number [date := Z], days since 1970-01-01
      (a Thursday); a time of day is minutes since midnight;
    - a naive timestamp (Python [datetime], SQL [timestamp]) is minutes since
      1970-01-01 00:00, [combine d t = d * 1440 + t];
    - a nullable SQL column is an [option];
    - a route handler returns [Ok] with the new database state, or [Err]
      with the HTTP status; when the handler ran inside
      [conn.transaction()], an error rolls the state back, which the
      embedding renders by returning no state at all. *)

From Stdlib Require Import ZArith List Bool String Lia Sorted.
Import ListNotations.
Open Scope Z_scope.

Definition date := Z.
Definition time := Z.
Definition timestamp := Z.

(** [datetime.combine(d, t)] *)
Definition combine (d : date) (t : time) : timestamp := d * 1440 + t.

(** [d.weekday()] in Python: Monday = 0; 1970-01-01 was a Thursday (3). *)
Definition py_weekday (d : date) : Z := (d + 3) mod 7.

(** [EXTRACT(DOW FROM ts)] in PostgreSQL: Sunday = 0. *)
Definition sql_dow (ts : timestamp) : Z := (ts / 1440 + 4) mod 7.

(** [ts::time] in PostgreSQL. *)
Definition sql_time (ts : timestamp) : time := ts mod 1440.

Inductive result (A : Type) : Type :=
| Ok (a : A)
| Err (status : Z).
Arguments Ok {A} a.
Arguments Err {A} status.

(** ** The store *)

Record lesson := mkLesson {
  lesson_id : Z;
  lesson_group : option Z;          (* lessons.group_id, nullable *)
  lesson_start : timestamp;         (* lessons.start_time *)
  lesson_duration : option Z        (* lessons.duration_minutes, nullable *)
}.

Record group := mkGroup {
  group_id : Z;
  group_start_date : option date;
  group_recurring_until : option date;
  group_duration : option Z;
  group_is_closed : bool
}.

Record schedule_row := mkSchedule {
  sched_group : Z;
  sched_dow : Z;                    (* 0 = Sunday *)
  sched_time : time;                (* a Python [time] is always truthy *)
  sched_active : bool
}.

Record db := mkDb {
  groups : list group;
  lessons : list lesson;
  schedules : list schedule_row;
  next_lesson_id : Z                (* the SERIAL sequence of lessons.id *)
}.

(** [WHERE group_id = $1]: a NULL group never matches. *)
Definition in_group (g : Z) (l : lesson) : bool :=
  match lesson_group l with
  | Some g' => g' =? g
  | None => false
  end.

Definition find_group (d : db) (g : Z) : option group :=
  find (fun r => group_id r =? g) (groups d).

(** [INSERT INTO lessons (group_id, ..., start_time, duration_minutes)] *)
Definition insert_lesson (d : db) (g : Z) (s : timestamp) (dur : Z) : db :=
  mkDb (groups d)
       (lessons d ++ [mkLesson (next_lesson_id d) (Some g) s (Some dur)])
       (schedules d)
       (next_lesson_id d + 1).

(** [SELECT id FROM lessons WHERE group_id = $1 AND start_time = $2] *)
Definition find_at (d : db) (g : Z) (s : timestamp) : option Z :=
  option_map lesson_id
    (find (fun l => in_group g l && (lesson_start l =? s)) (lessons d)).

(** ** The two conflict checks *)

(** The overlap predicate of [create_group_lessons] (admin.py), for a
    proposed [$2 = s], [$3 = e]:
    [(start_time <= $2 AND start_time + dur > $2) OR
     (start_time < $3 AND start_time + dur >= $3) OR
     (start_time >= $2 AND start_time < $3)].
    With a NULL duration the first two disjuncts are NULL, so the row is
    selected exactly when the third one holds. *)
Definition overlaps_cgl (s e : timestamp) (l : lesson) : bool :=
  let s2 := lesson_start l in
  let third := (s <=? s2) && (s2 <? e) in
  match lesson_duration l with
  | None => third
  | Some dur =>
      ((s2 <=? s) && (s <? s2 + dur)) || ((s2 <? e) && (e <=? s2 + dur)) || third
  end.

Definition find_overlap_cgl (d : db) (g : Z) (s e : timestamp) : option Z :=
  option_map lesson_id
    (find (fun l => in_group g l && overlaps_cgl s e l) (lessons d)).

(** [COALESCE(l.duration_minutes, 60)] *)
Definition coalesce60 (o : option Z) : Z :=
  match o with Some x => x | None => 60 end.

(** Python's [x or dflt] on a nullable integer: NULL and 0 are falsy. *)
Definition py_or (dflt : Z) (o : option Z) : Z :=
  match o with Some x => if x =? 0 then dflt else x | None => dflt end.

(** [lesson["duration_minutes"] or 60] *)
Definition py_or60 (o : option Z) : Z := py_or 60 o.

(** The conflict predicate of [reschedule_lesson] (admin.py):
    [l.id != $2 AND l.start_time < $4 AND
     l.start_time + COALESCE(l.duration_minutes, 60) * 1 minute > $3]. *)
Definition overlaps_resched (moved : Z) (s e : timestamp) (l : lesson) : bool :=
  negb (lesson_id l =? moved) && (lesson_start l <? e)
  && (s <? lesson_start l + coalesce60 (lesson_duration l)).

Definition find_conflict_resched (d : db) (g moved : Z) (s e : timestamp)
  : option lesson :=
  find (fun l => in_group g l && overlaps_resched moved s e l) (lessons d).

(** The half-open interval overlap of the spec, [s1 < e2 /\ s2 < e1]. *)
Definition half_open_overlap (s1 e1 s2 e2 : Z) : bool := (s1 <? e2) && (s2 <? e1).

(** ** [reschedule_lesson] (admin.py, POST /admin/lessons/{id}/reschedule) *)

(** [UPDATE lessons SET start_time = $2, is_rescheduled = TRUE WHERE id = $1] *)
Definition update_start (d : db) (lid : Z) (s : timestamp) : db :=
  mkDb (groups d)
       (map (fun l => if lesson_id l =? lid
                      then mkLesson (lesson_id l) (lesson_group l) s (lesson_duration l)
                      else l) (lessons d))
       (schedules d) (next_lesson_id d).

(** The lesson is read with [JOIN groups g ON g.id = l.group_id]: a lesson
    without a group, or with a dangling group, is not found (404). The
    notifications sent after the update do not touch the store. *)
Definition reschedule_lesson (d : db) (lid : Z) (new_dt : timestamp) : result db :=
  match find (fun l => lesson_id l =? lid) (lessons d) with
  | None => Err 404
  | Some l =>
      match lesson_group l with
      | None => Err 404
      | Some g =>
          match find_group d g with
          | None => Err 404
          | Some _ =>
              let new_end := new_dt + py_or60 (lesson_duration l) in
              match find_conflict_resched d g lid new_dt new_end with
              | Some _ => Err 400
              | None => Ok (update_start d lid new_dt)
              end
          end
      end
  end.

(** ** Calendar arithmetic of Python's [date] *)

(** Day number of the proleptic Gregorian date [y-m-dd]. *)
Definition days_from_civil (y m dd : Z) : date :=
  let y' := if m <=? 2 then y - 1 else y in
  let era := y' / 400 in
  let yoe := y' - era * 400 in
  let mp := (m + 9) mod 12 in
  let doy := (153 * mp + 2) / 5 + dd - 1 in
  let doe := yoe * 365 + yoe / 4 - yoe / 100 + doy in
  era * 146097 + doe - 719468.

(** Inverse of [days_from_civil]: [(year, month, day)]. *)
Definition civil_from_days (z : date) : Z * Z * Z :=
  let z' := z + 719468 in
  let era := z' / 146097 in
  let doe := z' - era * 146097 in
  let yoe := (doe - doe / 1460 + doe / 36524 - doe / 146096) / 365 in
  let doy := doe - (365 * yoe + yoe / 4 - yoe / 100) in
  let mp := (5 * doy + 2) / 153 in
  let dd := doy - (153 * mp + 2) / 5 + 1 in
  let m := if mp <? 10 then mp + 3 else mp - 9 in
  let y := yoe + era * 400 in
  ((if m <=? 2 then y + 1 else y), m, dd).

Definition is_leap (y : Z) : bool :=
  ((y mod 4 =? 0) && negb (y mod 100 =? 0)) || (y mod 400 =? 0).

Definition days_in_month (y m : Z) : Z :=
  if m =? 2 then (if is_leap y then 29 else 28)
  else if (m =? 4) || (m =? 6) || (m =? 9) || (m =? 11) then 30
  else 31.

(** One step of the recurrence loop of [create_group_lessons]:
    [timedelta(weeks=1)], [timedelta(weeks=2)], or
    [current_date.replace(month=...)] (with the December to January
    rollover), which raises [ValueError] when the day does not exist in the
    next month; any other frequency leaves the loop ([break]). *)
Inductive advance_outcome := Next (d : date) | Break | Raise.

Definition advance (freq : option string) (cur : date) : advance_outcome :=
  match freq with
  | Some f =>
      if String.eqb f "weekly" then Next (cur + 7)
      else if String.eqb f "biweekly" then Next (cur + 14)
      else if String.eqb f "monthly" then
        let '(y, m, dd) := civil_from_days cur in
        let '(y', m') := if m =? 12 then (y + 1, 1) else (y, m + 1) in
        if dd <=? days_in_month y' m' then Next (days_from_civil y' m' dd)
        else Raise
      else Break
  | None => Break
  end.

(** ** The schedule sync step, [sync_group_schedules_with_lessons] *)

(** Lexicographic order of [ORDER BY day_of_week, lesson_time]. *)
Definition lex_le (a b : Z * Z) : Prop :=
  fst a < fst b \/ (fst a = fst b /\ snd a <= snd b).

Definition lex_leb (a b : Z * Z) : bool :=
  (fst a <? fst b) || ((fst a =? fst b) && (snd a <=? snd b)).

Fixpoint insert_sorted (x : Z * Z) (l : list (Z * Z)) : list (Z * Z) :=
  match l with
  | [] => [x]
  | y :: t => if lex_leb x y then x :: l else y :: insert_sorted x t
  end.

Definition sort_pairs (l : list (Z * Z)) : list (Z * Z) :=
  fold_right insert_sorted [] l.

Definition pair_eqb (a b : Z * Z) : bool := (fst a =? fst b) && (snd a =? snd b).

(** [SELECT DISTINCT] on a sorted result: drop adjacent repetitions. *)
Fixpoint dedup_sorted (l : list (Z * Z)) : list (Z * Z) :=
  match l with
  | [] => []
  | x :: t =>
      match t with
      | [] => [x]
      | y :: _ => if pair_eqb x y then dedup_sorted t else x :: dedup_sorted t
      end
  end.

(** [SELECT DISTINCT EXTRACT(DOW FROM start_time)::int, start_time::time
     FROM lessons WHERE group_id = $1 ORDER BY day_of_week, lesson_time] *)
Definition lesson_pattern (l : lesson) : Z * Z :=
  (sql_dow (lesson_start l), sql_time (lesson_start l)).

Definition patterns (d : db) (g : Z) : list (Z * Z) :=
  dedup_sorted (sort_pairs (map lesson_pattern (filter (in_group g) (lessons d)))).

Definition sched_key (g dw : Z) (r : schedule_row) : bool :=
  (sched_group r =? g) && (sched_dow r =? dw).

(** [INSERT INTO group_schedules ... ON CONFLICT (group_id, day_of_week)
     DO UPDATE SET start_time = $3, is_active = true] *)
Definition upsert_schedule (rows : list schedule_row) (g dw : Z) (t : time)
  : list schedule_row :=
  if existsb (sched_key g dw) rows
  then map (fun r => if sched_key g dw r then mkSchedule g dw t true else r) rows
  else rows ++ [mkSchedule g dw t true].

Definition sync_group_schedules (d : db) (g : Z) : db :=
  let rows0 := filter (fun r => negb (sched_group r =? g)) (schedules d) in
  let rows := fold_left (fun rs p => upsert_schedule rs g (fst p) (snd p))
                        (patterns d g) rows0 in
  mkDb (groups d) (lessons d) rows (next_lesson_id d).

(** The schedule row of group [g] for day [dw], as [SELECT start_time FROM
    group_schedules WHERE group_id = $1 AND day_of_week = $2] reads it. *)
Definition sched_lookup (rows : list schedule_row) (g dw : Z) : option time :=
  option_map sched_time (find (sched_key g dw) rows).

(** ** [create_group_lessons] (admin.py, POST /admin/groups/{id}/lessons) *)

(** [datetime.time(h, m)] accepts [0 <= h < 24], [0 <= m < 60]. *)
Definition valid_time (t : time) : bool := (0 <=? t) && (t <? 1440).

Record lesson_request := mkLessonRequest {
  req_date : date;
  req_start : time;
  req_end : time;
  req_repeat : bool;
  req_until : option date;          (* None: [repeat_until] missing or empty *)
  req_freq : option string
}.

(** The [while current_date <= end_date and lessons_created < 100] loop. The
    date grows by at least 7 days per turn, so [fuel] only has to exceed
    the number of days of the range for the loop to leave by its own test. *)
Fixpoint cgl_loop (fuel : nat) (g : Z) (cur end_d : date) (ts te : time)
  (freq : option string) (created : Z) (d : db) : result db :=
  match fuel with
  | O => Ok d
  | S f =>
      if (cur <=? end_d) && (created <? 100) then
        let s := combine cur ts in
        let e := combine cur te in
        let '(d', created') :=
          match find_overlap_cgl d g s e with
          | Some _ => (d, created)
          | None => (insert_lesson d g s (te - ts), created + 1)
          end in
        match advance freq cur with
        | Next cur' => cgl_loop f g cur' end_d ts te freq created' d'
        | Break => Ok d'
        | Raise => Err 500
        end
      else Ok d
  end.

(** The whole handler runs in one transaction: an [HTTPException] or a
    [ValueError] leaves the store as it was. *)
Definition create_group_lessons (d : db) (g : Z) (r : lesson_request) : result db :=
  if negb (valid_time (req_start r) && valid_time (req_end r)) then Err 400
  else if req_end r <=? req_start r then Err 400
  else
    match find_group d g with
    | None => Err 404
    | Some _ =>
        let body :=
          if negb (req_repeat r) then
            let s := combine (req_date r) (req_start r) in
            let e := combine (req_date r) (req_end r) in
            match find_overlap_cgl d g s e with
            | Some _ => Err 400
            | None => Ok (insert_lesson d g s (req_end r - req_start r))
            end
          else
            match req_until r with
            | None => Err 400
            | Some u =>
                cgl_loop (Z.to_nat (u - req_date r + 1)) g (req_date r) u
                         (req_start r) (req_end r) (req_freq r) 0 d
            end in
        match body with
        | Ok d' => Ok (sync_group_schedules d' g)
        | Err c => Err c
        end
    end.

(** ** [add_group_schedule] (admin.py, POST /admin/groups/{id}/schedule) *)

(** [while current_date.weekday() != target_weekday: current_date += 1 day];
    a week holds every weekday, so seven turns suffice. *)
Fixpoint first_weekday (fuel : nat) (cur : date) (target : Z) : date :=
  match fuel with
  | O => cur
  | S f => if py_weekday cur =? target then cur else first_weekday f (cur + 1) target
  end.

(** The [while current_date <= end_date and lessons_created < 20] loop. *)
Fixpoint ags_loop (fuel : nat) (g : Z) (cur end_d : date) (t : time) (dur : Z)
  (created : Z) (d : db) : db * Z :=
  match fuel with
  | O => (d, created)
  | S f =>
      if (cur <=? end_d) && (created <? 20) then
        match find_at d g (combine cur t) with
        | Some _ => ags_loop f g (cur + 7) end_d t dur created d
        | None => ags_loop f g (cur + 7) end_d t dur (created + 1)
                           (insert_lesson d g (combine cur t) dur)
        end
      else (d, created)
  end.

Definition ags_first_date (gr : group) (today : date) (dw : Z) : option date :=
  match group_start_date gr with
  | Some sd => Some (first_weekday 7 (Z.max sd today) ((dw - 1) mod 7))
  | None => None
  end.

Definition ags_end_date (gr : group) (sd : date) : date :=
  match group_recurring_until gr with Some u => u | None => sd + 90 end.

(** Returns the new store and [lessons_created]. *)
Definition add_group_schedule (d : db) (g dw : Z) (ts te : time) (today : date)
  : result (db * Z) :=
  if negb ((0 <=? dw) && (dw <=? 6)) then Err 400
  else if negb (valid_time ts && valid_time te) then Err 400
  else if te <=? ts then Err 400
  else
    match find_group d g with
    | None => Err 404
    | Some gr =>
        let d1 := mkDb (groups d) (lessons d) (upsert_schedule (schedules d) g dw ts)
                       (next_lesson_id d) in
        match group_start_date gr with
        | None => Ok (d1, 0)
        | Some sd =>
            let end_d := ags_end_date gr sd in
            let c0 := first_weekday 7 (Z.max sd today) ((dw - 1) mod 7) in
            Ok (ags_loop (Z.to_nat (end_d - c0 + 1)) g c0 end_d ts
                         (py_or 90 (group_duration gr)) 0 d1)
        end
    end.

(** ** [generate_lesson_instances] (admin.py, POST /admin/generate-lesson-instances) *)

(** One row of [groups JOIN group_schedules gs ON gs.group_id = g.id AND
    gs.is_active WHERE g.is_closed = FALSE]. *)
Definition gli_rows (d : db) : list (schedule_row * group) :=
  flat_map (fun r =>
              if sched_active r then
                match find_group d (sched_group r) with
                | Some gr => if group_is_closed gr then [] else [(r, gr)]
                | None => []
                end
              else []) (schedules d).

Definition gli_target (week_start : date) (dw : Z) : date :=
  let python_weekday := if dw =? 0 then 6 else dw - 1 in
  let days_ahead := python_weekday - py_weekday week_start in
  week_start + (if days_ahead <? 0 then days_ahead + 7 else days_ahead).

Definition gli_step (week_start : date) (d : db) (rg : schedule_row * group) : db :=
  let '(r, gr) := rg in
  let ts := combine (gli_target week_start (sched_dow r)) (sched_time r) in
  match find_at d (sched_group r) ts with
  | Some _ => d
  | None => insert_lesson d (sched_group r) ts (py_or 60 (group_duration gr))
  end.

Definition generate_lesson_instances (d : db) (today : date) : db :=
  let week_start := today - py_weekday today in
  fold_left (gli_step week_start) (gli_rows d) d.

(** ** Manual creation: [create_lesson] (lessons.py, POST /lessons) and
    [create_lesson] (admin.py, POST /admin/lessons): one plain insert. *)
Definition create_lesson (d : db) (g : option Z) (s : timestamp) (dur : Z) : db :=
  mkDb (groups d)
       (lessons d ++ [mkLesson (next_lesson_id d) g s (Some dur)])
       (schedules d) (next_lesson_id d + 1).

(** ** Grade-scale conversion (grades.py, syssettings.py) *)

(** A grade value is stored as [NUMERIC(5, 2)]: an integer number of
    hundredths. *)
Record grade_row := mkGradeRow {
  gr_value : option Z;              (* grades.value *)
  gr_grade_value : option Z         (* grades.grade_value, legacy column *)
}.

Record grade_store := mkGradeStore {
  grade_rows : list grade_row;
  has_value_col : bool;             (* [information_schema.columns] *)
  has_grade_value_col : bool;
  setting_scale : option string;    (* system_settings "grades.scale" *)
  setting_applied : option string   (* system_settings "grades.scale_applied" *)
}.

(** [settings.get("grades.scale", "0-5")]; a missing key reads as the
    default of [DEFAULT_SETTINGS], which is "0-5" too. *)
Definition current_scale (st : grade_store) : string :=
  match setting_scale st with Some s => s | None => "0-5" end.

(** PostgreSQL [ROUND(a / b, 0)] on numerics, [b > 0]: half away from zero. *)
Definition round_div (a b : Z) : Z :=
  if 0 <=? a then (2 * a + b) / (2 * b) else - ((2 * (- a) + b) / (2 * b)).

(** [factor] of [_convert_grades_scale], as the fraction [num / den]:
    20 or 0.05; [None] where the function returns without writing. *)
Definition scale_factor (from to : string) : option (Z * Z) :=
  if String.eqb from to then None
  else if String.eqb from "0-5" && String.eqb to "0-100" then Some (20, 1)
  else if String.eqb from "0-100" && String.eqb to "0-5" then Some (5, 100)
  else None.

(** [ROUND(v * factor, 2)] on a value of [k] hundredths, in hundredths. *)
Definition rescale (f : Z * Z) (k : Z) : Z := round_div (k * fst f) (snd f).

(** The writes the conversion issues, each its own [pool.execute], that is
    its own autocommitted statement. [clamp] carries the bound of the
    syssettings.py variant, [LEAST(GREATEST(..., 0), max_allowed)]. *)
Inductive grade_stmt :=
| UpdValue (f : Z * Z) (clamp : option Z)
| UpdGradeValue (f : Z * Z) (clamp : option Z)
| SetApplied (s : string)
| SetScale (s : string).

Definition clamp_to (c : option Z) (k : Z) : Z :=
  match c with Some mx => Z.min (Z.max k 0) mx | None => k end.

Definition exec_grade_stmt (st : grade_store) (s : grade_stmt) : grade_store :=
  match s with
  | UpdValue f c =>
      mkGradeStore
        (map (fun r => mkGradeRow (option_map (fun k => clamp_to c (rescale f k)) (gr_value r))
                                  (gr_grade_value r)) (grade_rows st))
        (has_value_col st) (has_grade_value_col st) (setting_scale st) (setting_applied st)
  | UpdGradeValue f c =>
      mkGradeStore
        (map (fun r => mkGradeRow (gr_value r)
                          (option_map (fun k => clamp_to c (rescale f k)) (gr_grade_value r)))
             (grade_rows st))
        (has_value_col st) (has_grade_value_col st) (setting_scale st) (setting_applied st)
  | SetApplied a =>
      mkGradeStore (grade_rows st) (has_value_col st) (has_grade_value_col st)
                   (setting_scale st) (Some a)
  | SetScale a =>
      mkGradeStore (grade_rows st) (has_value_col st) (has_grade_value_col st)
                   (Some a) (setting_applied st)
  end.

(** Statements run one after the other, each committed on its own. *)
Definition exec_grade_stmts (st : grade_store) (ss : list grade_stmt) : grade_store :=
  fold_left exec_grade_stmt ss st.

(** [_convert_grades_scale] of grades.py: the statements it issues. *)
Definition convert_grades_scale (st : grade_store) (from to : string) : list grade_stmt :=
  match scale_factor from to with
  | None => []
  | Some f =>
      (if has_value_col st then [UpdValue f None] else [])
      ++ (if has_grade_value_col st then [UpdGradeValue f None] else [])
  end.

(** [SELECT MAX(value_expr) FROM grades], [value_expr] being [value] or
    [COALESCE(grade_value, value)]. *)
Definition max_grade (st : grade_store) : option Z :=
  fold_left (fun acc r =>
               let v := if has_grade_value_col st
                        then match gr_grade_value r with
                             | Some x => Some x
                             | None => gr_value r
                             end
                        else gr_value r in
               match v, acc with
               | Some x, Some m => Some (Z.max x m)
               | Some x, None => Some x
               | None, _ => acc
               end) (grade_rows st) None.

(** [_ensure_grades_scale_applied]: every read happens before the first
    write, so the handler is the list of writes it issues. *)
Definition ensure_plan (st : grade_store) : list grade_stmt :=
  let cur := current_scale st in
  match setting_applied st with
  | None =>
      let inferred := match max_grade st with
                      | Some m => if 550 <? m then "0-100"%string else "0-5"%string
                      | None => "0-5"%string
                      end in
      (if String.eqb inferred cur then [] else convert_grades_scale st inferred cur)
      ++ [SetApplied cur]
  | Some applied =>
      if String.eqb applied cur then []
      else convert_grades_scale st applied cur ++ [SetApplied cur]
  end.

Definition ensure_grades_scale_applied (st : grade_store) : grade_store :=
  exec_grade_stmts st (ensure_plan st).

(** The same writes when one of them raises: the [n] statements before it
    are committed, the rest never run. *)
Definition ensure_grades_scale_failing_at (n : nat) (st : grade_store) : grade_store :=
  exec_grade_stmts st (firstn n (ensure_plan st)).

(** The grades-scale part of [admin_update_settings] (syssettings.py), for
    a request whose [grades_scale] is [next] (already stripped). *)
Definition sys_convert_grades_scale (st : grade_store) (from to : string) : list grade_stmt :=
  match scale_factor from to with
  | None => []
  | Some f =>
      let mx := if String.eqb to "0-5" then 5 * 100 else 100 * 100 in
      (if has_value_col st then [UpdValue f (Some mx)] else [])
      ++ (if has_grade_value_col st then [UpdGradeValue f (Some mx)] else [])
  end.

Definition admin_update_scale (st : grade_store) (next : string) : result grade_store :=
  if negb (String.eqb next "0-5" || String.eqb next "0-100") then Err 400
  else
    let cur := current_scale st in
    let writes :=
      (if String.eqb cur next then []
       else sys_convert_grades_scale st cur next ++ [SetApplied next])
      ++ [SetScale next] in
    Ok (exec_grade_stmts st writes).

(** ** Attendance percentages (admin.py: [get_students_analytics],
    [get_group_details]) *)

Record attendance_record := mkAttendance {
  ar_id : Z;
  ar_lesson : Z;
  ar_student : Z;
  ar_group : Z;
  ar_status : option string         (* attendance_records.status *)
}.

Record enrollment := mkEnrollment {
  en_group : Z;
  en_student : Z;
  en_is_trial : option bool         (* group_students.is_trial, nullable *)
}.

Record trial_usage := mkTrialUsage {
  tu_student : Z;
  tu_group : Z;
  tu_lesson_start : option timestamp;
  tu_used_at : Z
}.

Record attendance_db := mkAttendanceDb {
  att_lessons : list lesson;
  att_records : list attendance_record;
  att_enrollments : list enrollment;
  att_usages : list trial_usage
}.

(** [CASE ar.status WHEN 'P' THEN 2 WHEN 'E' THEN 2 WHEN 'L' THEN 1
    WHEN 'A' THEN 0 ELSE 0 END] *)
Definition status_points (s : option string) : Z :=
  match s with
  | Some x =>
      if String.eqb x "P" then 2
      else if String.eqb x "E" then 2
      else if String.eqb x "L" then 1
      else 0
  | None => 0
  end.

(** [(COUNT(ar.id), COALESCE(SUM(points), 0))] over the selected records. *)
Definition count_and_points (rs : list attendance_record) : Z * Z :=
  (Z.of_nat (List.length rs), fold_left (fun acc r => acc + status_points (ar_status r)) rs 0).

Definition records_of (a : attendance_db) (s g : Z) : list attendance_record :=
  filter (fun r => (ar_student r =? s) && (ar_group r =? g)) (att_records a).

(** The Python tail shared by both handlers: [max_points_marked =
    marked_lessons * 2] and [round(total_points / max_points_marked * 100, 1)
    if max_points_marked > 0 else 0]. [py_pct p m] stands for Python's
    floating-point [round(p / m * 100, 1)] on the integers [p] and [m]. *)
Definition attendance_percentage {R : Type} (py_pct : Z -> Z -> R) (zero : R)
  (cp : Z * Z) : R :=
  let '(marked, points) := cp in
  let max_points_marked := marked * 2 in
  if 0 <? max_points_marked then py_pct points max_points_marked else zero.

(** [get_students_analytics]: the student's records in the group, through
    [LEFT JOIN attendance_records ar ON ar.student_id = $1 AND
    ar.group_id = g.id]. *)
Definition analytics_percentage {R : Type} (py_pct : Z -> Z -> R) (zero : R)
  (a : attendance_db) (s g : Z) : R :=
  attendance_percentage py_pct zero (count_and_points (records_of a s g)).

(** The latest [trial_lesson_usages] row of the student in the group
    ([ORDER BY used_at DESC LIMIT 1]). *)
Definition latest_usage (a : attendance_db) (s g : Z) : option trial_usage :=
  fold_left (fun acc u =>
               if (tu_student u =? s) && (tu_group u =? g) then
                 match acc with
                 | Some v => if tu_used_at v <? tu_used_at u then Some u else acc
                 | None => Some u
                 end
               else acc) (att_usages a) None.

Definition lesson_start_of (a : attendance_db) (lid : Z) : option timestamp :=
  option_map lesson_start (find (fun l => lesson_id l =? lid) (att_lessons a)).

(** [agg_trial]: the records joined to their lesson, kept when the lesson
    starts at the trial's selected start (both truncated to the minute,
    which timestamps in minutes already are). *)
Definition trial_records (a : attendance_db) (s g : Z) : list attendance_record :=
  match latest_usage a s g with
  | None => []
  | Some u =>
    match tu_lesson_start u with
    | None => []
    | Some t =>
      filter (fun r => match lesson_start_of a (ar_lesson r) with
                       | Some st => st =? t
                       | None => false
                       end) (records_of a s g)
    end
  end.

Definition enrollment_is_trial (e : enrollment) : bool :=
  match en_is_trial e with Some b => b | None => false end.

(** [get_group_details], for the enrollment row [e] of group [g]. *)
Definition group_details_percentage {R : Type} (py_pct : Z -> Z -> R) (zero : R)
  (a : attendance_db) (e : enrollment) : R :=
  let s := en_student e in
  let g := en_group e in
  attendance_percentage py_pct zero
    (count_and_points (if enrollment_is_trial e then trial_records a s g
                       else records_of a s g)).

(** The exact percentage in tenths, rounded half away from zero; it agrees
    with Python's float [round(p / m * 100, 1)] whenever [p / m * 100] is
    exact in binary floating point and not a tie, as for 50.0 and 100.0. *)
Definition pct_tenths (p m : Z) : Z := round_div (p * 1000) m.

(** ** Trial lessons (groups.py [trial_lesson]; admin.py trial endpoints) *)

Record student := mkStudent {
  st_id : Z;
  st_user : Z;
  st_trial_used : bool;
  st_trials_allowed : Z;
  st_trials_used : Z
}.

Record trial_db := mkTrialDb {
  tr_students : list student;
  tr_enrollments : list enrollment;
  tr_trials_enabled : option bool   (* system_settings "trial_lessons.enabled" *)
}.

(** [get_bool_setting(pool, "trial_lessons.enabled", default=True)] *)
Definition trials_enabled (d : trial_db) : bool :=
  match tr_trials_enabled d with Some b => b | None => true end.

Definition find_student_by_user (d : trial_db) (uid : Z) : option student :=
  find (fun s => st_user s =? uid) (tr_students d).

Definition set_student (d : trial_db) (s : student) : trial_db :=
  mkTrialDb (map (fun x => if st_id x =? st_id s then s else x) (tr_students d))
            (tr_enrollments d) (tr_trials_enabled d).

(** [trial_lesson]: the role check, then one transaction holding the
    student row [FOR UPDATE]. *)
Definition trial_lesson (d : trial_db) (role : string) (uid g : Z) : result trial_db :=
  if negb (String.eqb role "student") then Err 403
  else
    match find_student_by_user d uid with
    | None => Err 404
    | Some s =>
        let used := st_trials_used s in
        let allowed := st_trials_allowed s in
        if allowed <=? used then Err 409
        else if existsb (fun e => (en_group e =? g) && (en_student e =? st_id s))
                        (tr_enrollments d) then Err 409
        else
          let d1 := mkTrialDb (tr_students d)
                              (tr_enrollments d ++ [mkEnrollment g (st_id s) (Some true)])
                              (tr_trials_enabled d) in
          let new_used := used + 1 in
          Ok (set_student d1 (mkStudent (st_id s) (st_user s) (allowed <=? new_used)
                                        allowed new_used))
    end.

(** [adjust_student_trial_lessons], past its setting check. *)
Definition adjust_trials (d : trial_db) (sid delta : Z) : result trial_db :=
  match find (fun s => st_id s =? sid) (tr_students d) with
  | None => Err 404
  | Some s =>
      let new_allowed := st_trials_allowed s + delta in
      if new_allowed <? st_trials_used s then Err 400
      else
        Ok (set_student d (mkStudent (st_id s) (st_user s) (st_trial_used s)
                                     (Z.max new_allowed 0) (st_trials_used s)))
  end.

Inductive trial_request :=
| StudentTrial (role : string) (uid g : Z)        (* POST /groups/{id}/trial *)
| AdminTrialStudents                              (* GET /admin/trial-lessons/students *)
| AdminAdjustTrials (sid delta : Z)               (* POST .../students/{id}/adjust *)
| AdminTrialHistory (sid : Z).                    (* GET .../students/{id}/history *)

(** The trial-related routes; the admin ones begin with
    [if not enabled: raise HTTPException(403, ...)]. *)
Definition handle_trial (d : trial_db) (q : trial_request) : result trial_db :=
  match q with
  | StudentTrial role uid g => trial_lesson d role uid g
  | AdminTrialStudents => if trials_enabled d then Ok d else Err 403
  | AdminAdjustTrials sid delta =>
      if trials_enabled d then adjust_trials d sid delta else Err 403
  | AdminTrialHistory _ => if trials_enabled d then Ok d else Err 403
  end.

(** ** Invariants of the lesson store, as executable checks *)

Definition lesson_end (l : lesson) : timestamp :=
  lesson_start l + coalesce60 (lesson_duration l).

Definition same_group (l1 l2 : lesson) : bool :=
  match lesson_group l1, lesson_group l2 with
  | Some a, Some b => a =? b
  | _, _ => false
  end.

(** No two lessons of one group overlap as half-open intervals. *)
Definition no_overlap_b (d : db) : bool :=
  forallb (fun l1 =>
    forallb (fun l2 =>
      (lesson_id l1 =? lesson_id l2) || negb (same_group l1 l2)
      || negb (half_open_overlap (lesson_start l1) (lesson_end l1)
                                 (lesson_start l2) (lesson_end l2)))
      (lessons d)) (lessons d).

Fixpoint ids_distinct (ls : list lesson) : bool :=
  match ls with
  | [] => true
  | l :: t => negb (existsb (fun l' => lesson_id l' =? lesson_id l) t) && ids_distinct t
  end.

(** Well-formed store: [lessons.id] is a key below the sequence, and every
    stored duration is positive. *)
Definition store_ok_b (d : db) : bool :=
  ids_distinct (lessons d)
  && forallb (fun l => lesson_id l <? next_lesson_id d) (lessons d)
  && forallb (fun l => match lesson_duration l with Some x => 0 <? x | None => false end)
             (lessons d).

(** Every lesson of group [g] has a positive stored duration. *)
Definition group_durations_pos_b (d : db) (g : Z) : bool :=
  forallb (fun l => negb (in_group g l)
                    || match lesson_duration l with Some x => 0 <? x | None => false end)
          (lessons d).

(** Number of lessons of group [g] starting at [t]. *)
Definition count_at (d : db) (g : Z) (t : timestamp) : nat :=
  List.length (filter (fun l => in_group g l && (lesson_start l =? t)) (lessons d)).

(** ** [delete_group_schedule] (admin.py, DELETE /admin/groups/{id}/schedule/{day_of_week}) *)

(** [now] is [NOW()], compared with [lessons.start_time] in the same naive
    local frame. The schedule row is read before the transaction; inside it
    the row is deleted, the future lessons of that slot are deleted, and the
    sync step rebuilds the group's rows from the lessons left. *)
Definition delete_group_schedule (d : db) (g dw : Z) (now : timestamp) : result db :=
  if negb ((0 <=? dw) && (dw <=? 6)) then Err 400
  else
    match find_group d g with
    | None => Err 404
    | Some _ =>
        let rows := filter (fun r => negb (sched_key g dw r)) (schedules d) in
        let ls :=
          match find (sched_key g dw) (schedules d) with
          | Some before =>
              filter (fun l => negb (in_group g l
                                     && (sql_dow (lesson_start l) =? dw)
                                     && (sql_time (lesson_start l) =? sched_time before)
                                     && (now <=? lesson_start l))) (lessons d)
          | None => lessons d
          end in
        Ok (sync_group_schedules (mkDb (groups d) ls rows (next_lesson_id d)) g)
    end.

(** ** [delete_lesson] (admin.py, DELETE /admin/lessons/{id}) *)

(** The lesson is read with [JOIN groups]; the [DELETE] runs whatever the
    read found, and the sync step runs when the read found a group id that
    is truthy ([if group_id:]). The notifications do not touch the store. *)
Definition delete_lesson (d : db) (lid : Z) : db :=
  let gid :=
    match find (fun l => lesson_id l =? lid) (lessons d) with
    | Some l =>
        match lesson_group l with
        | Some g => match find_group d g with Some _ => Some g | None => None end
        | None => None
        end
    | None => None
    end in
  let d1 := mkDb (groups d) (filter (fun l => negb (lesson_id l =? lid)) (lessons d))
                 (schedules d) (next_lesson_id d) in
  match gid with
  | Some g => if g =? 0 then d1 else sync_group_schedules d1 g
  | None => d1
  end.

(** ** [approve_reschedule_request] (admin.py, POST /admin/reschedule-requests/{id}/approve) *)

Record reschedule_request := mkRescheduleRequest {
  rr_id : Z;
  rr_lesson : Z;
  rr_status : string;
  rr_new_start : option timestamp;  (* reschedule_requests.new_start_time *)
  rr_new_date : option date;        (* reschedule_requests.new_date *)
  rr_new_time : option time         (* reschedule_requests.new_time *)
}.

Record resched_db := mkReschedDb {
  rs_db : db;
  rs_requests : list reschedule_request
}.

(** [new_start_time], else [datetime.combine(new_date, new_time)] when both
    are set (a [date] and a [time] are always truthy). *)
Definition request_new_start (q : reschedule_request) : option timestamp :=
  match rr_new_start q with
  | Some t => Some t
  | None =>
      match rr_new_date q, rr_new_time q with
      | Some x, Some t => Some (combine x t)
      | _, _ => None
      end
  end.

(** The request is read joined to its lesson and the lesson's group; then
    one transaction marks it approved and moves the lesson. *)
Definition approve_reschedule_request (rd : resched_db) (rid : Z) : result resched_db :=
  match find (fun q => rr_id q =? rid) (rs_requests rd) with
  | None => Err 404
  | Some q =>
      match find (fun l => lesson_id l =? rr_lesson q) (lessons (rs_db rd)) with
      | None => Err 404
      | Some l =>
          match lesson_group l with
          | None => Err 404
          | Some g =>
              match find_group (rs_db rd) g with
              | None => Err 404
              | Some _ =>
                  match request_new_start q with
                  | None => Err 400
                  | Some t =>
                      Ok (mkReschedDb
                            (update_start (rs_db rd) (rr_lesson q) t)
                            (map (fun x => if rr_id x =? rid
                                           then mkRescheduleRequest (rr_id x) (rr_lesson x)
                                                  "approved" (rr_new_start x)
                                                  (rr_new_date x) (rr_new_time x)
                                           else x) (rs_requests rd)))
                  end
              end
          end
      end
  end.

(** ** [get_group_attendance_summary] (admin.py, GET /admin/groups/{id}/attendance-summary) *)

(** [ar.status = 'x']; a NULL status matches nothing. *)
Definition status_is (x : string) (r : attendance_record) : bool :=
  match ar_status r with Some s => String.eqb s x | None => false end.

Definition count_status (x : string) (rs : list attendance_record) : Z :=
  Z.of_nat (List.length (filter (status_is x) rs)).

Record summary_row := mkSummaryRow {
  sm_total : Z;                     (* COUNT(ar.id) *)
  sm_present : Z;
  sm_excused : Z;
  sm_late : Z;
  sm_absent : Z;
  sm_pct : Z                        (* attendance_percentage, in tenths *)
}.

(** The aggregates of one [GROUP BY s.id] group of joined rows. The
    [ROUND(x / (COUNT(ar.id) * 2.0) * 100, 1)] of PostgreSQL numerics
    rounds half away from zero; it is [pct_tenths] as long as the division
    keeps enough digits, which it does for denominators below 10^12. *)
Definition summary_of (rs : list attendance_record) : summary_row :=
  let total := Z.of_nat (List.length rs) in
  let p := count_status "P" rs in
  let e := count_status "E" rs in
  let l := count_status "L" rs in
  let a := count_status "A" rs in
  mkSummaryRow total p e l a
    (if total =? 0 then 0 else pct_tenths (p * 2 + e * 2 + l * 1 + a * 0) (total * 2)).

(** The attendance rows the query groups for student [s]: every
    [group_students] row of [s] in [g] is joined ([LEFT JOIN
    attendance_records ar ON ar.student_id = s.id AND ar.group_id = $1])
    with all of the student's records in the group; a row without records
    contributes a NULL [ar.id], which [COUNT] skips. *)
Definition summary_rows_of (a : attendance_db) (g s : Z) : list attendance_record :=
  flat_map (fun e => if (en_group e =? g) && (en_student e =? s) then records_of a s g else [])
           (att_enrollments a).

(** One row per enrolled student (students and users exist for every
    enrollment; the [ORDER BY u.name] is not modelled). *)
Definition group_attendance_summary (a : attendance_db) (g : Z) : list (Z * summary_row) :=
  map (fun s => (s, summary_of (summary_rows_of a g s)))
      (nodup Z.eq_dec (map en_student (filter (fun e => en_group e =? g) (att_enrollments a)))).

(** ** [save_lesson_attendance] (admin.py, POST /admin/groups/{g}/lessons/{l}/attendance) *)

Record att_entry := mkAttEntry {
  ae_student : Z;
  ae_status : string
}.

Definition valid_status (x : string) : bool :=
  String.eqb x "P" || String.eqb x "E" || String.eqb x "L" || String.eqb x "A".

(** The inserted rows, with ids from the sequence, in request order. *)
Fixpoint att_inserts (n lid g : Z) (es : list att_entry) : list attendance_record :=
  match es with
  | [] => []
  | e :: t => mkAttendance n lid (ae_student e) g (Some (ae_status e)) :: att_inserts (n + 1) lid g t
  end.

(** The lesson is read with [JOIN groups g ON g.id = l.group_id WHERE l.id
    = $1 AND l.group_id = $2]; the statuses are checked; then one
    transaction deletes every record of the lesson and inserts the
    submitted ones. Returns the store and the next record id. *)
Definition save_lesson_attendance (gids : list Z) (a : attendance_db) (next_id g lid : Z)
  (es : list att_entry) : result (attendance_db * Z) :=
  match find (fun l => (lesson_id l =? lid) && in_group g l) (att_lessons a) with
  | None => Err 404
  | Some _ =>
      if negb (existsb (fun x => x =? g) gids) then Err 404
      else if negb (forallb (fun e => valid_status (ae_status e)) es) then Err 400
      else
        Ok (mkAttendanceDb (att_lessons a)
              (filter (fun r => negb (ar_lesson r =? lid)) (att_records a)
               ++ att_inserts next_id lid g es)
              (att_enrollments a) (att_usages a),
            next_id + Z.of_nat (List.length es))
  end.

(** ** [join_group] (groups.py, POST /groups/{id}/join) *)

Record group_info := mkGroupInfo {
  gi_id : Z;
  gi_capacity : option Z;           (* groups.capacity, nullable *)
  gi_closed : option bool           (* groups.is_closed *)
}.

Definition find_info (gs : list group_info) (g : Z) : option group_info :=
  find (fun x => gi_id x =? g) gs.

(** The [COUNT] over [group_students gs WHERE gs.group_id = $1 AND
    gs.is_trial = FALSE]: a NULL [is_trial] is not counted. *)
Definition regular_count (es : list enrollment) (g : Z) : Z :=
  Z.of_nat (List.length (filter (fun e => (en_group e =? g)
                                  && match en_is_trial e with Some false => true | _ => false end)
                                es)).

(** The checks in order: role (403), student profile with a truthy id
    (404), group (404), [is_closed] (409), [already_joined] (409, trial
    enrollments included), then [if capacity and enrolled >= capacity]
    (409). The insert then meets no conflicting row. *)
Definition join_group (gs : list group_info) (d : trial_db) (role : string) (uid g : Z)
  : result trial_db :=
  if negb (String.eqb role "student") then Err 403
  else
    match find_student_by_user d uid with
    | None => Err 404
    | Some s =>
        if st_id s =? 0 then Err 404
        else
          match find_info gs g with
          | None => Err 404
          | Some gi =>
              if match gi_closed gi with Some b => b | None => false end then Err 409
              else if existsb (fun e => (en_group e =? g) && (en_student e =? st_id s))
                              (tr_enrollments d) then Err 409
              else if match gi_capacity gi with
                      | Some c => negb (c =? 0) && (c <=? regular_count (tr_enrollments d) g)
                      | None => false
                      end then Err 409
              else Ok (mkTrialDb (tr_students d)
                                 (tr_enrollments d ++ [mkEnrollment g (st_id s) (Some false)])
                                 (tr_trials_enabled d))
          end
    end.

(** ** [admin_update_settings] (syssettings.py, PATCH /admin/settings) *)

Record settings_store := mkSettingsStore {
  ss_grades : grade_store;          (* the grades and "grades.scale(_applied)" *)
  ss_registration : option bool;    (* "registration.enabled" *)
  ss_trials : option bool;          (* "trial_lessons.enabled" *)
  ss_teacher_edit : option bool     (* "grades.teacher_edit_enabled" *)
}.

Record settings_request := mkSettingsRequest {
  sq_registration : option bool;
  sq_trials : option bool;
  sq_scale : option string;         (* [str(data.grades_scale).strip()] *)
  sq_teacher_edit : option bool
}.

Definition count_some {A : Type} (o : option A) : Z :=
  match o with Some _ => 1 | None => 0 end.

(** Each [set_setting_value] commits on its own, so the handler returns the
    state it leaves together with its outcome. The closing block [if
    current_scale != next_scale and data.grades_scale is None] never runs:
    [next_scale] only moves when [grades_scale] is given. Notifications and
    the audit log do not touch these settings. *)
Definition admin_update_settings (s : settings_store) (q : settings_request)
  : settings_store * result unit :=
  let s1 := match sq_registration q with
            | Some b => mkSettingsStore (ss_grades s) (Some b) (ss_trials s) (ss_teacher_edit s)
            | None => s end in
  let s2 := match sq_trials q with
            | Some b => mkSettingsStore (ss_grades s1) (ss_registration s1) (Some b)
                                        (ss_teacher_edit s1)
            | None => s1 end in
  let r3 := match sq_scale q with
            | Some v =>
                match admin_update_scale (ss_grades s2) v with
                | Ok gs => Ok (mkSettingsStore gs (ss_registration s2) (ss_trials s2)
                                              (ss_teacher_edit s2))
                | Err c => Err c
                end
            | None => Ok s2 end in
  match r3 with
  | Err c => (s2, Err c)
  | Ok s3 =>
      let s4 := match sq_teacher_edit q with
                | Some b => mkSettingsStore (ss_grades s3) (ss_registration s3) (ss_trials s3)
                                            (Some b)
                | None => s3 end in
      let updates := count_some (sq_registration q) + count_some (sq_trials q)
                     + count_some (sq_scale q) + count_some (sq_teacher_edit q) in
      if updates =? 0 then (s4, Err 400) else (s4, Ok tt)
  end.

(** ** [_get_value_select_with_scale] (grades.py) *)

(** [settings.get("grades.scale_applied", current_scale)]: the key is always
    in the dict [get_settings_values] returns, as [None] when unset, so an
    unset marker gives factor 1. *)
Definition value_select_factor (st : grade_store) : option (Z * Z) :=
  let cur := current_scale st in
  match setting_applied st with
  | Some a =>
      if String.eqb a "0-5" && String.eqb cur "0-100" then Some (20, 1)
      else if String.eqb a "0-100" && String.eqb cur "0-5" then Some (5, 100)
      else None
  | None => None
  end.

(** [gr.value], or [COALESCE(gr.value, gr.grade_value)] with the legacy
    column. *)
Definition base_value (st : grade_store) (r : grade_row) : option Z :=
  if has_grade_value_col st
  then match gr_value r with Some x => Some x | None => gr_grade_value r end
  else gr_value r.

(** The [value] column the grade listings select. *)
Definition selected_value (st : grade_store) (r : grade_row) : option Z :=
  match value_select_factor st with
  | None => base_value st r
  | Some f => option_map (rescale f) (base_value st r)
  end.

(** ** Examples and auxiliary notions used by the properties *)

(** A group holding one lesson 10:30-11:30 on day 0 (timestamps in minutes). *)
Definition ex_conflict_db : db :=
  mkDb [mkGroup 1 (Some 0) None (Some 60) false]
       [mkLesson 1 (Some 1) 630 (Some 60)] [] 2.

Definition no_overlap_list (ls : list lesson) : Prop :=
  forall l1 l2, In l1 ls -> In l2 ls -> lesson_id l1 <> lesson_id l2 ->
    same_group l1 l2 = true ->
    half_open_overlap (lesson_start l1) (lesson_end l1) (lesson_start l2) (lesson_end l2)
    = false.

Definition ex_single_request : lesson_request :=
  mkLessonRequest 0 700 760 false None None.

(** Group 1 starts on Monday 2024-01-01 (day 19723), lessons of 90 minutes,
    and already holds a lesson at 10:30-11:30 that day. *)
Definition ex_schedule_db : db :=
  mkDb [mkGroup 1 (Some 19723) None (Some 90) false]
       [mkLesson 1 (Some 1) (combine 19723 630) (Some 60)] [] 2.

(** A group starting on Monday 2024-01-01 (day 19723) that already holds a
    lesson on that Monday at 10:00. *)
Definition ex_monday_db : db :=
  mkDb [mkGroup 1 (Some 19723) None (Some 90) false]
       [mkLesson 1 (Some 1) (combine 19723 600) (Some 90)] [] 2.

Definition ex_monday_result : result (db * Z) :=
  add_group_schedule ex_monday_db 1 1 600 660 19723.

Definition ex_monday_out : db * Z :=
  match ex_monday_result with Ok p => p | Err _ => (ex_monday_db, 0) end.

(** The row as one run of [_convert_grades_scale] with factor [f] leaves it. *)
Definition conv_row (hv hg : bool) (f : Z * Z) (r : grade_row) : grade_row :=
  mkGradeRow (if hv then option_map (rescale f) (gr_value r) else gr_value r)
             (if hg then option_map (rescale f) (gr_grade_value r) else gr_grade_value r).

Definition in_0_5 (o : option Z) : Prop :=
  match o with Some k => 0 <= k <= 500 | None => True end.

Definition ex_grade_store : grade_store :=
  mkGradeStore [mkGradeRow (Some 450) None; mkGradeRow (Some 300) (Some 300)]
               true true (Some "0-5"%string) (Some "0-5"%string).

(** The percentage as the attendance section of the spec words it, over a
    list of records: points summed, divided by twice the count, and 0 when
    the list is empty. *)
Definition spec_attendance_percentage {R : Type} (py_pct : Z -> Z -> R) (zero : R)
  (rs : list attendance_record) : R :=
  if (List.length rs =? 0)%nat then zero
  else py_pct (fold_right (fun r acc => status_points (ar_status r) + acc) 0 rs)
              (2 * Z.of_nat (List.length rs)).

(** Student 7 in group 5: present (P) at the trial lesson 10, absent (A) at
    lesson 11, and a second student 8 with a P record and a record whose
    status is NULL. *)
Definition ex_attendance_db : attendance_db :=
  mkAttendanceDb
    [mkLesson 10 (Some 5) 1000 (Some 60); mkLesson 11 (Some 5) 2000 (Some 60)]
    [mkAttendance 1 10 7 5 (Some "P"%string); mkAttendance 2 11 7 5 (Some "A"%string);
     mkAttendance 3 10 8 5 (Some "P"%string); mkAttendance 4 11 8 5 None]
    [mkEnrollment 5 7 (Some true); mkEnrollment 5 8 (Some false)]
    [mkTrialUsage 7 5 (Some 1000) 1].

Definition last_pattern_row (g dw : Z) (P : list (Z * Z)) (acc : option schedule_row)
  : option schedule_row :=
  fold_left (fun acc p => if fst p =? dw then Some (mkSchedule g dw (snd p) true) else acc) P acc.

(** Every row of group [g] is the one a lookup on its day returns. *)
Definition rows_agree (g : Z) (rows : list schedule_row) : Prop :=
  forall r, In r rows -> sched_group r = g -> find (sched_key g (sched_dow r)) rows = Some r.

Definition ex_created_db : db :=
  match create_group_lessons ex_conflict_db 1 ex_single_request with
  | Ok d' => d'
  | Err _ => ex_conflict_db
  end.

Definition trials_within (d : trial_db) : Prop :=
  forall x, In x (tr_students d) -> st_trials_used x <= st_trials_allowed x.

Definition enrolled_in (d : trial_db) (g sid : Z) : bool :=
  existsb (fun e => (en_group e =? g) && (en_student e =? sid)) (tr_enrollments d).

(** Student 3 (user 30) with one trial allowed and none used. *)
Definition ex_trial_student : student := mkStudent 3 30 false 1 0.

Definition ex_trial_db : trial_db := mkTrialDb [ex_trial_student] [] (Some true).

(** A group with one active Monday 10:00 row, and no lessons yet. *)
Definition ex_gli_db : db :=
  mkDb [mkGroup 1 (Some 19723) None (Some 90) false] [] [mkSchedule 1 1 600 true] 1.

(** Group 1 has a Monday 10:00 row and lessons on Monday 2024-01-01 (day
    19723) and on the next Monday, both at 10:00. *)
Definition ex_dgs_db : db :=
  mkDb [mkGroup 1 (Some 19723) None (Some 90) false]
       [mkLesson 1 (Some 1) (combine 19723 600) (Some 90);
        mkLesson 2 (Some 1) (combine 19730 600) (Some 90)]
       [mkSchedule 1 1 600 true] 3.

(** The Monday row deleted on Wednesday 2024-01-03 at midnight. *)
Definition ex_dgs_out : db :=
  match delete_group_schedule ex_dgs_db 1 1 (combine 19725 0) with
  | Ok d' => d'
  | Err _ => ex_dgs_db
  end.

Definition ex_weekly_request : lesson_request :=
  mkLessonRequest 0 700 760 true (Some 21) (Some "weekly"%string).

Definition ex_weekly_out : db :=
  match create_group_lessons ex_conflict_db 1 ex_weekly_request with
  | Ok d' => d'
  | Err _ => ex_conflict_db
  end.

(** Lesson 2 of group 1 asked to move onto 10:00, where lesson 1 runs
    10:30-11:30; the request was rejected before. *)
Definition ex_resched_rd : resched_db :=
  mkReschedDb
    (mkDb [mkGroup 1 (Some 0) None (Some 60) false]
          [mkLesson 1 (Some 1) 630 (Some 60); mkLesson 2 (Some 1) 800 (Some 60)] [] 3)
    [mkRescheduleRequest 1 2 "rejected" (Some 600) None None].

(** Each student has at most one [group_students] row per group. *)
Definition enroll_unique (es : list enrollment) : Prop :=
  NoDup (map (fun e => (en_group e, en_student e)) es).

(** No group with a positive capacity holds more regular students. *)
Definition capacity_ok (gs : list group_info) (es : list enrollment) : Prop :=
  forall g gi c, find_info gs g = Some gi -> gi_capacity gi = Some c -> 0 < c ->
    regular_count es g <= c.

(** Group 5 with capacity 2 and one regular student (8); student 4 (user 40)
    has no enrollment. *)
Definition ex_join_groups : list group_info := [mkGroupInfo 5 (Some 2) (Some false)].

Definition ex_join_db : trial_db :=
  mkTrialDb [ex_trial_student; mkStudent 4 40 false 0 0] [mkEnrollment 5 8 (Some false)] None.

(** Settings on the 0-5 scale, marker up to date, both value columns present. *)
Definition ex_settings : settings_store :=
  mkSettingsStore
    (mkGradeStore [mkGradeRow (Some 450) None; mkGradeRow (Some 500) (Some 300)]
                  true true (Some "0-5"%string) (Some "0-5"%string))
    (Some true) (Some true) (Some false).

(** * Properties *)

(** Case on every boolean comparison of integers in sight. *)
Ltac zbool :=
  repeat
    match goal with
    | |- context [?x <=? ?y] => destruct (Z.leb_spec x y)
    | |- context [?x <? ?y] => destruct (Z.ltb_spec x y)
    | |- context [?x =? ?y] => destruct (Z.eqb_spec x y)
    | _ : context [?x <=? ?y] |- _ => destruct (Z.leb_spec x y)
    | _ : context [?x <? ?y] |- _ => destruct (Z.ltb_spec x y)
    | _ : context [?x =? ?y] |- _ => destruct (Z.eqb_spec x y)
    end;
  simpl in *.

(** With a positive stored duration and a proposal of positive length, the
    three-disjunct test of [create_group_lessons] is the half-open overlap. *)
Lemma overlaps_cgl_half_open (s e : timestamp) (l : lesson) (dur : Z) :
  s < e -> lesson_duration l = Some dur -> 0 < dur ->
  overlaps_cgl s e l = half_open_overlap s e (lesson_start l) (lesson_start l + dur).
Proof.
  intros Hse Hd Hpos. unfold overlaps_cgl, half_open_overlap. rewrite Hd.
  zbool; try reflexivity; try lia.
Qed.

Lemma overlaps_resched_half_open (moved s e : timestamp) (l : lesson) :
  overlaps_resched moved s e l
  = negb (lesson_id l =? moved) && half_open_overlap s e (lesson_start l) (lesson_end l).
Proof.
  unfold overlaps_resched, half_open_overlap, lesson_end.
  destruct (lesson_id l =? moved); simpl; [reflexivity|].
  apply andb_comm.
Qed.

Lemma half_open_overlap_sym (a b c e : Z) :
  half_open_overlap a b c e = half_open_overlap c e a b.
Proof. unfold half_open_overlap. apply andb_comm. Qed.

Lemma find_isSome_iff {A : Type} (f : A -> bool) (l : list A) :
  find f l <> None <-> exists x, In x l /\ f x = true.
Proof.
  split.
  - destruct (find f l) eqn:E; [|congruence]. intros _.
    apply find_some in E. exists a. exact E.
  - intros [x [Hin Hx]] E. pose proof (find_none f l E x Hin). congruence.
Qed.

Lemma group_durations_pos_spec (d : db) (g : Z) (l : lesson) :
  group_durations_pos_b d g = true -> In l (lessons d) -> in_group g l = true ->
  exists dur, lesson_duration l = Some dur /\ 0 < dur.
Proof.
  unfold group_durations_pos_b. rewrite forallb_forall. intros H Hin Hg.
  specialize (H l Hin). rewrite Hg in H. simpl in H.
  destruct (lesson_duration l) as [x|]; [|discriminate].
  exists x. split; [reflexivity|]. apply Z.ltb_lt. exact H.
Qed.

Lemma overlaps_cgl_lesson_end (s e : timestamp) (l : lesson) :
  s < e -> (exists dur, lesson_duration l = Some dur /\ 0 < dur) ->
  overlaps_cgl s e l = half_open_overlap s e (lesson_start l) (lesson_end l).
Proof.
  intros Hse [dur [Hd Hpos]].
  unfold lesson_end. rewrite Hd. simpl. apply overlaps_cgl_half_open; assumption.
Qed.

(** C2 (as amended). For a proposal [s1, e1) with [s1 < e1] and a group
    whose stored lessons all have a positive duration: the overlap query of
    [create_group_lessons] finds a lesson exactly when some lesson [l] of
    the group has [s1 < e2 /\ s2 < e1]; the query of [reschedule_lesson]
    does the same over the lessons other than the moved one; neither
    reports back-to-back intervals; and the moved lesson's proposal ends
    at [s1] plus its own (positive) duration. *)
Theorem conflict_checks_half_open (d : db) (g moved s1 e1 : Z) :
  s1 < e1 ->
  group_durations_pos_b d g = true ->
  (find_overlap_cgl d g s1 e1 <> None <->
     exists l, In l (lessons d) /\ in_group g l = true /\
       half_open_overlap s1 e1 (lesson_start l) (lesson_end l) = true)
  /\ (find_conflict_resched d g moved s1 e1 <> None <->
     exists l, In l (lessons d) /\ in_group g l = true /\ lesson_id l <> moved /\
       half_open_overlap s1 e1 (lesson_start l) (lesson_end l) = true)
  /\ (forall l, In l (lessons d) -> in_group g l = true ->
       (lesson_end l = s1 \/ e1 = lesson_start l) ->
       overlaps_cgl s1 e1 l = false /\ overlaps_resched moved s1 e1 l = false)
  /\ (forall l dur, lesson_duration l = Some dur -> 0 < dur ->
       s1 + py_or60 (lesson_duration l) = s1 + dur).
Proof.
  intros Hse Hpos. split; [|split; [|split]].
  - unfold find_overlap_cgl.
    assert (Hf : forall o : option lesson, option_map lesson_id o <> None <-> o <> None)
      by (intros [x|]; simpl; split; congruence).
    rewrite Hf, find_isSome_iff. split.
    + intros [l [Hin Hl]]. apply andb_true_iff in Hl as [Hg Ho].
      exists l. repeat split; try assumption.
      rewrite <- overlaps_cgl_lesson_end; try assumption.
      exact (group_durations_pos_spec d g l Hpos Hin Hg).
    + intros [l [Hin [Hg Ho]]]. exists l. split; [exact Hin|].
      rewrite Hg. simpl.
      rewrite overlaps_cgl_lesson_end; try assumption.
      exact (group_durations_pos_spec d g l Hpos Hin Hg).
  - unfold find_conflict_resched. rewrite find_isSome_iff. split.
    + intros [l [Hin Hl]]. apply andb_true_iff in Hl as [Hg Ho].
      rewrite overlaps_resched_half_open in Ho.
      apply andb_true_iff in Ho as [Hid Ho].
      exists l. repeat split; try assumption.
      apply negb_true_iff, Z.eqb_neq in Hid. exact Hid.
    + intros [l [Hin [Hg [Hid Ho]]]]. exists l. split; [exact Hin|].
      rewrite Hg, overlaps_resched_half_open, Ho. simpl.
      apply Z.eqb_neq in Hid. rewrite Hid. reflexivity.
  - intros l Hin Hg Hadj.
    assert (Hh : half_open_overlap s1 e1 (lesson_start l) (lesson_end l) = false).
    { pose proof (group_durations_pos_spec d g l Hpos Hin Hg) as [dur [Hd Hp]].
      unfold half_open_overlap, lesson_end in *. rewrite Hd in *. simpl in *.
      destruct Hadj; zbool; reflexivity || lia. }
    split.
    + rewrite overlaps_cgl_lesson_end; try assumption.
      exact (group_durations_pos_spec d g l Hpos Hin Hg).
    + rewrite overlaps_resched_half_open, Hh. apply andb_false_r.
  - intros l dur Hd Hp. rewrite Hd. unfold py_or60, py_or.
    destruct (Z.eqb_spec dur 0); [lia | reflexivity].
Qed.


Lemma conflict_checks_half_open_witness :
  600 < 660 /\ group_durations_pos_b ex_conflict_db 1 = true
  /\ find_overlap_cgl ex_conflict_db 1 600 660 <> None.
Proof.
  split; [lia|]. split; [reflexivity|].
  apply (proj2 (proj1 (conflict_checks_half_open ex_conflict_db 1 7 600 660
                         ltac:(lia) eq_refl))).
  exists (mkLesson 1 (Some 1) 630 (Some 60)).
  split; [left; reflexivity|]. split; reflexivity.
Defined.

(** C2 as stated fails on a stored lesson of duration 0 (which
    [create_lesson] of lessons.py stores for [duration = "0"]): the query of
    [create_group_lessons] reports the zero-length lesson at 10:00 as a
    conflict with a proposal 10:00-11:00, which the half-open test does not. *)
Lemma conflict_checks_zero_duration_counterexample :
  ~ (find_overlap_cgl (mkDb [] [mkLesson 1 (Some 1) 600 (Some 0)] [] 2) 1 600 660 <> None
     <-> exists l, In l [mkLesson 1 (Some 1) 600 (Some 0)] /\ in_group 1 l = true /\
           half_open_overlap 600 660 (lesson_start l) (lesson_end l) = true).
Proof.
  intros [H _].
  assert (Hf : find_overlap_cgl (mkDb [] [mkLesson 1 (Some 1) 600 (Some 0)] [] 2) 1 600 660
               <> None) by (vm_compute; discriminate).
  destruct (H Hf) as [l [Hin [_ Ho]]].
  destruct Hin as [<- | []]. vm_compute in Ho. discriminate.
Qed.

(** ** The no-overlap invariant on the paths that consult a check *)


Lemma no_overlap_b_spec (d : db) : no_overlap_b d = true <-> no_overlap_list (lessons d).
Proof.
  unfold no_overlap_b, no_overlap_list. rewrite forallb_forall. split.
  - intros H l1 l2 H1 H2 Hid Hsg. specialize (H l1 H1). rewrite forallb_forall in H.
    specialize (H l2 H2). apply Z.eqb_neq in Hid. rewrite Hid, Hsg in H. simpl in H.
    apply negb_true_iff. exact H.
  - intros H l1 H1. rewrite forallb_forall. intros l2 H2.
    destruct (Z.eqb_spec (lesson_id l1) (lesson_id l2)); [reflexivity|].
    destruct (same_group l1 l2) eqn:Hsg; [|reflexivity]. simpl.
    rewrite (H l1 l2 H1 H2 n Hsg). reflexivity.
Qed.

Lemma same_group_sym (l1 l2 : lesson) : same_group l1 l2 = same_group l2 l1.
Proof.
  unfold same_group. destruct (lesson_group l1), (lesson_group l2); try reflexivity.
  apply Z.eqb_sym.
Qed.

Lemma ids_distinct_app1 (ls : list lesson) (x : lesson) :
  ids_distinct ls = true -> (forall l, In l ls -> lesson_id l <> lesson_id x) ->
  ids_distinct (ls ++ [x]) = true.
Proof.
  induction ls as [|a t IH]; intros Hd Hx; [reflexivity|].
  simpl in Hd |- *. apply andb_true_iff in Hd as [Hna Ht].
  rewrite IH; [| exact Ht | intros l Hl; apply Hx; right; exact Hl].
  rewrite existsb_app. simpl.
  assert (Hax : (lesson_id x =? lesson_id a) = false)
    by (apply Z.eqb_neq; intro E; apply (Hx a (or_introl eq_refl)); symmetry; exact E).
  rewrite Hax. apply negb_true_iff in Hna. rewrite Hna. reflexivity.
Qed.

Lemma ids_distinct_unique (ls : list lesson) (a b : lesson) :
  ids_distinct ls = true -> In a ls -> In b ls -> lesson_id a = lesson_id b -> a = b.
Proof.
  induction ls as [|x t IH]; intros Hd Ha Hb Hab; [destruct Ha|].
  simpl in Hd. apply andb_true_iff in Hd as [Hnx Ht]. apply negb_true_iff in Hnx.
  destruct Ha as [Ea|Ha], Hb as [Eb|Hb]; try congruence.
  - exfalso. subst x. assert (existsb (fun l' => lesson_id l' =? lesson_id a) t = true)
      by (apply existsb_exists; exists b; split; [exact Hb|]; apply Z.eqb_eq; auto).
    congruence.
  - exfalso. subst x. assert (existsb (fun l' => lesson_id l' =? lesson_id b) t = true)
      by (apply existsb_exists; exists a; split; [exact Ha|]; apply Z.eqb_eq; auto).
    congruence.
  - apply IH; assumption.
Qed.

Lemma store_ok_b_spec (d : db) :
  store_ok_b d = true <->
  ids_distinct (lessons d) = true
  /\ (forall l, In l (lessons d) -> lesson_id l < next_lesson_id d)
  /\ (forall l, In l (lessons d) -> exists dur, lesson_duration l = Some dur /\ 0 < dur).
Proof.
  unfold store_ok_b. rewrite !andb_true_iff, !forallb_forall. split.
  - intros [[Hd Hn] Hp]. split; [exact Hd|]. split.
    + intros l Hl. apply Z.ltb_lt. auto.
    + intros l Hl. specialize (Hp l Hl). destruct (lesson_duration l) as [x|]; [|discriminate].
      exists x. split; [reflexivity|]. apply Z.ltb_lt. exact Hp.
  - intros [Hd [Hn Hp]]. split; [split; [exact Hd|]|].
    + intros l Hl. apply Z.ltb_lt. auto.
    + intros l Hl. destruct (Hp l Hl) as [x [-> Hx]]. apply Z.ltb_lt. exact Hx.
Qed.

Lemma find_overlap_cgl_none (d : db) (g s e : Z) (l : lesson) :
  find_overlap_cgl d g s e = None -> In l (lessons d) -> in_group g l = true ->
  overlaps_cgl s e l = false.
Proof.
  unfold find_overlap_cgl. intros H Hin Hg.
  destruct (find (fun l => in_group g l && overlaps_cgl s e l) (lessons d)) eqn:E;
    [discriminate|].
  pose proof (find_none _ _ E l Hin) as Hf. simpl in Hf. rewrite Hg in Hf. exact Hf.
Qed.

Lemma same_group_some (g i : Z) (s : timestamp) (o : option Z) (l : lesson) :
  same_group (mkLesson i (Some g) s o) l = true -> in_group g l = true.
Proof.
  unfold same_group, in_group. simpl. destruct (lesson_group l); [|discriminate].
  rewrite Z.eqb_sym. auto.
Qed.

(** Inserting a lesson that the overlap query of [create_group_lessons]
    let through keeps the store well formed and overlap-free. *)
Lemma insert_checked_preserves (d : db) (g s e : Z) :
  store_ok_b d = true -> no_overlap_b d = true ->
  find_overlap_cgl d g s e = None -> s < e ->
  store_ok_b (insert_lesson d g s (e - s)) = true
  /\ no_overlap_b (insert_lesson d g s (e - s)) = true.
Proof.
  intros Hok Hno Hf Hse.
  pose proof (proj1 (store_ok_b_spec d) Hok) as [Hd [Hn Hp]].
  set (n := mkLesson (next_lesson_id d) (Some g) s (Some (e - s))).
  assert (Hlen : lesson_end n = e) by (unfold lesson_end, n; simpl; lia).
  assert (Hcross : forall l, In l (lessons d) -> same_group n l = true ->
            half_open_overlap (lesson_start n) (lesson_end n) (lesson_start l) (lesson_end l)
            = false).
  { intros l Hl Hsg. apply same_group_some in Hsg.
    pose proof (find_overlap_cgl_none d g s e l Hf Hl Hsg) as Ho.
    rewrite overlaps_cgl_lesson_end in Ho; [| exact Hse | exact (Hp l Hl)].
    rewrite Hlen. exact Ho. }
  split.
  - apply store_ok_b_spec. unfold insert_lesson. simpl. split; [|split].
    + apply ids_distinct_app1; [exact Hd|].
      intros l Hl. specialize (Hn l Hl). simpl. lia.
    + intros l Hl. apply in_app_or in Hl as [Hl|[<-|[]]].
      * specialize (Hn l Hl). lia.
      * simpl. lia.
    + intros l Hl. apply in_app_or in Hl as [Hl|[<-|[]]].
      * exact (Hp l Hl).
      * exists (e - s). split; [reflexivity|lia].
  - apply no_overlap_b_spec. apply no_overlap_b_spec in Hno.
    unfold insert_lesson. simpl. fold n.
    intros l1 l2 H1 H2 Hid Hsg.
    apply in_app_or in H1 as [H1|[<-|[]]]; apply in_app_or in H2 as [H2|[<-|[]]].
    + exact (Hno l1 l2 H1 H2 Hid Hsg).
    + rewrite half_open_overlap_sym. apply Hcross; [exact H1|].
      rewrite same_group_sym. exact Hsg.
    + apply Hcross; assumption.
    + congruence.
Qed.

Lemma cgl_loop_preserves (fuel : nat) (g : Z) (cur end_d : date) (ts te : time)
  (freq : option string) (created : Z) (d d' : db) :
  ts < te -> store_ok_b d = true -> no_overlap_b d = true ->
  cgl_loop fuel g cur end_d ts te freq created d = Ok d' ->
  store_ok_b d' = true /\ no_overlap_b d' = true.
Proof.
  revert cur created d.
  induction fuel as [|f IH]; intros cur created d Hts Hok Hno H; simpl in H.
  - injection H as <-. auto.
  - destruct ((cur <=? end_d) && (created <? 100)); [|injection H as <-; auto].
    assert (Hdur : te - ts = combine cur te - combine cur ts) by (unfold combine; lia).
    assert (Hlt : combine cur ts < combine cur te) by (unfold combine; lia).
    destruct (find_overlap_cgl d g (combine cur ts) (combine cur te)) eqn:Hf.
    + destruct (advance freq cur); [eapply IH; eauto | injection H as <-; auto | discriminate].
    + rewrite Hdur in H.
      destruct (insert_checked_preserves d g _ _ Hok Hno Hf Hlt) as [Hok' Hno'].
      destruct (advance freq cur); [eapply IH; eauto | injection H as <-; auto | discriminate].
Qed.

Lemma sync_keeps_lessons (d : db) (g : Z) :
  lessons (sync_group_schedules d g) = lessons d
  /\ next_lesson_id (sync_group_schedules d g) = next_lesson_id d.
Proof. split; reflexivity. Qed.

Lemma create_group_lessons_preserves (d d' : db) (g : Z) (r : lesson_request) :
  store_ok_b d = true -> no_overlap_b d = true ->
  create_group_lessons d g r = Ok d' ->
  store_ok_b d' = true /\ no_overlap_b d' = true.
Proof.
  intros Hok Hno H. unfold create_group_lessons in H.
  destruct (negb (valid_time (req_start r) && valid_time (req_end r))); [discriminate|].
  destruct (Z.leb_spec (req_end r) (req_start r)); [discriminate|].
  destruct (find_group d g); [|discriminate].
  assert (Hbody : forall d1, store_ok_b d1 = true /\ no_overlap_b d1 = true ->
            store_ok_b (sync_group_schedules d1 g) = true
            /\ no_overlap_b (sync_group_schedules d1 g) = true) by (intros d1 Hd1; exact Hd1).
  destruct (req_repeat r); simpl in H.
  - destruct (req_until r) as [u|]; [|discriminate].
    destruct (cgl_loop _ _ _ _ _ _ _ _ _) eqn:E; [|discriminate].
    injection H as <-. apply Hbody. eapply cgl_loop_preserves; [| exact Hok | exact Hno | exact E].
    lia.
  - destruct (find_overlap_cgl d g _ _) eqn:Hf; [discriminate|].
    injection H as <-. apply Hbody.
    assert (Hdur : req_end r - req_start r
                   = combine (req_date r) (req_end r) - combine (req_date r) (req_start r))
      by (unfold combine; lia).
    rewrite Hdur. apply insert_checked_preserves; try assumption.
    unfold combine. lia.
Qed.

Lemma existsb_map_lessons (p : lesson -> bool) (f : lesson -> lesson) (ls : list lesson) :
  existsb p (map f ls) = existsb (fun x => p (f x)) ls.
Proof. induction ls as [|a t IH]; simpl; [reflexivity | rewrite IH; reflexivity]. Qed.

Lemma ids_distinct_map (f : lesson -> lesson) (ls : list lesson) :
  (forall l, lesson_id (f l) = lesson_id l) -> ids_distinct (map f ls) = ids_distinct ls.
Proof.
  intros Hf. induction ls as [|a t IH]; [reflexivity|]. simpl.
  rewrite IH, existsb_map_lessons, Hf.
  f_equal. f_equal. clear IH. induction t as [|x t' IHt]; [reflexivity|].
  simpl. rewrite Hf, IHt. reflexivity.
Qed.

Lemma find_conflict_resched_none (d : db) (g moved s e : Z) (l : lesson) :
  find_conflict_resched d g moved s e = None -> In l (lessons d) -> in_group g l = true ->
  overlaps_resched moved s e l = false.
Proof.
  unfold find_conflict_resched. intros H Hin Hg.
  pose proof (find_none _ _ H l Hin) as Hf. simpl in Hf. rewrite Hg in Hf. exact Hf.
Qed.

(** Moving a lesson that the query of [reschedule_lesson] let through keeps
    the store well formed and overlap-free. *)
Lemma reschedule_preserves (d d' : db) (lid new_dt : Z) :
  store_ok_b d = true -> no_overlap_b d = true ->
  reschedule_lesson d lid new_dt = Ok d' ->
  store_ok_b d' = true /\ no_overlap_b d' = true.
Proof.
  intros Hok Hno H. unfold reschedule_lesson in H.
  pose proof (proj1 (store_ok_b_spec d) Hok) as [Hd [Hn Hp]].
  destruct (find (fun l => lesson_id l =? lid) (lessons d)) as [m|] eqn:Em; [|discriminate].
  apply find_some in Em as [Hm Hmid]. apply Z.eqb_eq in Hmid.
  destruct (lesson_group m) as [g|] eqn:Hg; [|discriminate].
  destruct (find_group d g); [|discriminate].
  destruct (Hp m Hm) as [dm [Hdm Hdpos]].
  assert (Hor : py_or60 (lesson_duration m) = dm)
    by (rewrite Hdm; unfold py_or60, py_or; destruct (Z.eqb_spec dm 0); lia).
  rewrite Hor in H.
  destruct (find_conflict_resched d g lid new_dt (new_dt + dm)) eqn:Hc; [discriminate|].
  injection H as <-.
  set (f := fun l => if lesson_id l =? lid
                     then mkLesson (lesson_id l) (lesson_group l) new_dt (lesson_duration l)
                     else l).
  assert (Hfid : forall l, lesson_id (f l) = lesson_id l)
    by (intros l; unfold f; destruct (lesson_id l =? lid); reflexivity).
  assert (Hfdur : forall l, lesson_duration (f l) = lesson_duration l)
    by (intros l; unfold f; destruct (lesson_id l =? lid); reflexivity).
  assert (Hfm : forall l, In l (lessons d) -> lesson_id l = lid ->
             f l = mkLesson lid (Some g) new_dt (Some dm)).
  { intros l Hl Hid. assert (l = m) as ->
      by (apply (ids_distinct_unique (lessons d)); auto; congruence).
    unfold f. rewrite Hmid, Z.eqb_refl, Hg, Hdm. reflexivity. }
  assert (Hfo : forall l, lesson_id l <> lid -> f l = l)
    by (intros l Hid; unfold f; apply Z.eqb_neq in Hid; rewrite Hid; reflexivity).
  assert (Hcross : forall l, In l (lessons d) -> lesson_id l <> lid ->
            same_group (mkLesson lid (Some g) new_dt (Some dm)) l = true ->
            half_open_overlap new_dt (new_dt + dm) (lesson_start l) (lesson_end l) = false).
  { intros l Hl Hid Hsg. apply same_group_some in Hsg.
    pose proof (find_conflict_resched_none d g lid new_dt (new_dt + dm) l Hc Hl Hsg) as Ho.
    rewrite overlaps_resched_half_open in Ho. apply Z.eqb_neq in Hid. rewrite Hid in Ho.
    exact Ho. }
  unfold update_start. fold f. split.
  - apply store_ok_b_spec. simpl. split; [|split].
    + rewrite ids_distinct_map; assumption.
    + intros l' Hl'. apply in_map_iff in Hl' as [l [<- Hl]]. rewrite Hfid. auto.
    + intros l' Hl'. apply in_map_iff in Hl' as [l [<- Hl]]. rewrite Hfdur. auto.
  - apply no_overlap_b_spec. apply no_overlap_b_spec in Hno. simpl.
    intros l1' l2' H1 H2 Hid Hsg.
    apply in_map_iff in H1 as [l1 [<- H1]]. apply in_map_iff in H2 as [l2 [<- H2]].
    rewrite !Hfid in Hid.
    destruct (Z.eq_dec (lesson_id l1) lid) as [E1|E1];
      destruct (Z.eq_dec (lesson_id l2) lid) as [E2|E2].
    + congruence.
    + rewrite (Hfm l1 H1 E1), (Hfo l2 E2) in *.
      unfold lesson_end at 1. simpl. apply Hcross; assumption.
    + rewrite (Hfo l1 E1), (Hfm l2 H2 E2) in *.
      rewrite half_open_overlap_sym. unfold lesson_end at 1. simpl.
      apply Hcross; [assumption | assumption |]. rewrite same_group_sym. exact Hsg.
    + rewrite (Hfo l1 E1), (Hfo l2 E2) in *. apply Hno; assumption.
Qed.

(** The paths that consult an overlap check, [create_group_lessons]
    (single and recurring) and [reschedule_lesson], keep a well-formed store
    free of overlapping lessons within a group. *)
Theorem checked_paths_keep_no_overlap (d d' : db) :
  store_ok_b d = true -> no_overlap_b d = true ->
  ((exists g r, create_group_lessons d g r = Ok d')
   \/ (exists lid new_dt, reschedule_lesson d lid new_dt = Ok d')) ->
  store_ok_b d' = true /\ no_overlap_b d' = true.
Proof.
  intros Hok Hno [[g [r H]] | [lid [t H]]].
  - exact (create_group_lessons_preserves d d' g r Hok Hno H).
  - exact (reschedule_preserves d d' lid t Hok Hno H).
Qed.


Lemma checked_paths_keep_no_overlap_witness :
  match create_group_lessons ex_conflict_db 1 ex_single_request with
  | Ok d' => store_ok_b d' = true /\ no_overlap_b d' = true
  | Err _ => False
  end.
Proof.
  destruct (create_group_lessons ex_conflict_db 1 ex_single_request) as [d'|c] eqn:E.
  - apply (checked_paths_keep_no_overlap ex_conflict_db d' eq_refl eq_refl).
    left. exists 1, ex_single_request. exact E.
  - vm_compute in E. discriminate.
Defined.


(** C1 (the code does not do what the spec says). [add_group_schedule] runs no overlap
    check, only a test for a lesson at the very same start. For a Monday
    10:00-11:00 schedule it inserts a 90-minute lesson at 10:00 on
    2024-01-01. That lesson overlaps the group's lesson at 10:30, and the
    store had no overlap before. *)
Lemma add_schedule_overlap_counterexample :
  store_ok_b ex_schedule_db = true /\ no_overlap_b ex_schedule_db = true /\
  match add_group_schedule ex_schedule_db 1 1 600 660 19723 with
  | Ok (d', _) => no_overlap_b d' = false
  | Err _ => False
  end.
Proof. vm_compute. auto. Qed.

(** ** Idempotence on (group, exact start) *)

Lemma count_at_insert (d : db) (g' g : Z) (s t : timestamp) (dur : Z) :
  count_at (insert_lesson d g' s dur) g t
  = (count_at d g t + (if Z.eqb g' g && Z.eqb s t then 1 else 0))%nat.
Proof.
  unfold count_at, insert_lesson. simpl. rewrite filter_app, length_app. f_equal.
  unfold in_group. simpl. destruct (Z.eqb g' g && Z.eqb s t); reflexivity.
Qed.

Lemma count_at_zero (d : db) (g : Z) (s : timestamp) :
  (forall l, In l (lessons d) -> in_group g l = true -> lesson_start l = s -> False) ->
  count_at d g s = 0%nat.
Proof.
  unfold count_at. intros H. induction (lessons d) as [|a t IH]; [reflexivity|].
  simpl. destruct (in_group g a && (lesson_start a =? s)) eqn:E.
  - apply andb_true_iff in E as [E1 E2]. apply Z.eqb_eq in E2.
    exfalso. exact (H a (or_introl eq_refl) E1 E2).
  - apply IH. intros l Hl. apply H. right. exact Hl.
Qed.

Lemma find_at_none_count (d : db) (g : Z) (s : timestamp) :
  find_at d g s = None -> count_at d g s = 0%nat.
Proof.
  unfold find_at. intros H. apply count_at_zero. intros l Hl Hg Hs.
  destruct (find (fun l => in_group g l && (lesson_start l =? s)) (lessons d)) eqn:E;
    [discriminate|].
  pose proof (find_none _ _ E l Hl) as Hf. simpl in Hf.
  rewrite Hg, Hs, Z.eqb_refl in Hf. discriminate.
Qed.

(** A lesson at the very start of the proposal always meets the third
    disjunct [start_time >= $2 AND start_time < $3]. *)
Lemma find_overlap_cgl_none_count (d : db) (g : Z) (s e : timestamp) :
  s < e -> find_overlap_cgl d g s e = None -> count_at d g s = 0%nat.
Proof.
  unfold find_overlap_cgl. intros Hse H. apply count_at_zero. intros l Hl Hg Hs.
  destruct (find (fun l => in_group g l && overlaps_cgl s e l) (lessons d)) eqn:E;
    [discriminate|].
  pose proof (find_none _ _ E l Hl) as Hf. simpl in Hf. rewrite Hg in Hf.
  unfold overlaps_cgl in Hf. rewrite Hs in Hf.
  destruct (lesson_duration l); zbool; try discriminate; lia.
Qed.

Lemma insert_keeps_count (d : db) (g' g : Z) (s t : timestamp) (dur : Z) :
  (0 < count_at d g t)%nat -> count_at d g' s = 0%nat ->
  count_at (insert_lesson d g' s dur) g t = count_at d g t.
Proof.
  intros Hpos Hz. rewrite count_at_insert.
  destruct (Z.eqb_spec g' g), (Z.eqb_spec s t); simpl; try lia.
  subst. lia.
Qed.

Lemma ags_loop_keeps_count (fuel : nat) (g' : Z) (cur end_d : date) (ts : time) (dur created : Z)
  (d : db) (g : Z) (t : timestamp) :
  (0 < count_at d g t)%nat ->
  count_at (fst (ags_loop fuel g' cur end_d ts dur created d)) g t = count_at d g t.
Proof.
  revert cur created d. induction fuel as [|f IH]; intros cur created d Hpos; simpl; [reflexivity|].
  destruct ((cur <=? end_d) && (created <? 20)); [|reflexivity].
  destruct (find_at d g' (combine cur ts)) eqn:E; [apply IH; exact Hpos|].
  rewrite IH; rewrite insert_keeps_count; auto using find_at_none_count.
Qed.

Lemma cgl_loop_keeps_count (fuel : nat) (g' : Z) (cur end_d : date) (ts te : time)
  (freq : option string) (created : Z) (d d' : db) (g : Z) (t : timestamp) :
  ts < te -> (0 < count_at d g t)%nat ->
  cgl_loop fuel g' cur end_d ts te freq created d = Ok d' ->
  count_at d' g t = count_at d g t.
Proof.
  revert cur created d. induction fuel as [|f IH]; intros cur created d Hts Hpos H; simpl in H.
  - injection H as <-. reflexivity.
  - destruct ((cur <=? end_d) && (created <? 100)); [|injection H as <-; reflexivity].
    assert (Hlt : combine cur ts < combine cur te) by (unfold combine; lia).
    destruct (find_overlap_cgl d g' (combine cur ts) (combine cur te)) eqn:Hf.
    + destruct (advance freq cur);
        [eapply IH; eauto | injection H as <-; reflexivity | discriminate].
    + pose proof (insert_keeps_count d g' g (combine cur ts) t (te - ts) Hpos
                    (find_overlap_cgl_none_count d g' _ _ Hlt Hf)) as Hk.
      destruct (advance freq cur).
      * rewrite <- Hk. eapply IH; [exact Hts | rewrite Hk; exact Hpos | exact H].
      * injection H as <-. exact Hk.
      * discriminate.
Qed.

Lemma gli_keeps_count (rows : list (schedule_row * group)) (ws : date) (d : db) (g : Z)
  (t : timestamp) :
  (0 < count_at d g t)%nat ->
  count_at (fold_left (gli_step ws) rows d) g t = count_at d g t.
Proof.
  revert d. induction rows as [|[r gr] rest IH]; intros d Hpos; [reflexivity|].
  cbn [fold_left].
  assert (Hstep : count_at (gli_step ws d (r, gr)) g t = count_at d g t).
  { unfold gli_step.
    destruct (find_at d (sched_group r) _) eqn:E; [reflexivity|].
    apply insert_keeps_count; [exact Hpos | apply find_at_none_count; exact E]. }
  rewrite IH; [exact Hstep | rewrite Hstep; exact Hpos].
Qed.

(** C3. Where group [g] already holds a lesson starting at [t], none of the
    generation paths ([create_group_lessons], [add_group_schedule],
    [generate_lesson_instances]) adds another lesson of [g] at [t]. *)
Theorem generation_idempotent_on_slot (d : db) (g : Z) (t : timestamp) :
  (0 < count_at d g t)%nat ->
  (forall g' r d', create_group_lessons d g' r = Ok d' -> count_at d' g t = count_at d g t)
  /\ (forall g' dw ts te today d' n,
        add_group_schedule d g' dw ts te today = Ok (d', n) ->
        count_at d' g t = count_at d g t)
  /\ (forall today, count_at (generate_lesson_instances d today) g t = count_at d g t).
Proof.
  intros Hpos. split; [|split].
  - intros g' r d' H. unfold create_group_lessons in H.
    destruct (negb (valid_time (req_start r) && valid_time (req_end r))); [discriminate|].
    destruct (Z.leb_spec (req_end r) (req_start r)); [discriminate|].
    destruct (find_group d g'); [|discriminate].
    destruct (req_repeat r); simpl in H.
    + destruct (req_until r) as [u|]; [|discriminate].
      destruct (cgl_loop _ _ _ _ _ _ _ _ _) as [d1|] eqn:E; [|discriminate].
      injection H as <-.
      change (count_at d1 g t = count_at d g t).
      eapply cgl_loop_keeps_count; [| exact Hpos | exact E]. lia.
    + destruct (find_overlap_cgl d g' _ _) eqn:Hf; [discriminate|].
      injection H as <-.
      change (count_at (insert_lesson d g' (combine (req_date r) (req_start r))
                          (req_end r - req_start r)) g t = count_at d g t).
      apply insert_keeps_count; [exact Hpos|].
      eapply find_overlap_cgl_none_count; [|exact Hf]. unfold combine. lia.
  - intros g' dw ts te today d' n H. unfold add_group_schedule in H.
    destruct (negb ((0 <=? dw) && (dw <=? 6))); [discriminate|].
    destruct (negb (valid_time ts && valid_time te)); [discriminate|].
    destruct (te <=? ts); [discriminate|].
    destruct (find_group d g') as [gr|]; [|discriminate].
    destruct (group_start_date gr) as [sd|].
    + match type of H with
      | Ok (ags_loop ?F ?g0 ?c ?e ?t0 ?du ?cr ?d1) = _ =>
          pose proof (ags_loop_keeps_count F g0 c e t0 du cr d1 g t Hpos) as Hk;
          destruct (ags_loop F g0 c e t0 du cr d1) as [x y]
      end.
      injection H as -> ->. exact Hk.
    + injection H as <- _. reflexivity.
  - intros today. unfold generate_lesson_instances. apply gli_keeps_count. exact Hpos.
Qed.

Lemma generation_idempotent_on_slot_witness :
  (0 < count_at ex_conflict_db 1%Z 630%Z)%nat /\
  count_at (generate_lesson_instances ex_conflict_db 0) 1 630 = count_at ex_conflict_db 1 630.
Proof.
  assert (H : (0 < count_at ex_conflict_db 1%Z 630%Z)%nat) by (vm_compute; lia).
  split; [exact H|].
  exact (proj2 (proj2 (generation_idempotent_on_slot ex_conflict_db 1 630 H)) 0).
Defined.

(** ** The first date of [add_group_schedule] *)

Lemma first_weekday_spec (fuel : nat) (x target k : Z) :
  0 <= k < Z.of_nat fuel -> py_weekday (x + k) = target ->
  (forall j, 0 <= j < k -> py_weekday (x + j) <> target) ->
  first_weekday fuel x target = x + k.
Proof.
  revert x k. induction fuel as [|f IH]; intros x k Hk Hw Hmin; [lia|].
  simpl. destruct (Z.eqb_spec (py_weekday x) target) as [E|E].
  - destruct (Z.eq_dec k 0) as [->|Hk0]; [lia|].
    exfalso. apply (Hmin 0); [lia|]. rewrite Z.add_0_r. exact E.
  - destruct (Z.eq_dec k 0) as [->|Hk0]; [rewrite Z.add_0_r in Hw; contradiction|].
    replace (x + k) with (x + 1 + (k - 1)) by lia.
    apply IH.
    + lia.
    + replace (x + 1 + (k - 1)) with (x + k) by lia. exact Hw.
    + intros j Hj. replace (x + 1 + j) with (x + (j + 1)) by lia. apply Hmin. lia.
Qed.

Lemma mod7_eq (a q r : Z) : 0 <= r < 7 -> a = 7 * q + r -> a mod 7 = r.
Proof. intros Hr Ha. symmetry. apply (Z.mod_unique a 7 q r); lia. Qed.

Lemma py_weekday_range (x : Z) : 0 <= py_weekday x < 7.
Proof. unfold py_weekday. apply Z.mod_pos_bound. lia. Qed.

Lemma py_weekday_offset (x j : Z) :
  0 <= j < 7 ->
  py_weekday (x + j)
  = if py_weekday x + j <? 7 then py_weekday x + j else py_weekday x + j - 7.
Proof.
  intros Hj. pose proof (py_weekday_range x) as Hr. unfold py_weekday in *.
  pose proof (Z.div_mod (x + 3) 7 ltac:(lia)) as Hd.
  destruct (Z.ltb_spec ((x + 3) mod 7 + j) 7).
  - apply (mod7_eq _ ((x + 3) / 7)); lia.
  - apply (mod7_eq _ ((x + 3) / 7 + 1)); lia.
Qed.

Lemma first_weekday7_spec (x target : Z) :
  0 <= target < 7 ->
  x <= first_weekday 7 x target < x + 7
  /\ py_weekday (first_weekday 7 x target) = target
  /\ (forall j, x <= j < first_weekday 7 x target -> py_weekday j <> target).
Proof.
  intros Ht. pose proof (py_weekday_range x) as Hr.
  set (k := if py_weekday x <=? target then target - py_weekday x
            else target - py_weekday x + 7).
  assert (Hk : 0 <= k < 7) by (unfold k; zbool; lia).
  assert (Hw : py_weekday (x + k) = target)
    by (rewrite (py_weekday_offset x k Hk); unfold k in *; zbool; lia).
  assert (Hmin : forall j, 0 <= j < k -> py_weekday (x + j) <> target).
  { intros j Hj. rewrite (py_weekday_offset x j ltac:(lia)). unfold k in *. zbool; lia. }
  rewrite (first_weekday_spec 7 x target k ltac:(simpl; lia) Hw Hmin).
  split; [lia|]. split; [exact Hw|].
  intros j Hj. replace j with (x + (j - x)) by lia. apply Hmin. lia.
Qed.

Lemma sql_dow_combine (x : date) (ts : time) :
  0 <= ts < 1440 ->
  sql_dow (combine x ts) = if py_weekday x + 1 <? 7 then py_weekday x + 1 else 0.
Proof.
  intros Hts. pose proof (py_weekday_range x) as Hr.
  unfold sql_dow, combine.
  replace ((x * 1440 + ts) / 1440) with x.
  2:{ apply (Z.div_unique (x * 1440 + ts) 1440 x ts); lia. }
  unfold py_weekday in *. pose proof (Z.div_mod (x + 3) 7 ltac:(lia)) as Hd.
  destruct (Z.ltb_spec ((x + 3) mod 7 + 1) 7).
  - apply (mod7_eq _ ((x + 3) / 7)); lia.
  - apply (mod7_eq _ ((x + 3) / 7 + 1)); lia.
Qed.

Lemma dow_target (dw : Z) :
  0 <= dw <= 6 -> (dw - 1) mod 7 = if dw =? 0 then 6 else dw - 1.
Proof.
  intros H. destruct (Z.eqb_spec dw 0).
  - subst. apply (mod7_eq _ (-1)); lia.
  - apply (mod7_eq _ 0); lia.
Qed.

(** The Monday-is-0 target [(day_of_week - 1) % 7] picks exactly the dates
    whose Sunday-is-0 day of week is [day_of_week]. *)
Lemma dow_target_matches (x : date) (ts : time) (dw : Z) :
  0 <= ts < 1440 -> 0 <= dw <= 6 ->
  (py_weekday x = (dw - 1) mod 7 <-> sql_dow (combine x ts) = dw).
Proof.
  intros Hts Hdw. rewrite sql_dow_combine, dow_target by assumption.
  pose proof (py_weekday_range x). zbool; lia.
Qed.

Lemma ags_loop_shape (fuel : nat) (g : Z) (cur end_d : date) (t : time) (dur created : Z)
  (d : db) :
  (exists rest, lessons (fst (ags_loop fuel g cur end_d t dur created d)) = lessons d ++ rest
     /\ Z.of_nat (List.length rest) = snd (ags_loop fuel g cur end_d t dur created d) - created)
  /\ (created <= 20 -> snd (ags_loop fuel g cur end_d t dur created d) <= 20)
  /\ created <= snd (ags_loop fuel g cur end_d t dur created d).
Proof.
  revert cur created d. induction fuel as [|f IH]; intros cur created d; simpl.
  - split; [exists []; rewrite app_nil_r; simpl; split; [reflexivity|lia]|]. lia.
  - destruct ((cur <=? end_d) && (created <? 20)) eqn:C.
    + apply andb_true_iff in C as [_ C]. apply Z.ltb_lt in C.
      destruct (find_at d g (combine cur t)).
      * apply IH.
      * destruct (IH (cur + 7) (created + 1) (insert_lesson d g (combine cur t) dur))
          as [[rest [Hl Hn]] [Hle Hge]].
        split; [|split; [intros _; apply Hle; lia | lia]].
        exists (mkLesson (next_lesson_id d) (Some g) (combine cur t) (Some dur) :: rest).
        split; [rewrite Hl; unfold insert_lesson; simpl; rewrite <- app_assoc; reflexivity|].
        cbn [List.length]. lia.
    + split; [exists []; rewrite app_nil_r; simpl; split; [reflexivity|lia]|]. simpl; lia.
Qed.

Lemma ags_loop_first (fuel : nat) (g : Z) (cur end_d : date) (t : time) (dur created : Z)
  (d : db) :
  (0 < fuel)%nat -> cur <= end_d -> created < 20 -> find_at d g (combine cur t) = None ->
  exists rest, lessons (fst (ags_loop fuel g cur end_d t dur created d))
               = lessons d ++ mkLesson (next_lesson_id d) (Some g) (combine cur t) (Some dur)
                            :: rest.
Proof.
  intros Hf Hc Hcr Hn. destruct fuel as [|f]; [lia|]. simpl.
  replace ((cur <=? end_d) && (created <? 20)) with true
    by (symmetry; apply andb_true_iff; split; apply Z.leb_le || apply Z.ltb_lt; lia).
  rewrite Hn.
  destruct (ags_loop_shape f g (cur + 7) end_d t dur (created + 1)
              (insert_lesson d g (combine cur t) dur)) as [[rest [Hl _]] _].
  exists rest. rewrite Hl. unfold insert_lesson. simpl. rewrite <- app_assoc. reflexivity.
Qed.

Lemma add_group_schedule_ok_inv (d d' : db) (g dw : Z) (ts te : time) (today : date) (n : Z)
  (gr : group) (sd : date) :
  add_group_schedule d g dw ts te today = Ok (d', n) ->
  find_group d g = Some gr -> group_start_date gr = Some sd ->
  0 <= dw <= 6 /\ 0 <= ts < 1440 /\
  ags_loop (Z.to_nat (ags_end_date gr sd - first_weekday 7 (Z.max sd today) ((dw - 1) mod 7) + 1))
    g (first_weekday 7 (Z.max sd today) ((dw - 1) mod 7)) (ags_end_date gr sd) ts
    (py_or 90 (group_duration gr)) 0
    (mkDb (groups d) (lessons d) (upsert_schedule (schedules d) g dw ts) (next_lesson_id d))
  = (d', n).
Proof.
  intros H Hg Hs. unfold add_group_schedule in H.
  destruct ((0 <=? dw) && (dw <=? 6)) eqn:E1; cbn [negb] in H; [|discriminate].
  destruct (valid_time ts && valid_time te) eqn:E2; cbn [negb] in H; [|discriminate].
  destruct (te <=? ts); [discriminate|]. rewrite Hg, Hs in H.
  apply andb_true_iff in E1 as [E1 E1']. apply andb_true_iff in E2 as [E2 _].
  unfold valid_time in E2. apply andb_true_iff in E2 as [E2 E2'].
  apply Z.leb_le in E1, E1', E2. apply Z.ltb_lt in E2'.
  split; [lia|]. split; [lia|]. congruence.
Qed.

Lemma round_div_1 (a : Z) : round_div a 1 = a.
Proof.
  unfold round_div. destruct (Z.leb_spec 0 a).
  - symmetry. apply Z.div_unique with 1; lia.
  - rewrite <- (Z.div_unique (2 * - a + 1) (2 * 1) (- a) 1); lia.
Qed.

Lemma round_div_100_exact (k : Z) : 0 <= k -> round_div (k * 100) 100 = k.
Proof.
  intros Hk. unfold round_div. destruct (Z.leb_spec 0 (k * 100)); [|lia].
  symmetry. apply Z.div_unique with 100; lia.
Qed.


Lemma exec_convert (st st0 : grade_store) (from to : string) (f : Z * Z) :
  scale_factor from to = Some f ->
  exec_grade_stmts st (convert_grades_scale st0 from to)
  = mkGradeStore (map (conv_row (has_value_col st0) (has_grade_value_col st0) f) (grade_rows st))
                 (has_value_col st) (has_grade_value_col st) (setting_scale st)
                 (setting_applied st).
Proof.
  intros Hf. unfold convert_grades_scale. rewrite Hf.
  destruct st as [rows hv hg sc ap]. unfold conv_row.
  destruct (has_value_col st0), (has_grade_value_col st0); cbn; f_equal; rewrite ?map_map;
    first [ apply map_ext; intros [a b]; destruct a, b; reflexivity
          | induction rows as [|[a b] rows IH]; cbn; f_equal; exact IH ].
Qed.

Lemma exec_convert_settings (st st0 : grade_store) (from to : string) :
  setting_scale (exec_grade_stmts st (convert_grades_scale st0 from to)) = setting_scale st
  /\ setting_applied (exec_grade_stmts st (convert_grades_scale st0 from to))
     = setting_applied st.
Proof.
  unfold convert_grades_scale. destruct (scale_factor from to); [|split; reflexivity].
  destruct (has_value_col st0), (has_grade_value_col st0); split; reflexivity.
Qed.

Lemma exec_grade_stmts_app (st : grade_store) (a b : list grade_stmt) :
  exec_grade_stmts st (a ++ b) = exec_grade_stmts (exec_grade_stmts st a) b.
Proof. unfold exec_grade_stmts. apply fold_left_app. Qed.

Lemma ensure_plan_after_marker (st : grade_store) (P : list grade_stmt) :
  setting_scale (exec_grade_stmts st P) = setting_scale st ->
  ensure_plan (exec_grade_stmts st (P ++ [SetApplied (current_scale st)])) = [].
Proof.
  intros H. rewrite exec_grade_stmts_app. unfold ensure_plan. cbn.
  unfold current_scale at 1. cbn. rewrite H. fold (current_scale st).
  rewrite String.eqb_refl. reflexivity.
Qed.

(** After [_ensure_grades_scale_applied] has run, running it again writes
    nothing. *)
Lemma ensure_idempotent (st : grade_store) :
  ensure_plan (ensure_grades_scale_applied st) = [].
Proof.
  unfold ensure_grades_scale_applied.
  destruct (setting_applied st) as [a|] eqn:Ha.
  - destruct (String.eqb a (current_scale st)) eqn:E.
    + assert (Hp : ensure_plan st = []) by (unfold ensure_plan; rewrite Ha, E; reflexivity).
      rewrite Hp. exact Hp.
    + assert (Hp : ensure_plan st = convert_grades_scale st a (current_scale st)
                                      ++ [SetApplied (current_scale st)])
        by (unfold ensure_plan; rewrite Ha, E; reflexivity).
      rewrite Hp. apply ensure_plan_after_marker. apply exec_convert_settings.
  - set (inferred := match max_grade st with
                     | Some m => if 550 <? m then "0-100"%string else "0-5"%string
                     | None => "0-5"%string
                     end).
    assert (Hp : ensure_plan st =
                 (if String.eqb inferred (current_scale st) then []
                  else convert_grades_scale st inferred (current_scale st))
                 ++ [SetApplied (current_scale st)])
      by (unfold ensure_plan; rewrite Ha; reflexivity).
    rewrite Hp. apply ensure_plan_after_marker.
    destruct (String.eqb inferred (current_scale st)); [reflexivity|].
    apply exec_convert_settings.
Qed.

Lemma exec_sys_convert_settings (st st0 : grade_store) (from to : string) :
  setting_scale (exec_grade_stmts st (sys_convert_grades_scale st0 from to)) = setting_scale st
  /\ setting_applied (exec_grade_stmts st (sys_convert_grades_scale st0 from to))
     = setting_applied st.
Proof.
  unfold sys_convert_grades_scale. destruct (scale_factor from to); [|split; reflexivity].
  destruct (has_value_col st0), (has_grade_value_col st0); split; reflexivity.
Qed.

Lemma ensure_plan_nil_applied (st : grade_store) :
  ensure_plan st = [] -> setting_applied st = Some (current_scale st).
Proof.
  unfold ensure_plan. destruct (setting_applied st) as [a|].
  - destruct (String.eqb a (current_scale st)) eqn:E.
    + intros _. apply String.eqb_eq in E. subst. reflexivity.
    + intros H. apply app_eq_nil in H as [_ H]. discriminate.
  - intros H. apply app_eq_nil in H as [_ H]. discriminate.
Qed.

(** Changing the scale in the settings records the new scale as applied, so
    a following [_ensure_grades_scale_applied] converts nothing again. *)
Lemma admin_update_scale_marks_applied (st st' : grade_store) (next : string) :
  ensure_plan st = [] -> admin_update_scale st next = Ok st' -> ensure_plan st' = [].
Proof.
  intros Hp H. apply ensure_plan_nil_applied in Hp.
  unfold admin_update_scale in H.
  destruct (negb (String.eqb next "0-5" || String.eqb next "0-100")); [discriminate|].
  injection H as <-.
  destruct (String.eqb (current_scale st) next) eqn:E.
  - apply String.eqb_eq in E. cbn. unfold ensure_plan. cbn. rewrite Hp, E.
    unfold current_scale. cbn. rewrite String.eqb_refl. reflexivity.
  - rewrite !exec_grade_stmts_app.
    unfold ensure_plan. cbn. unfold current_scale. cbn. rewrite String.eqb_refl. reflexivity.
Qed.

Lemma rescale_20 (k : Z) : rescale (20, 1) k = 20 * k.
Proof. unfold rescale. cbn [fst snd]. rewrite round_div_1. lia. Qed.

Lemma rescale_005_close (k : Z) : Z.abs (100 * rescale (5, 100) k - 5 * k) <= 50.
Proof.
  unfold rescale, round_div. cbn [fst snd].
  destruct (Z.leb_spec 0 (k * 5)).
  - pose proof (Z.div_mod (2 * (k * 5) + 100) (2 * 100) ltac:(lia)).
    pose proof (Z.mod_pos_bound (2 * (k * 5) + 100) (2 * 100) ltac:(lia)). lia.
  - pose proof (Z.div_mod (2 * - (k * 5) + 100) (2 * 100) ltac:(lia)).
    pose proof (Z.mod_pos_bound (2 * - (k * 5) + 100) (2 * 100) ltac:(lia)). lia.
Qed.

Lemma round_trip_value (k : Z) : 0 <= k -> rescale (5, 100) (rescale (20, 1) k) = k.
Proof.
  intros Hk. rewrite rescale_20. unfold rescale. cbn [fst snd].
  replace (20 * k * 5) with (k * 100) by lia. apply round_div_100_exact; lia.
Qed.


(** C5. Values are in hundredths, as in [NUMERIC(5,2)].
    - Going from 0-5 to 0-100 multiplies every stored value by 20.
    - Going from 0-100 to 0-5 multiplies by 0.05 and rounds to two decimals,
      so the result is within 0.005 of the exact product.
    - After [_ensure_grades_scale_applied] has run once, it writes nothing
      more, and neither does it after a scale change in the settings.
    - The round trip 0-5 -> 0-100 -> 0-5 gives back every value in [0,5]
      exactly. *)
Theorem grades_scale_conversion (st : grade_store) :
  grade_rows (exec_grade_stmts st (convert_grades_scale st "0-5" "0-100"))
  = map (fun r => mkGradeRow
           (if has_value_col st then option_map (fun k => 20 * k) (gr_value r) else gr_value r)
           (if has_grade_value_col st then option_map (fun k => 20 * k) (gr_grade_value r)
            else gr_grade_value r)) (grade_rows st)
  /\ grade_rows (exec_grade_stmts st (convert_grades_scale st "0-100" "0-5"))
     = map (conv_row (has_value_col st) (has_grade_value_col st) (5, 100)) (grade_rows st)
  /\ (forall k, Z.abs (100 * rescale (5, 100) k - 5 * k) <= 50)
  /\ ensure_plan (ensure_grades_scale_applied st) = []
  /\ (forall next st', ensure_plan st = [] -> admin_update_scale st next = Ok st' ->
                       ensure_plan st' = [])
  /\ ((forall r, In r (grade_rows st) -> in_0_5 (gr_value r) /\ in_0_5 (gr_grade_value r)) ->
      let st1 := exec_grade_stmts st (convert_grades_scale st "0-5" "0-100") in
      grade_rows (exec_grade_stmts st1 (convert_grades_scale st1 "0-100" "0-5"))
      = grade_rows st).
Proof.
  split; [|split; [|split; [|split; [|split]]]].
  - rewrite (exec_convert st st "0-5" "0-100" (20, 1) eq_refl). cbn [grade_rows].
    apply map_ext. intros [a b]. unfold conv_row. cbn.
    destruct (has_value_col st), (has_grade_value_col st), a, b; cbn;
      rewrite ?rescale_20; reflexivity.
  - rewrite (exec_convert st st "0-100" "0-5" (5, 100) eq_refl). reflexivity.
  - exact rescale_005_close.
  - apply ensure_idempotent.
  - intros next st'. apply admin_update_scale_marks_applied.
  - intros Hb st1.
    rewrite (exec_convert st1 st1 "0-100" "0-5" (5, 100) eq_refl). cbn [grade_rows].
    subst st1. rewrite (exec_convert st st "0-5" "0-100" (20, 1) eq_refl).
    cbn [grade_rows has_value_col has_grade_value_col]. rewrite map_map.
    rewrite <- (map_id (grade_rows st)) at 2. apply map_ext_in.
    intros [a b] Hin. destruct (Hb _ Hin) as [Ha Hb']. cbn in Ha, Hb'.
    unfold conv_row. cbn.
    destruct (has_value_col st), (has_grade_value_col st), a, b; cbn in *;
      rewrite ?round_trip_value by lia; reflexivity.
Qed.


Lemma grades_scale_conversion_witness :
  let st1 := exec_grade_stmts ex_grade_store (convert_grades_scale ex_grade_store "0-5" "0-100") in
  grade_rows (exec_grade_stmts st1 (convert_grades_scale st1 "0-100" "0-5"))
  = grade_rows ex_grade_store.
Proof.
  apply (proj2 (proj2 (proj2 (proj2 (proj2 (grades_scale_conversion ex_grade_store)))))).
  intros r Hin. cbn in Hin. destruct Hin as [<-|[<-|[]]]; cbn; lia.
Defined.

(** C6 (the code does not do what the spec says). [_ensure_grades_scale_applied] issues its
    writes as separate autocommitted statements. If the [grade_value] update
    raises, the [value] column is already converted, while [grade_value]
    and the applied-scale marker are not. The next call still sees the old
    marker and converts [value] a second time. *)
Theorem grades_conversion_not_atomic (st : grade_store) :
  has_value_col st = true -> has_grade_value_col st = true ->
  setting_applied st = Some "0-5"%string -> setting_scale st = Some "0-100"%string ->
  grade_rows (ensure_grades_scale_failing_at 1 st)
    = map (conv_row true false (20, 1)) (grade_rows st)
  /\ setting_applied (ensure_grades_scale_failing_at 1 st) = Some "0-5"%string
  /\ grade_rows (ensure_grades_scale_applied (ensure_grades_scale_failing_at 1 st))
     = map (conv_row true true (20, 1)) (map (conv_row true false (20, 1)) (grade_rows st)).
Proof.
  intros Hv Hg Ha Hs.
  assert (Hp : ensure_plan st = [UpdValue (20, 1) None; UpdGradeValue (20, 1) None;
                                 SetApplied "0-100"]).
  { unfold ensure_plan, current_scale, convert_grades_scale. rewrite Ha, Hs, Hv, Hg.
    reflexivity. }
  assert (H1 : ensure_grades_scale_failing_at 1 st =
               exec_grade_stmt st (UpdValue (20, 1) None))
    by (unfold ensure_grades_scale_failing_at; rewrite Hp; reflexivity).
  rewrite H1.
  destruct st as [rows hv hg sc ap]. cbn in Hv, Hg, Ha, Hs. subst.
  split; [|split; [reflexivity|]].
  - cbn. apply map_ext. intros [a b]. reflexivity.
  - unfold ensure_grades_scale_applied. cbn. rewrite map_map.
    apply map_ext. intros [a b]. reflexivity.
Qed.

Lemma grades_conversion_not_atomic_witness :
  grade_rows (ensure_grades_scale_applied
                (ensure_grades_scale_failing_at 1
                   (mkGradeStore [mkGradeRow (Some 200) (Some 200)] true true
                                 (Some "0-100"%string) (Some "0-5"%string))))
  = [mkGradeRow (Some 80000) (Some 4000)].
Proof.
  rewrite (proj2 (proj2 (grades_conversion_not_atomic
             (mkGradeStore [mkGradeRow (Some 200) (Some 200)] true true
                           (Some "0-100"%string) (Some "0-5"%string))
             eq_refl eq_refl eq_refl eq_refl))).
  vm_compute. reflexivity.
Defined.


Lemma fold_points_acc (rs : list attendance_record) (acc : Z) :
  fold_left (fun acc r => acc + status_points (ar_status r)) rs acc
  = acc + fold_right (fun r acc => status_points (ar_status r) + acc) 0 rs.
Proof.
  revert acc. induction rs as [|r rs IH]; intros acc; simpl; [lia|]. rewrite IH. lia.
Qed.

Lemma attendance_percentage_spec {R : Type} (py_pct : Z -> Z -> R) (zero : R)
  (rs : list attendance_record) :
  attendance_percentage py_pct zero (count_and_points rs)
  = spec_attendance_percentage py_pct zero rs.
Proof.
  unfold attendance_percentage, count_and_points, spec_attendance_percentage.
  rewrite fold_points_acc. cbn [Z.add].
  destruct (List.length rs) as [|k] eqn:E; cbn [Nat.eqb].
  - reflexivity.
  - replace (0 <? Z.of_nat (S k) * 2) with true by (symmetry; apply Z.ltb_lt; lia).
    rewrite Z.mul_comm. destruct (fold_right _ 0 rs); reflexivity.
Qed.

Lemma trial_records_incl (a : attendance_db) (s g : Z) :
  incl (trial_records a s g) (records_of a s g).
Proof.
  unfold trial_records. intros r Hr.
  destruct (latest_usage a s g) as [u|]; [|destruct Hr].
  destruct (tu_lesson_start u); [|destruct Hr].
  apply filter_In in Hr. tauto.
Qed.

(** C7 (amended). The attendance percentage is the sum of points over the
    records it selects, divided by twice their number, with [py_pct]
    standing for [round(p / m * 100, 1)]. It is 0 when no record is
    selected. Points are P and E 2, L 1, and 0 for A, any other status or
    no status. Every [attendance_records] row of the student in the group
    counts in the denominator, also one whose [status] is NULL.
    [get_students_analytics] selects all of them. [get_group_details] does
    the same for a regular enrollment. For a trial enrollment it selects
    only the records of the lessons at the trial's start time. Those are a
    subset of all of them. *)
Theorem attendance_percentage_formula {R : Type} (py_pct : Z -> Z -> R) (zero : R)
  (a : attendance_db) (s g : Z) (e : enrollment) :
  analytics_percentage py_pct zero a s g
    = spec_attendance_percentage py_pct zero (records_of a s g)
  /\ group_details_percentage py_pct zero a e
     = spec_attendance_percentage py_pct zero
         (if enrollment_is_trial e then trial_records a (en_student e) (en_group e)
          else records_of a (en_student e) (en_group e))
  /\ (enrollment_is_trial e = false ->
      group_details_percentage py_pct zero a e
      = analytics_percentage py_pct zero a (en_student e) (en_group e))
  /\ incl (trial_records a s g) (records_of a s g)
  /\ spec_attendance_percentage py_pct zero [] = zero
  /\ status_points (Some "P"%string) = 2 /\ status_points (Some "E"%string) = 2
  /\ status_points (Some "L"%string) = 1 /\ status_points (Some "A"%string) = 0
  /\ status_points None = 0.
Proof.
  split; [apply attendance_percentage_spec|].
  split; [apply attendance_percentage_spec|].
  split.
  - intros Ht. unfold group_details_percentage, analytics_percentage. rewrite Ht.
    reflexivity.
  - split; [apply trial_records_incl|]. repeat split.
Qed.


(** Counterexample to C7 as stated, percentages in tenths:
    - The trial student's group-details percentage is 100.0. The stated
      formula over all their records in the group gives 50.0.
    - The record with no status counts in the denominator: 50.0 where
      counting only marked records gives 100.0. *)
Lemma attendance_formula_counterexample :
  group_details_percentage pct_tenths 0 ex_attendance_db (mkEnrollment 5 7 (Some true)) = 1000
  /\ spec_attendance_percentage pct_tenths 0 (records_of ex_attendance_db 7 5) = 500
  /\ analytics_percentage pct_tenths 0 ex_attendance_db 8 5 = 500
  /\ spec_attendance_percentage pct_tenths 0
       (filter (fun r => match ar_status r with Some _ => true | None => false end)
               (records_of ex_attendance_db 8 5)) = 1000.
Proof. vm_compute. repeat split. Qed.

Lemma attendance_percentage_formula_witness :
  group_details_percentage pct_tenths 0 ex_attendance_db (mkEnrollment 5 8 (Some false))
  = analytics_percentage pct_tenths 0 ex_attendance_db 8 5.
Proof.
  apply (proj1 (proj2 (proj2 (attendance_percentage_formula pct_tenths 0 ex_attendance_db 8 5
                                (mkEnrollment 5 8 (Some false)))))).
  reflexivity.
Defined.

Lemma lex_le_trans (a b c : Z * Z) : lex_le a b -> lex_le b c -> lex_le a c.
Proof. unfold lex_le. lia. Qed.

Lemma lex_leb_false (a b : Z * Z) : lex_leb a b = false -> lex_le b a.
Proof.
  unfold lex_leb, lex_le. intros H. apply orb_false_iff in H as [H1 H2].
  apply Z.ltb_ge in H1. apply andb_false_iff in H2 as [H2|H2];
    [apply Z.eqb_neq in H2 | apply Z.leb_gt in H2]; lia.
Qed.

Lemma lex_leb_true (a b : Z * Z) : lex_leb a b = true -> lex_le a b.
Proof.
  unfold lex_leb, lex_le. intros H. apply orb_true_iff in H as [H|H];
    [apply Z.ltb_lt in H | apply andb_true_iff in H as [H1 H2];
     apply Z.eqb_eq in H1; apply Z.leb_le in H2]; lia.
Qed.

Lemma insert_sorted_In (x y : Z * Z) (l : list (Z * Z)) :
  In y (insert_sorted x l) <-> y = x \/ In y l.
Proof.
  induction l as [|z l IH]; simpl; [intuition congruence|].
  destruct (lex_leb x z); simpl; [intuition congruence|]. rewrite IH. intuition congruence.
Qed.

Lemma sort_pairs_In (y : Z * Z) (l : list (Z * Z)) : In y (sort_pairs l) <-> In y l.
Proof.
  unfold sort_pairs. induction l as [|x l IH]; simpl; [tauto|].
  rewrite insert_sorted_In, IH. intuition congruence.
Qed.

Lemma insert_sorted_sorted (x : Z * Z) (l : list (Z * Z)) :
  StronglySorted lex_le l -> StronglySorted lex_le (insert_sorted x l).
Proof.
  induction l as [|z l IH]; intros Hs; simpl.
  - repeat constructor.
  - inversion Hs as [|? ? Hs' Hf]; subst.
    destruct (lex_leb x z) eqn:E.
    + apply lex_leb_true in E. constructor; [exact Hs|].
      constructor; [exact E|]. eapply Forall_impl; [|exact Hf].
      intros w Hw. eapply lex_le_trans; eauto.
    + apply lex_leb_false in E. constructor; [apply IH; exact Hs'|].
      apply Forall_forall. intros w Hw. apply insert_sorted_In in Hw as [->|Hw]; [exact E|].
      rewrite Forall_forall in Hf. auto.
Qed.

Lemma sort_pairs_sorted (l : list (Z * Z)) : StronglySorted lex_le (sort_pairs l).
Proof.
  unfold sort_pairs. induction l as [|x l IH]; simpl; [constructor|].
  apply insert_sorted_sorted. exact IH.
Qed.

Lemma pair_eqb_true (a b : Z * Z) : pair_eqb a b = true -> a = b.
Proof.
  destruct a, b. unfold pair_eqb. simpl. intros H.
  apply andb_true_iff in H as [H1 H2]. apply Z.eqb_eq in H1, H2. subst. reflexivity.
Qed.

Lemma dedup_sorted_In (y : Z * Z) (l : list (Z * Z)) :
  In y (dedup_sorted l) <-> In y l.
Proof.
  induction l as [|x t IH]; simpl; [tauto|].
  destruct t as [|z t'].
  - simpl. tauto.
  - destruct (pair_eqb x z) eqn:E.
    + apply pair_eqb_true in E. subst z. rewrite IH. simpl. intuition.
    + simpl. rewrite IH. simpl. tauto.
Qed.

Lemma dedup_sorted_sorted (l : list (Z * Z)) :
  StronglySorted lex_le l -> StronglySorted lex_le (dedup_sorted l).
Proof.
  induction l as [|x t IH]; intros Hs; simpl; [constructor|].
  inversion Hs as [|? ? Hs' Hf]; subst.
  destruct t as [|z t'].
  - apply SSorted_cons; [apply SSorted_nil | apply Forall_nil].
  - destruct (pair_eqb x z).
    + apply IH. exact Hs'.
    + apply SSorted_cons; [apply IH; exact Hs'|].
      apply Forall_forall. intros w Hw. rewrite dedup_sorted_In in Hw.
      rewrite Forall_forall in Hf. apply Hf. exact Hw.
Qed.

Lemma find_app_l {A : Type} (f : A -> bool) (l1 l2 : list A) :
  find f (l1 ++ l2) = match find f l1 with Some x => Some x | None => find f l2 end.
Proof. induction l1 as [|x l1 IH]; simpl; [reflexivity|]. destruct (f x); auto. Qed.

Lemma find_none_forall {A : Type} (f : A -> bool) (l : list A) :
  (forall x, In x l -> f x = false) -> find f l = None.
Proof.
  induction l as [|x l IH]; intros H; simpl; [reflexivity|].
  rewrite (H x (or_introl eq_refl)). apply IH. intros y Hy. apply H. right. exact Hy.
Qed.

Lemma sched_key_new (g dw : Z) (t : time) : sched_key g dw (mkSchedule g dw t true) = true.
Proof. unfold sched_key. simpl. rewrite !Z.eqb_refl. reflexivity. Qed.

Lemma sched_key_other (g dw dw' : Z) (r : schedule_row) :
  dw' <> dw -> sched_key g dw' r = true -> sched_key g dw r = false.
Proof.
  unfold sched_key. intros Hne H. apply andb_true_iff in H as [H1 H2].
  apply Z.eqb_eq in H2. rewrite H1. simpl. apply Z.eqb_neq. congruence.
Qed.

Lemma upsert_find (rows : list schedule_row) (g dw' dw : Z) (t : time) :
  find (sched_key g dw) (upsert_schedule rows g dw' t)
  = if dw' =? dw then Some (mkSchedule g dw t true) else find (sched_key g dw) rows.
Proof.
  unfold upsert_schedule. destruct (Z.eqb_spec dw' dw) as [<-|Hne].
  - destruct (existsb (sched_key g dw') rows) eqn:E.
    + induction rows as [|r rows IH]; simpl in *; [discriminate|].
      destruct (sched_key g dw' r) eqn:Ek; simpl; [rewrite sched_key_new; reflexivity|].
      rewrite Ek. apply IH. exact E.
    + rewrite find_app_l, find_none_forall; [simpl; rewrite sched_key_new; reflexivity|].
      intros x Hx. destruct (sched_key g dw' x) eqn:Ek; [|reflexivity].
      assert (existsb (sched_key g dw') rows = true)
        by (apply existsb_exists; exists x; auto). congruence.
  - destruct (existsb (sched_key g dw') rows).
    + induction rows as [|r rows IH]; simpl; [reflexivity|].
      destruct (sched_key g dw' r) eqn:Ek.
      * rewrite (sched_key_other g dw dw' (mkSchedule g dw' t true) Hne (sched_key_new _ _ _ )).
        rewrite (sched_key_other g dw dw' r Hne Ek). exact IH.
      * destruct (sched_key g dw r); [reflexivity | exact IH].
    + rewrite find_app_l. destruct (find (sched_key g dw) rows); [reflexivity|].
      simpl. rewrite (sched_key_other g dw dw' (mkSchedule g dw' t true) Hne (sched_key_new _ _ _ )).
      reflexivity.
Qed.


Lemma fold_upsert_find (P : list (Z * Z)) (rows : list schedule_row) (g dw : Z) :
  find (sched_key g dw) (fold_left (fun rs p => upsert_schedule rs g (fst p) (snd p)) P rows)
  = last_pattern_row g dw P (find (sched_key g dw) rows).
Proof.
  unfold last_pattern_row. revert rows.
  induction P as [|p P IH]; intros rows; simpl; [reflexivity|].
  rewrite IH, upsert_find. reflexivity.
Qed.

Lemma last_pattern_row_none (g dw : Z) (P : list (Z * Z)) (acc : option schedule_row) :
  (forall p, In p P -> fst p <> dw) -> last_pattern_row g dw P acc = acc.
Proof.
  unfold last_pattern_row. revert acc.
  induction P as [|p P IH]; intros acc H; simpl; [reflexivity|].
  assert (E : (fst p =? dw) = false) by (apply Z.eqb_neq; exact (H p (or_introl eq_refl))).
  destruct p as [a b]. simpl in E |- *. rewrite E.
  apply IH. intros q Hq. apply H. right. exact Hq.
Qed.

Lemma last_pattern_row_some (g dw t0 : Z) (P : list (Z * Z)) (acc : option schedule_row) :
  StronglySorted lex_le P -> In (dw, t0) P ->
  exists t, last_pattern_row g dw P acc = Some (mkSchedule g dw t true)
            /\ In (dw, t) P /\ forall t', In (dw, t') P -> t' <= t.
Proof.
  revert acc t0. induction P as [|p P IH]; intros acc t0 Hs Hin; [destruct Hin|].
  inversion Hs as [|? ? Hs' Hf]; subst. rewrite Forall_forall in Hf.
  set (acc' := if fst p =? dw then Some (mkSchedule g dw (snd p) true) else acc).
  assert (Hstep : last_pattern_row g dw (p :: P) acc = last_pattern_row g dw P acc')
    by reflexivity.
  rewrite Hstep.
  destruct (existsb (fun q => fst q =? dw) P) eqn:E.
  - apply existsb_exists in E as [[a b] [Hq Ea]]. apply Z.eqb_eq in Ea. simpl in Ea. subst a.
    destruct (IH acc' b Hs' Hq) as [t [Ht [Hint Hmax]]].
    exists t. split; [exact Ht|]. split; [right; exact Hint|].
    intros t' [Hp|Hp]; [|apply Hmax; exact Hp].
    subst p. specialize (Hf (dw, t) Hint). unfold lex_le in Hf. simpl in Hf. lia.
  - assert (Hno : forall q, In q P -> fst q <> dw).
    { intros q Hq Eq. assert (existsb (fun q => fst q =? dw) P = true)
        by (apply existsb_exists; exists q; split; [exact Hq | apply Z.eqb_eq; exact Eq]).
      congruence. }
    rewrite last_pattern_row_none by exact Hno.
    destruct Hin as [Hp|Hp]; [|exfalso; exact (Hno _ Hp eq_refl)].
    subst p. exists t0. unfold acc'. simpl. rewrite Z.eqb_refl.
    split; [reflexivity|]. split; [left; reflexivity|].
    intros t' [Ht'|Ht']; [injection Ht' as ->; lia | exfalso; exact (Hno _ Ht' eq_refl)].
Qed.


Lemma upsert_rows_agree (rows : list schedule_row) (g dw : Z) (t : time) :
  rows_agree g rows -> rows_agree g (upsert_schedule rows g dw t).
Proof.
  intros Ha r Hr Hg. rewrite upsert_find.
  destruct (Z.eqb_spec dw (sched_dow r)) as [E|E].
  - unfold upsert_schedule in Hr. destruct (existsb (sched_key g dw) rows) eqn:Ex.
    + apply in_map_iff in Hr as [r0 [<- Hr0]].
      destruct (sched_key g dw r0) eqn:Ek; [cbn; reflexivity|].
      exfalso. unfold sched_key in Ek. rewrite E, Hg, !Z.eqb_refl in Ek. discriminate.
    + apply in_app_iff in Hr as [Hr|[<-|[]]]; [|cbn; reflexivity].
      exfalso. pose proof (Ha r Hr Hg) as Hf. rewrite <- E in Hf.
      assert (Hx : existsb (sched_key g dw) rows = true).
      { apply existsb_exists. exists r. split; [exact Hr|].
        unfold sched_key. rewrite Hg, E, !Z.eqb_refl. reflexivity. }
      congruence.
  - unfold upsert_schedule in Hr. destruct (existsb (sched_key g dw) rows).
    + apply in_map_iff in Hr as [r0 [Hr0e Hr0]].
      destruct (sched_key g dw r0) eqn:Ek; [subst r; simpl in E; congruence|].
      subst r0. apply Ha; assumption.
    + apply in_app_iff in Hr as [Hr|[<-|[]]]; [apply Ha; assumption|].
      simpl in E. congruence.
Qed.

Lemma upsert_other_groups (rows : list schedule_row) (g dw : Z) (t : time) :
  filter (fun r => negb (sched_group r =? g)) (upsert_schedule rows g dw t)
  = filter (fun r => negb (sched_group r =? g)) rows.
Proof.
  unfold upsert_schedule. destruct (existsb (sched_key g dw) rows).
  - induction rows as [|r rows IH]; simpl; [reflexivity|].
    destruct (sched_key g dw r) eqn:Ek; simpl.
    + unfold sched_key in Ek. apply andb_true_iff in Ek as [Ek _]. rewrite Ek, Z.eqb_refl.
      simpl. exact IH.
    + destruct (negb (sched_group r =? g)); [f_equal|]; exact IH.
  - rewrite filter_app. simpl. rewrite Z.eqb_refl, app_nil_r. reflexivity.
Qed.

Lemma fold_upsert_invariants (P : list (Z * Z)) (rows : list schedule_row) (g : Z) :
  rows_agree g rows ->
  rows_agree g (fold_left (fun rs p => upsert_schedule rs g (fst p) (snd p)) P rows)
  /\ filter (fun r => negb (sched_group r =? g))
       (fold_left (fun rs p => upsert_schedule rs g (fst p) (snd p)) P rows)
     = filter (fun r => negb (sched_group r =? g)) rows.
Proof.
  revert rows. induction P as [|p P IH]; intros rows Ha; cbn [fold_left]; [split; auto|].
  destruct (IH (upsert_schedule rows g (fst p) (snd p)) (upsert_rows_agree _ _ _ _ Ha))
    as [H1 H2].
  split; [exact H1|]. etransitivity; [exact H2 | apply upsert_other_groups].
Qed.

Lemma patterns_In (d : db) (g : Z) (p : Z * Z) :
  In p (patterns d g)
  <-> exists l, In l (lessons d) /\ in_group g l = true /\ lesson_pattern l = p.
Proof.
  unfold patterns. rewrite dedup_sorted_In, sort_pairs_In, in_map_iff.
  split.
  - intros [l [Hp Hl]]. apply filter_In in Hl as [Hl Hg]. exists l. auto.
  - intros [l [Hl [Hg Hp]]]. exists l. split; [exact Hp|]. apply filter_In. auto.
Qed.

Lemma patterns_sorted (d : db) (g : Z) : StronglySorted lex_le (patterns d g).
Proof. unfold patterns. apply dedup_sorted_sorted, sort_pairs_sorted. Qed.

Lemma last_pattern_row_shape (g dw : Z) (P : list (Z * Z)) (acc : option schedule_row) :
  (acc = None \/ exists t, acc = Some (mkSchedule g dw t true)) ->
  last_pattern_row g dw P acc = None
  \/ exists t, last_pattern_row g dw P acc = Some (mkSchedule g dw t true).
Proof.
  unfold last_pattern_row. revert acc.
  induction P as [|p P IH]; intros acc H; simpl; [exact H|].
  apply IH. destruct p as [a b]. cbn [fst snd].
  destruct (a =? dw); [right; eexists; reflexivity | exact H].
Qed.

Lemma filter_filter_idem_local {A : Type} (f : A -> bool) (l : list A) :
  filter f (filter f l) = filter f l.
Proof.
  induction l as [|x l IH]; simpl; [reflexivity|].
  destruct (f x) eqn:E; simpl; [rewrite E, IH | rewrite IH]; reflexivity.
Qed.

(** The lookup of group [g]'s row for day [dw] after the sync. *)
Lemma sync_find (d : db) (g dw : Z) :
  find (sched_key g dw) (schedules (sync_group_schedules d g))
  = last_pattern_row g dw (patterns d g) None.
Proof.
  unfold sync_group_schedules. cbn [schedules]. rewrite fold_upsert_find.
  rewrite find_none_forall; [reflexivity|].
  intros r Hr. apply filter_In in Hr as [_ Hr]. unfold sched_key.
  destruct (sched_group r =? g); [discriminate | reflexivity].
Qed.

Lemma sync_rows_agree (d : db) (g : Z) :
  rows_agree g (schedules (sync_group_schedules d g))
  /\ filter (fun r => negb (sched_group r =? g)) (schedules (sync_group_schedules d g))
     = filter (fun r => negb (sched_group r =? g)) (schedules d).
Proof.
  unfold sync_group_schedules. cbn [schedules].
  destruct (fold_upsert_invariants (patterns d g)
              (filter (fun r => negb (sched_group r =? g)) (schedules d)) g) as [H1 H2].
  - intros r Hr Hg. apply filter_In in Hr as [_ Hr]. rewrite Hg, Z.eqb_refl in Hr.
    discriminate.
  - split; [exact H1|]. rewrite H2. rewrite filter_filter_idem_local. reflexivity.
Qed.

Lemma cgl_loop_schedules (fuel : nat) (g : Z) (cur end_d : date) (ts te : time)
  (freq : option string) (created : Z) (d d' : db) :
  cgl_loop fuel g cur end_d ts te freq created d = Ok d' -> schedules d' = schedules d.
Proof.
  revert cur created d.
  induction fuel as [|f IH]; intros cur created d H; simpl in H.
  - injection H as <-. reflexivity.
  - destruct ((cur <=? end_d) && (created <? 100)); [|injection H as <-; reflexivity].
    destruct (find_overlap_cgl d g (combine cur ts) (combine cur te)).
    + destruct (advance freq cur);
        [eapply IH; eauto | injection H as <-; reflexivity | discriminate].
    + destruct (advance freq cur);
        [apply IH in H; rewrite H; reflexivity | injection H as <-; reflexivity | discriminate].
Qed.

Lemma create_group_lessons_synced (d d' : db) (g : Z) (r : lesson_request) :
  create_group_lessons d g r = Ok d' ->
  exists d0, d' = sync_group_schedules d0 g /\ schedules d0 = schedules d.
Proof.
  intros H. unfold create_group_lessons in H.
  destruct (negb (valid_time (req_start r) && valid_time (req_end r))); [discriminate|].
  destruct (req_end r <=? req_start r); [discriminate|].
  destruct (find_group d g); [|discriminate].
  destruct (req_repeat r); simpl in H.
  - destruct (req_until r) as [u|]; [|discriminate].
    destruct (cgl_loop _ _ _ _ _ _ _ _ _) eqn:E; [|discriminate].
    injection H as <-. eexists; split; [reflexivity|]. eapply cgl_loop_schedules; exact E.
  - destruct (find_overlap_cgl _ _ _ _); [discriminate|].
    injection H as <-. eexists; split; [reflexivity|]. reflexivity.
Qed.

Lemma sync_lookup_spec (d : db) (g dw t : Z) :
  sched_lookup (schedules (sync_group_schedules d g)) g dw = Some t <->
  (exists l, In l (lessons d) /\ in_group g l = true /\ lesson_pattern l = (dw, t))
  /\ (forall l, In l (lessons d) -> in_group g l = true ->
                sql_dow (lesson_start l) = dw -> sql_time (lesson_start l) <= t).
Proof.
  unfold sched_lookup. rewrite sync_find.
  assert (Hmax : forall t1, (forall t', In (dw, t') (patterns d g) -> t' <= t1) <->
            (forall l, In l (lessons d) -> in_group g l = true ->
                       sql_dow (lesson_start l) = dw -> sql_time (lesson_start l) <= t1)).
  { intros t1. split.
    - intros H l Hl Hg Hd. apply H. apply patterns_In. exists l.
      unfold lesson_pattern. rewrite Hd. auto.
    - intros H t' Hin. apply patterns_In in Hin as [l [Hl [Hg Hp]]].
      unfold lesson_pattern in Hp. injection Hp as Hd Ht. subst t'. apply H; auto. }
  split.
  - intros H.
    destruct (existsb (fun q => fst q =? dw) (patterns d g)) eqn:E.
    + apply existsb_exists in E as [[a b] [Hq Ea]]. apply Z.eqb_eq in Ea. simpl in Ea. subst a.
      destruct (last_pattern_row_some g dw b (patterns d g) None (patterns_sorted d g) Hq)
        as [t1 [Ht1 [Hin Hm]]].
      rewrite Ht1 in H. injection H as <-. split; [apply patterns_In; exact Hin|].
      apply Hmax. exact Hm.
    + rewrite last_pattern_row_none in H; [discriminate|].
      intros q Hq Eq. assert (existsb (fun q => fst q =? dw) (patterns d g) = true)
        by (apply existsb_exists; exists q; split; [exact Hq | apply Z.eqb_eq; exact Eq]).
      congruence.
  - intros [Hex Hm]. apply patterns_In in Hex.
    destruct (last_pattern_row_some g dw t (patterns d g) None (patterns_sorted d g) Hex)
      as [t1 [Ht1 [Hin Hm1]]].
    rewrite Ht1. simpl. f_equal.
    pose proof (proj2 (Hmax t) Hm t1 Hin) as Hm2. specialize (Hm1 t Hex). lia.
Qed.

Lemma sync_lookup_none (d : db) (g dw : Z) :
  sched_lookup (schedules (sync_group_schedules d g)) g dw = None <->
  (forall l, In l (lessons d) -> in_group g l = true -> sql_dow (lesson_start l) <> dw).
Proof.
  unfold sched_lookup. rewrite sync_find. split.
  - intros H l Hl Hg Hd.
    destruct (last_pattern_row_some g dw (sql_time (lesson_start l)) (patterns d g) None
                (patterns_sorted d g)) as [t1 [Ht1 _]].
    + apply patterns_In. exists l. unfold lesson_pattern. rewrite Hd. auto.
    + rewrite Ht1 in H. discriminate.
  - intros H. rewrite last_pattern_row_none; [reflexivity|].
    intros [a b] Hq Ea. simpl in Ea. subst a.
    apply patterns_In in Hq as [l [Hl [Hg Hp]]]. unfold lesson_pattern in Hp.
    injection Hp as Hd _. exact (H l Hl Hg Hd).
Qed.

Lemma sync_rows_active (d : db) (g : Z) (r : schedule_row) :
  In r (schedules (sync_group_schedules d g)) -> sched_group r = g ->
  sched_lookup (schedules (sync_group_schedules d g)) g (sched_dow r) = Some (sched_time r)
  /\ sched_active r = true.
Proof.
  intros Hr Hg. destruct (sync_rows_agree d g) as [Ha _].
  pose proof (Ha r Hr Hg) as Hf. unfold sched_lookup. rewrite Hf. split; [reflexivity|].
  rewrite sync_find in Hf.
  destruct (last_pattern_row_shape g (sched_dow r) (patterns d g) None (or_introl eq_refl))
    as [E|[t E]]; rewrite E in Hf; [discriminate|].
  injection Hf as <-. reflexivity.
Qed.

(** C8 (amended). [create_group_lessons] ends with the sync step. After it
    succeeds, group [g] has a row for day [dw] exactly when one of its
    lessons falls on that day. The row's time is the latest time of day
    among those lessons, and the row is active. Every row of [g] is the one
    a lookup on its day returns. The rows of other groups are unchanged.
    Two pairs on the same day with different times keep only the later one,
    since the rows are keyed by (group, day of week). *)
Theorem create_group_lessons_schedule_rows (d d' : db) (g : Z) (req : lesson_request) :
  create_group_lessons d g req = Ok d' ->
  (forall dw t, sched_lookup (schedules d') g dw = Some t <->
     (exists l, In l (lessons d') /\ in_group g l = true /\ lesson_pattern l = (dw, t))
     /\ (forall l, In l (lessons d') -> in_group g l = true ->
                   sql_dow (lesson_start l) = dw -> sql_time (lesson_start l) <= t))
  /\ (forall dw, sched_lookup (schedules d') g dw = None <->
        (forall l, In l (lessons d') -> in_group g l = true -> sql_dow (lesson_start l) <> dw))
  /\ (forall r, In r (schedules d') -> sched_group r = g ->
        sched_lookup (schedules d') g (sched_dow r) = Some (sched_time r)
        /\ sched_active r = true)
  /\ filter (fun r => negb (sched_group r =? g)) (schedules d')
     = filter (fun r => negb (sched_group r =? g)) (schedules d).
Proof.
  intros H. destruct (create_group_lessons_synced d d' g req H) as [d0 [-> Hs]].
  split; [intros dw t; exact (sync_lookup_spec d0 g dw t)|].
  split; [intros dw; exact (sync_lookup_none d0 g dw)|].
  split; [intros r; exact (sync_rows_active d0 g r)|].
  rewrite <- Hs. apply sync_rows_agree.
Qed.


Lemma create_group_lessons_schedule_rows_witness :
  sched_lookup (schedules ex_created_db) 1 4 = Some 700.
Proof.
  assert (E : create_group_lessons ex_conflict_db 1 ex_single_request = Ok ex_created_db)
    by (vm_compute; reflexivity).
  apply (proj2 (proj1 (create_group_lessons_schedule_rows ex_conflict_db ex_created_db 1
                         ex_single_request E) 4 700)).
  split.
  - exists (mkLesson 2 (Some 1) 700 (Some 60)). vm_compute. auto.
  - intros l Hl _ _. vm_compute in Hl.
    destruct Hl as [<-|[<-|[]]]; apply Z.leb_le; vm_compute; reflexivity.
Defined.

(** Counterexample to C8 as stated.
    - Group 1 holds a Thursday 10:30 lesson. A checked creation of a
      Thursday 11:40 lesson leaves one schedule row for the group, while
      its lessons show two distinct (day of week, time) pairs.
    - [add_group_schedule] runs no sync. After it, the Monday row says
      10:00, while a sync would store 10:30. *)
Lemma schedule_rows_counterexample :
  match create_group_lessons ex_conflict_db 1 ex_single_request with
  | Ok d' => List.length (filter (fun r => sched_group r =? 1) (schedules d')) = 1%nat
             /\ patterns d' 1 = [(4, 630); (4, 700)]
  | Err _ => False
  end
  /\ match add_group_schedule ex_schedule_db 1 1 600 660 19723 with
     | Ok (d', _) => sched_lookup (schedules d') 1 1 = Some 600
                     /\ sched_lookup (schedules (sync_group_schedules d' 1)) 1 1 = Some 630
     | Err _ => False
     end.
Proof. vm_compute. repeat split. Qed.

Lemma find_student_In (d : trial_db) (uid : Z) (s : student) :
  find_student_by_user d uid = Some s -> In s (tr_students d).
Proof. unfold find_student_by_user. intros H. apply find_some in H. tauto. Qed.

Lemma set_student_In (d : trial_db) (s x : student) :
  In x (tr_students (set_student d s)) -> x = s \/ In x (tr_students d).
Proof.
  unfold set_student. cbn [tr_students]. intros H. apply in_map_iff in H as [y [Hy Hin]].
  destruct (st_id y =? st_id s); [left; congruence | right; congruence].
Qed.

Lemma set_student_In_new (d : trial_db) (s old : student) :
  In old (tr_students d) -> st_id old = st_id s -> In s (tr_students (set_student d s)).
Proof.
  intros Hin Hid. unfold set_student. cbn [tr_students]. apply in_map_iff.
  exists old. split; [rewrite Hid, Z.eqb_refl; reflexivity | exact Hin].
Qed.


(** C9 (amended). Take the student [s] of user [uid].
    - A successful trial request keeps [trials_used <= trials_allowed] for
      every student.
    - When [trials_used >= trials_allowed], the request is rejected with
      409. A rejection rolls the transaction back, so nothing changes.
    - With [trials_allowed = 1] and [trials_used = 0], and [s] not yet
      enrolled in group [g], the request succeeds. It records the trial
      enrollment, and [s] now has [trials_used = 1] and [trial_used] true.
    - If [s] is already enrolled in [g], the request is rejected with 409. *)
Theorem trial_request_counters (d : trial_db) (uid g : Z) (s : student) :
  find_student_by_user d uid = Some s ->
  (forall d', trials_within d -> trial_lesson d "student" uid g = Ok d' -> trials_within d')
  /\ (st_trials_allowed s <= st_trials_used s -> trial_lesson d "student" uid g = Err 409)
  /\ (st_trials_allowed s = 1 -> st_trials_used s = 0 -> enrolled_in d g (st_id s) = false ->
      exists d', trial_lesson d "student" uid g = Ok d'
                 /\ In (mkStudent (st_id s) (st_user s) true 1 1) (tr_students d')
                 /\ tr_enrollments d' = tr_enrollments d ++ [mkEnrollment g (st_id s) (Some true)])
  /\ (enrolled_in d g (st_id s) = true -> trial_lesson d "student" uid g = Err 409).
Proof.
  intros Hs. unfold trial_lesson. cbn [String.eqb negb]. rewrite Hs.
  fold (enrolled_in d g (st_id s)).
  split; [|split; [|split]].
  - intros d' Hw H.
    destruct (Z.leb_spec (st_trials_allowed s) (st_trials_used s)); [discriminate|].
    destruct (enrolled_in d g (st_id s)); [discriminate|].
    injection H as <-. intros x Hx. apply set_student_In in Hx as [->|Hx].
    + cbn. lia.
    + apply Hw. exact Hx.
  - intros Hle. destruct (Z.leb_spec (st_trials_allowed s) (st_trials_used s));
      [reflexivity | lia].
  - intros Ha Hu He. rewrite Ha, Hu, He. cbn.
    eexists. split; [reflexivity|]. split; [|reflexivity].
    apply (set_student_In_new _ _ s); [apply (find_student_In d uid s Hs) | reflexivity].
  - intros He. rewrite He. destruct (st_trials_allowed s <=? st_trials_used s); reflexivity.
Qed.


Lemma trial_request_counters_witness :
  exists d', trial_lesson ex_trial_db "student" 30 5 = Ok d'
             /\ In (mkStudent 3 30 true 1 1) (tr_students d')
             /\ tr_enrollments d' = [mkEnrollment 5 3 (Some true)].
Proof.
  apply (proj1 (proj2 (proj2 (trial_request_counters ex_trial_db 30 5 ex_trial_student
                                  eq_refl))));
    reflexivity.
Defined.

(** Counterexample to C9 as stated: the same student with one trial left,
    already a regular member of group 5, is refused with 409 on the first
    trial request. *)
Lemma trial_request_enrolled_counterexample :
  trial_lesson (mkTrialDb [ex_trial_student] [mkEnrollment 5 3 (Some false)] (Some true))
               "student" 30 5 = Err 409
  /\ st_trials_allowed ex_trial_student = 1 /\ st_trials_used ex_trial_student = 0.
Proof. vm_compute. repeat split. Qed.

(** C10 (the code does not do what the spec says). With [trial_lessons.enabled] set to false,
    the admin trial endpoints answer 403. The student endpoint
    POST /groups/{id}/trial never reads the setting and registers the
    trial. *)
Theorem trial_setting_not_checked_for_students (d : trial_db) (uid g : Z) (s : student) :
  tr_trials_enabled d = Some false ->
  find_student_by_user d uid = Some s ->
  st_trials_used s < st_trials_allowed s ->
  enrolled_in d g (st_id s) = false ->
  (exists d', handle_trial d (StudentTrial "student" uid g) = Ok d'
              /\ In (mkEnrollment g (st_id s) (Some true)) (tr_enrollments d'))
  /\ handle_trial d AdminTrialStudents = Err 403
  /\ (forall sid delta, handle_trial d (AdminAdjustTrials sid delta) = Err 403)
  /\ (forall sid, handle_trial d (AdminTrialHistory sid) = Err 403).
Proof.
  intros Hoff Hs Hlt He.
  assert (Hdis : trials_enabled d = false) by (unfold trials_enabled; rewrite Hoff; reflexivity).
  split; [|cbn [handle_trial]; rewrite Hdis; split; [reflexivity | split; reflexivity]].
  cbn [handle_trial]. unfold trial_lesson. cbn [String.eqb negb]. rewrite Hs.
  fold (enrolled_in d g (st_id s)). rewrite He.
  destruct (Z.leb_spec (st_trials_allowed s) (st_trials_used s)); [lia|].
  eexists. split; [reflexivity|]. cbn. apply in_or_app. right. left. reflexivity.
Qed.

Lemma trial_setting_not_checked_for_students_witness :
  exists d', handle_trial (mkTrialDb [ex_trial_student] [] (Some false))
                          (StudentTrial "student" 30 5) = Ok d'
             /\ In (mkEnrollment 5 3 (Some true)) (tr_enrollments d').
Proof.
  apply (proj1 (trial_setting_not_checked_for_students
                  (mkTrialDb [ex_trial_student] [] (Some false)) 30 5 ex_trial_student
                  eq_refl eq_refl ltac:(vm_compute; reflexivity) eq_refl)).
Defined.

(** * Properties of the surrounding handlers *)

(** ** Where the generated lessons fall *)

Lemma sql_dow_add_week (x k : Z) : sql_dow (x + 10080 * k) = sql_dow x.
Proof.
  unfold sql_dow. replace (x + 10080 * k) with (x + (7 * k) * 1440) by lia.
  rewrite Z.div_add by lia.
  replace (x / 1440 + 7 * k + 4) with ((x / 1440 + 4) + k * 7) by lia.
  apply Z.mod_add. lia.
Qed.

Lemma find_at_insert_none (d : db) (g' g : Z) (s x : timestamp) (dur : Z) :
  find_at (insert_lesson d g' s dur) g x = None -> find_at d g x = None.
Proof.
  unfold find_at, insert_lesson. cbn [lessons]. rewrite find_app_l.
  destruct (find _ (lessons d)); [discriminate | reflexivity].
Qed.

Lemma ags_loop_placed (fuel : nat) (g : Z) (cur end_d : date) (t : time) (dur created : Z)
  (d : db) :
  exists rest, lessons (fst (ags_loop fuel g cur end_d t dur created d)) = lessons d ++ rest
  /\ forall l, In l rest ->
       exists k, 0 <= k /\ cur + 7 * k <= end_d
       /\ lesson_group l = Some g /\ lesson_start l = combine (cur + 7 * k) t
       /\ lesson_duration l = Some dur /\ find_at d g (lesson_start l) = None.
Proof.
  revert cur created d. induction fuel as [|f IH]; intros cur created d; cbn [ags_loop].
  - exists []. rewrite app_nil_r. split; [reflexivity | intros l []].
  - destruct ((cur <=? end_d) && (created <? 20)) eqn:C.
    + apply andb_true_iff in C as [C _]. apply Z.leb_le in C.
      destruct (find_at d g (combine cur t)) eqn:Ef.
      * destruct (IH (cur + 7) created d) as [rest [Hr Hp]].
        exists rest. split; [exact Hr|]. intros l Hl.
        destruct (Hp l Hl) as [k [Hk [He [Hg [Hs [Hd Hn]]]]]].
        exists (k + 1). split; [lia|]. split; [lia|]. split; [exact Hg|].
        split; [rewrite Hs; unfold combine; lia|]. split; [exact Hd | exact Hn].
      * destruct (IH (cur + 7) (created + 1) (insert_lesson d g (combine cur t) dur))
          as [rest [Hr Hp]].
        exists (mkLesson (next_lesson_id d) (Some g) (combine cur t) (Some dur) :: rest).
        split.
        { rewrite Hr. unfold insert_lesson. cbn [lessons]. rewrite <- app_assoc. reflexivity. }
        intros l [<-|Hl].
        -- exists 0. cbn [lesson_group lesson_start lesson_duration].
           split; [lia|]. split; [lia|]. split; [reflexivity|].
           split; [unfold combine; lia|]. split; [reflexivity | exact Ef].
        -- destruct (Hp l Hl) as [k [Hk [He [Hg [Hs [Hd Hn]]]]]].
           exists (k + 1). split; [lia|]. split; [lia|]. split; [exact Hg|].
           split; [rewrite Hs; unfold combine; lia|]. split; [exact Hd|].
           eapply find_at_insert_none. exact Hn.
    + exists []. rewrite app_nil_r. split; [reflexivity | intros l []].
Qed.

Lemma find_at_insert_other (d : db) (g' g : Z) (s x : timestamp) (dur : Z) :
  find_at d g x = None -> s <> x -> find_at (insert_lesson d g' s dur) g x = None.
Proof.
  unfold find_at, insert_lesson. cbn [lessons]. rewrite find_app_l.
  destruct (find _ (lessons d)); [discriminate|]. intros _ Hne. cbn [find lesson_start].
  destruct (Z.eqb_spec s x) as [E|_]; [contradiction|]. rewrite andb_false_r. reflexivity.
Qed.

Lemma ags_loop_only_appends (fuel : nat) (g : Z) (cur end_d : date) (t : time)
  (dur created : Z) (d : db) (l : lesson) :
  In l (lessons d) -> In l (lessons (fst (ags_loop fuel g cur end_d t dur created d))).
Proof.
  intros Hl. destruct (ags_loop_shape fuel g cur end_d t dur created d) as [[rest [Hr _]] _].
  rewrite Hr. apply in_or_app. left. exact Hl.
Qed.

(** Every free weekly date the loop reaches within its fuel gets a lesson,
    unless twenty lessons have been created by then. *)
Lemma ags_loop_covers (fuel : nat) (g : Z) (t : time) (dur : Z) :
  forall (k : nat) (cur end_d : date) (created : Z) (d : db),
  (k < fuel)%nat -> cur + 7 * Z.of_nat k <= end_d -> created <= 20 ->
  find_at d g (combine (cur + 7 * Z.of_nat k) t) = None ->
  snd (ags_loop fuel g cur end_d t dur created d) = 20
  \/ exists l, In l (lessons (fst (ags_loop fuel g cur end_d t dur created d)))
       /\ lesson_group l = Some g /\ lesson_start l = combine (cur + 7 * Z.of_nat k) t.
Proof.
  induction fuel as [|f IH]; intros k cur end_d created d Hk Hx Hc Hfree; [lia|].
  cbn [ags_loop].
  destruct (Z.leb_spec cur end_d) as [Hle|Hgt]; [|lia]. cbn [andb].
  destruct (Z.ltb_spec created 20) as [Hlt|Hge]; [|left; cbn [snd]; lia].
  destruct k as [|k].
  - replace (cur + 7 * Z.of_nat 0) with cur in Hfree |- * by lia. rewrite Hfree.
    right. exists (mkLesson (next_lesson_id d) (Some g) (combine cur t) (Some dur)).
    split; [|split; reflexivity]. apply ags_loop_only_appends.
    unfold insert_lesson. cbn [lessons]. apply in_or_app. right. left. reflexivity.
  - replace (cur + 7 * Z.of_nat (S k)) with ((cur + 7) + 7 * Z.of_nat k) in Hx, Hfree |- * by lia.
    destruct (find_at d g (combine cur t)).
    + apply IH; [lia | exact Hx | lia | exact Hfree].
    + apply IH; [lia | exact Hx | lia|].
      apply find_at_insert_other; [exact Hfree|]. unfold combine. lia.
Qed.

(** C4 (amended). In [add_group_schedule], for a group with a start date,
    the first candidate date [c0] is the first date on or after
    [max(start_date, today)] whose Sunday-is-0 weekday is [day_of_week].
    The first lesson the call generates is on [c0] if and only if [c0] is
    within the end date and the group has no lesson at [c0] with that start
    time yet. Every generated lesson lies on a weekly date [c0 + 7k] within
    the end date where the group had no lesson at that start time, so an
    occupied date is skipped; and every free weekly date within the end
    date gets a lesson unless the call has created 20, so generation goes
    on past a skipped date to later weeks. One call only appends lessons,
    and it appends at most 20. *)
Theorem add_schedule_first_date (d d' : db) (g dw : Z) (ts te : time) (today : date) (n : Z)
  (gr : group) (sd : date) :
  add_group_schedule d g dw ts te today = Ok (d', n) ->
  find_group d g = Some gr -> group_start_date gr = Some sd ->
  exists c0 : date, exists rest : list lesson,
     Z.max sd today <= c0 < Z.max sd today + 7
     /\ sql_dow (combine c0 ts) = dw
     /\ (forall x, Z.max sd today <= x < c0 -> sql_dow (combine x ts) <> dw)
     /\ lessons d' = lessons d ++ rest
     /\ Z.of_nat (List.length rest) = n /\ 0 <= n <= 20
     /\ ((c0 <= ags_end_date gr sd /\ find_at d g (combine c0 ts) = None)
         <-> exists rest', rest = mkLesson (next_lesson_id d) (Some g) (combine c0 ts)
                                   (Some (py_or 90 (group_duration gr))) :: rest')
     /\ (forall l, In l rest ->
           exists k, 0 <= k /\ c0 + 7 * k <= ags_end_date gr sd
           /\ lesson_group l = Some g /\ lesson_start l = combine (c0 + 7 * k) ts
           /\ find_at d g (combine (c0 + 7 * k) ts) = None)
     /\ (forall k : nat, c0 + 7 * Z.of_nat k <= ags_end_date gr sd ->
           find_at d g (combine (c0 + 7 * Z.of_nat k) ts) = None ->
           n = 20 \/ exists l, In l rest /\ lesson_group l = Some g
                              /\ lesson_start l = combine (c0 + 7 * Z.of_nat k) ts).
Proof.
  intros H Hg Hs.
  destruct (add_group_schedule_ok_inv d d' g dw ts te today n gr sd H Hg Hs)
    as [Hdw [Hts Hl]].
  set (c0 := first_weekday 7 (Z.max sd today) ((dw - 1) mod 7)) in Hl.
  set (e := ags_end_date gr sd) in Hl.
  set (dur := py_or 90 (group_duration gr)) in Hl.
  set (d1 := mkDb (groups d) (lessons d) (upsert_schedule (schedules d) g dw ts)
                  (next_lesson_id d)) in Hl.
  set (fuel := Z.to_nat (e - c0 + 1)) in Hl.
  destruct (ags_loop_shape fuel g c0 e ts dur 0 d1) as [[rest [Hr Hn]] [Hle Hge]].
  rewrite Hl in Hr, Hn, Hle, Hge. cbn [fst snd lessons d1] in Hr, Hn, Hle, Hge.
  destruct (first_weekday7_spec (Z.max sd today) ((dw - 1) mod 7)
              ltac:(apply Z.mod_pos_bound; lia)) as [Hb [Hw Hmin]].
  exists c0, rest. split; [exact Hb|]. split; [apply dow_target_matches; auto|].
  split; [intros x Hx Heq; apply (Hmin x Hx); apply (dow_target_matches x ts dw); auto|].
  split; [exact Hr|]. split; [lia|]. split; [lia|].
  split; [|split].
  - split.
    + intros [He Hn0].
      assert (Hn1 : find_at d1 g (combine c0 ts) = None) by exact Hn0.
      destruct (ags_loop_first fuel g c0 e ts dur 0 d1 ltac:(unfold fuel; lia) He
                  ltac:(lia) Hn1) as [rest' Hr'].
      rewrite Hl in Hr'. cbn [fst lessons d1] in Hr'. rewrite Hr in Hr'.
      exists rest'. apply app_inv_head in Hr'. exact Hr'.
    + intros [rest' Hrest]. subst rest.
      destruct (Z.leb_spec c0 e) as [He|He].
      2:{ exfalso. assert (Hf : fuel = 0%nat) by (unfold fuel; lia).
          rewrite Hf in Hl. cbn [ags_loop] in Hl. injection Hl as Hd' _.
          rewrite <- Hd' in Hr. cbn [lessons d1] in Hr.
          apply (f_equal (@List.length lesson)) in Hr. rewrite length_app in Hr.
          cbn [List.length] in Hr. lia. }
      split; [exact He|].
      destruct (find_at d g (combine c0 ts)) as [z|] eqn:Ef; [exfalso|reflexivity].
      assert (Hf : fuel = S (Nat.pred fuel)) by (unfold fuel; lia).
      rewrite Hf in Hl. cbn [ags_loop] in Hl.
      replace ((c0 <=? e) && (0 <? 20)) with true in Hl
        by (symmetry; apply andb_true_iff; split; [apply Z.leb_le; exact He | reflexivity]).
      assert (Ef1 : find_at d1 g (combine c0 ts) = Some z) by exact Ef.
      rewrite Ef1 in Hl.
      destruct (ags_loop_placed (Nat.pred fuel) g (c0 + 7) e ts dur 0 d1) as [r2 [Hr2 Hp2]].
      rewrite Hl in Hr2. cbn [fst lessons d1] in Hr2. rewrite Hr in Hr2.
      apply app_inv_head in Hr2.
      assert (Hin0 : In (mkLesson (next_lesson_id d) (Some g) (combine c0 ts) (Some dur)) r2)
        by (rewrite <- Hr2; left; reflexivity).
      destruct (Hp2 _ Hin0) as [k [Hk [_ [_ [Hst _]]]]].
      cbn [lesson_start] in Hst. unfold combine in Hst. lia.
  - intros l Hin.
    destruct (ags_loop_placed fuel g c0 e ts dur 0 d1) as [r2 [Hr2 Hp2]].
    rewrite Hl in Hr2. cbn [fst lessons d1] in Hr2. rewrite Hr in Hr2.
    apply app_inv_head in Hr2. subst r2.
    destruct (Hp2 l Hin) as [k [Hk [He [Hgl [Hst [_ Hf]]]]]].
    exists k. rewrite <- Hst. split; [exact Hk|]. split; [exact He|].
    split; [exact Hgl|]. split; [reflexivity | exact Hf].
  - intros k Hk Hfree.
    assert (Hfree1 : find_at d1 g (combine (c0 + 7 * Z.of_nat k) ts) = None) by exact Hfree.
    destruct (ags_loop_covers fuel g ts dur k c0 e 0 d1 ltac:(unfold fuel; lia) Hk
                ltac:(lia) Hfree1) as [H20|[l [Hin [Hgl Hst]]]];
      rewrite Hl in *; cbn [fst snd] in *; [left; exact H20|].
    right. exists l. split; [|split; assumption].
    rewrite Hr in Hin. apply in_app_or in Hin as [Hin|Hin]; [exfalso|exact Hin].
    assert (Hsome : find (fun x => in_group g x && (lesson_start x =? combine (c0 + 7 * Z.of_nat k) ts))
                         (lessons d) <> None).
    { intros Hno. eapply find_none in Hno; [|exact Hin].
      unfold in_group in Hno. rewrite Hgl, Z.eqb_refl, Hst, Z.eqb_refl in Hno. discriminate. }
    unfold find_at in Hfree. destruct (find _ (lessons d)); [discriminate | exact (Hsome eq_refl)].
Qed.

(** Counterexample to C4 as stated: adding a Monday 10:00 schedule on
    2024-01-01 generates lessons, and the first of them is on 2024-01-08,
    not on the first matching date 2024-01-01. *)
Lemma add_schedule_first_date_counterexample :
  match ex_monday_result with
  | Ok (d', n) =>
      0 < n /\ sql_dow (combine 19723 600) = 1
      /\ nth_error (lessons d') 1 = Some (mkLesson 2 (Some 1) (combine 19730 600) (Some 90))
  | Err _ => False
  end.
Proof. vm_compute. split; [reflexivity|]. split; reflexivity. Qed.


Lemma add_schedule_first_date_witness :
  add_group_schedule ex_monday_db 1 1 600 660 19723
    = Ok (fst ex_monday_out, snd ex_monday_out)
  /\ 0 <= snd ex_monday_out <= 20.
Proof.
  assert (H : add_group_schedule ex_monday_db 1 1 600 660 19723
              = Ok (fst ex_monday_out, snd ex_monday_out)) by (vm_compute; reflexivity).
  split; [exact H|].
  destruct (add_schedule_first_date ex_monday_db (fst ex_monday_out) 1 1 600 660 19723
              (snd ex_monday_out) (mkGroup 1 (Some 19723) None (Some 90) false) 19723
              H eq_refl eq_refl) as [c0 [rest [_ [_ [_ [_ [_ [Hn _]]]]]]]].
  exact Hn.
Defined.

Lemma combine_add_week (c k : Z) (t : time) : combine (c + 7 * k) t = combine c t + 10080 * k.
Proof. unfold combine. lia. Qed.

(** X2. Every lesson [add_group_schedule] creates belongs to the group, starts
    at the requested [start_time] on a date between [max(start_date, today)]
    and the end date ([recurring_until], else [start_date] + 90 days), falls
    on the requested day of week, has the group's duration (90 when unset or
    0), and sits at a start where the group had no lesson before the call.
    A group without a start date gets no lessons. *)
Theorem add_group_schedule_lessons_placed (d d' : db) (g dw : Z) (ts te : time) (today : date)
  (n : Z) (gr : group) :
  add_group_schedule d g dw ts te today = Ok (d', n) ->
  find_group d g = Some gr ->
  exists rest, lessons d' = lessons d ++ rest
  /\ forall l, In l rest ->
       exists sd c, group_start_date gr = Some sd
       /\ Z.max sd today <= c <= ags_end_date gr sd
       /\ lesson_start l = combine c ts /\ sql_dow (lesson_start l) = dw
       /\ lesson_group l = Some g
       /\ lesson_duration l = Some (py_or 90 (group_duration gr))
       /\ find_at d g (lesson_start l) = None.
Proof.
  intros H Hg. destruct (group_start_date gr) as [sd|] eqn:Hs.
  - destruct (add_group_schedule_ok_inv d d' g dw ts te today n gr sd H Hg Hs)
      as [Hdw [Hts Hl]].
    set (c0 := first_weekday 7 (Z.max sd today) ((dw - 1) mod 7)) in Hl.
    destruct (first_weekday7_spec (Z.max sd today) ((dw - 1) mod 7)
                ltac:(apply Z.mod_pos_bound; lia)) as [Hb [Hw _]].
    fold c0 in Hb, Hw.
    match type of Hl with
    | ags_loop ?F ?g0 ?c ?e ?t0 ?du ?cr ?d1 = _ =>
        destruct (ags_loop_placed F g0 c e t0 du cr d1) as [rest [Hr Hp]]
    end.
    rewrite Hl in Hr. simpl in Hr.
    exists rest. split; [exact Hr|]. intros l Hin.
    destruct (Hp l Hin) as [k [Hk [He [Hlg [Hls [Hld Hn]]]]]].
    exists sd, (c0 + 7 * k). split; [reflexivity|]. split; [lia|].
    split; [exact Hls|].
    split.
    { rewrite Hls, combine_add_week, sql_dow_add_week.
      apply dow_target_matches; [lia | lia | exact Hw]. }
    split; [exact Hlg|]. split; [exact Hld | exact Hn].
  - unfold add_group_schedule in H.
    destruct (negb ((0 <=? dw) && (dw <=? 6))); [discriminate|].
    destruct (negb (valid_time ts && valid_time te)); [discriminate|].
    destruct (te <=? ts); [discriminate|].
    rewrite Hg, Hs in H. injection H as <- _.
    exists []. rewrite app_nil_r. split; [reflexivity | intros l []].
Qed.

Lemma cgl_loop_placed (fuel : nat) (g : Z) (cur end_d : date) (ts te : time)
  (freq : option string) (created : Z) (d d' : db) (P : date -> Prop) :
  cgl_loop fuel g cur end_d ts te freq created d = Ok d' ->
  P cur -> (forall c c', P c -> advance freq c = Next c' -> P c') ->
  exists rest, lessons d' = lessons d ++ rest
  /\ created + Z.of_nat (List.length rest) <= Z.max created 100
  /\ forall l, In l rest ->
       lesson_group l = Some g /\ lesson_duration l = Some (te - ts)
       /\ exists c, P c /\ c <= end_d /\ lesson_start l = combine c ts.
Proof.
  intros H HP Hstep. revert cur created d H HP.
  induction fuel as [|f IH]; intros cur created d H HP; cbn [cgl_loop] in H.
  - injection H as <-. exists []. rewrite app_nil_r.
    split; [reflexivity|]. split; [cbn; lia | intros l []].
  - destruct ((cur <=? end_d) && (created <? 100)) eqn:C.
    2:{ injection H as <-. exists []. rewrite app_nil_r.
        split; [reflexivity|]. split; [cbn; lia | intros l []]. }
    apply andb_true_iff in C as [C1 C2]. apply Z.leb_le in C1. apply Z.ltb_lt in C2.
    destruct (find_overlap_cgl d g (combine cur ts) (combine cur te)) eqn:Eo;
      destruct (advance freq cur) as [c'| |] eqn:Ea; try discriminate.
    + destruct (IH c' created d H (Hstep cur c' HP Ea)) as [rest [Hr [Hn Hp]]].
      exists rest. split; [exact Hr|]. split; [exact Hn | exact Hp].
    + injection H as <-. exists []. rewrite app_nil_r.
      split; [reflexivity|]. split; [cbn; lia | intros l []].
    + set (nl := mkLesson (next_lesson_id d) (Some g) (combine cur ts) (Some (te - ts))).
      destruct (IH c' (created + 1) (insert_lesson d g (combine cur ts) (te - ts)) H
                  (Hstep cur c' HP Ea)) as [rest [Hr [Hn Hp]]].
      exists (nl :: rest). split.
      { rewrite Hr. unfold insert_lesson. cbn [lessons]. rewrite <- app_assoc. reflexivity. }
      split; [cbn [List.length]; lia|].
      intros l [<-|Hl]; [|exact (Hp l Hl)].
      split; [reflexivity|]. split; [reflexivity|]. exists cur. auto.
    + injection H as <-. exists [mkLesson (next_lesson_id d) (Some g) (combine cur ts)
                                   (Some (te - ts))].
      split; [reflexivity|]. split; [cbn [List.length]; lia|].
      intros l [<-|[]]. split; [reflexivity|]. split; [reflexivity|]. exists cur. auto.
Qed.

Lemma mod_step (c rd k : Z) : 0 < k -> (c - rd) mod k = 0 -> (c + k - rd) mod k = 0.
Proof.
  intros Hk H. replace (c + k - rd) with ((c - rd) + 1 * k) by lia.
  rewrite Z.mod_add by lia. exact H.
Qed.

(** The dates the repeat loop of [create_group_lessons] visits, as the
    frequency determines them. *)
Lemma cgl_dates_step (rd : date) (freq : option string) (c c' : date) :
  (freq = Some "weekly"%string -> rd <= c /\ (c - rd) mod 7 = 0)
  /\ (freq = Some "biweekly"%string -> rd <= c /\ (c - rd) mod 14 = 0)
  /\ (freq <> Some "weekly"%string -> freq <> Some "biweekly"%string ->
      freq <> Some "monthly"%string -> c = rd) ->
  advance freq c = Next c' ->
  (freq = Some "weekly"%string -> rd <= c' /\ (c' - rd) mod 7 = 0)
  /\ (freq = Some "biweekly"%string -> rd <= c' /\ (c' - rd) mod 14 = 0)
  /\ (freq <> Some "weekly"%string -> freq <> Some "biweekly"%string ->
      freq <> Some "monthly"%string -> c' = rd).
Proof.
  intros [Hw [Hb Ho]] Ha. destruct freq as [f|]; [|discriminate].
  unfold advance in Ha.
  destruct (String.eqb f "weekly") eqn:E1.
  { apply String.eqb_eq in E1. subst f. injection Ha as <-.
    destruct (Hw eq_refl) as [H1 H2].
    split; [intros _; split; [lia | apply mod_step; [lia | exact H2]]|].
    split; [discriminate | intros N; exfalso; apply N; reflexivity]. }
  destruct (String.eqb f "biweekly") eqn:E2.
  { apply String.eqb_eq in E2. subst f. injection Ha as <-.
    destruct (Hb eq_refl) as [H1 H2].
    split; [discriminate|].
    split; [intros _; split; [lia | apply mod_step; [lia | exact H2]]|].
    intros _ N; exfalso; apply N; reflexivity. }
  destruct (String.eqb f "monthly") eqn:E3.
  { apply String.eqb_eq in E3. subst f.
    split; [discriminate|]. split; [discriminate|].
    intros _ _ N; exfalso; apply N; reflexivity. }
  discriminate.
Qed.

(** X3. The lessons [create_group_lessons] creates are appended to the store:
    at most 100 of them, exactly one without [repeat]. Each belongs to the
    group, lasts [end_time - start_time] (positive) minutes and starts at
    [start_time] on a date [c]: [c] is the request date without [repeat];
    with [repeat], [c] is at most [repeat_until], a whole number of weeks
    (two weeks for [biweekly]) after the request date for a weekly
    (biweekly) frequency, and the request date itself for a frequency other
    than weekly, biweekly and monthly. *)
Theorem create_group_lessons_lessons_placed (d d' : db) (g : Z) (r : lesson_request) :
  create_group_lessons d g r = Ok d' ->
  exists rest, lessons d' = lessons d ++ rest
  /\ Z.of_nat (List.length rest) <= 100
  /\ (req_repeat r = false -> List.length rest = 1%nat)
  /\ forall l, In l rest ->
       lesson_group l = Some g /\ lesson_duration l = Some (req_end r - req_start r)
       /\ 0 < req_end r - req_start r
       /\ exists c, lesson_start l = combine c (req_start r)
       /\ (req_repeat r = false -> c = req_date r)
       /\ (req_repeat r = true ->
             (exists u, req_until r = Some u /\ c <= u)
             /\ (req_freq r = Some "weekly"%string -> req_date r <= c /\ (c - req_date r) mod 7 = 0)
             /\ (req_freq r = Some "biweekly"%string ->
                   req_date r <= c /\ (c - req_date r) mod 14 = 0)
             /\ (req_freq r <> Some "weekly"%string -> req_freq r <> Some "biweekly"%string ->
                 req_freq r <> Some "monthly"%string -> c = req_date r)).
Proof.
  intros H. unfold create_group_lessons in H.
  destruct (negb (valid_time (req_start r) && valid_time (req_end r))); [discriminate|].
  destruct (req_end r <=? req_start r) eqn:Ele; [discriminate|].
  apply Z.leb_gt in Ele.
  destruct (find_group d g) as [gr|]; [|discriminate].
  destruct (req_repeat r) eqn:Erep.
  - destruct (req_until r) as [u|] eqn:Eu; [|discriminate].
    destruct (cgl_loop _ _ _ _ _ _ _ _ _) as [d1|] eqn:El; [|discriminate].
    injection H as <-.
    set (P := fun c : date =>
      (req_freq r = Some "weekly"%string -> req_date r <= c /\ (c - req_date r) mod 7 = 0)
      /\ (req_freq r = Some "biweekly"%string -> req_date r <= c /\ (c - req_date r) mod 14 = 0)
      /\ (req_freq r <> Some "weekly"%string -> req_freq r <> Some "biweekly"%string ->
          req_freq r <> Some "monthly"%string -> c = req_date r)).
    assert (HP0 : P (req_date r)).
    { unfold P. rewrite Z.sub_diag.
      split; [intros _; split; [lia | reflexivity]|].
      split; [intros _; split; [lia | reflexivity]|]. intros; reflexivity. }
    destruct (cgl_loop_placed _ _ _ _ _ _ _ _ _ _ P El HP0
                (fun c c' => cgl_dates_step (req_date r) (req_freq r) c c'))
      as [rest [Hr [Hn Hp]]].
    exists rest. split; [exact Hr|]. split; [lia|]. split; [discriminate|].
    intros l Hl. destruct (Hp l Hl) as [Hg [Hd [c [Pc [Hcu Hs]]]]].
    split; [exact Hg|]. split; [exact Hd|]. split; [lia|].
    exists c. split; [exact Hs|]. split; [discriminate|]. intros _.
    split; [exists u; split; [reflexivity | exact Hcu] | exact Pc].
  - destruct (find_overlap_cgl _ _ _ _); [discriminate|].
    injection H as <-.
    eexists. split; [reflexivity|]. split; [cbn; lia|]. split; [reflexivity|].
    intros l [<-|[]]. split; [reflexivity|]. split; [reflexivity|]. split; [lia|].
    exists (req_date r). split; [reflexivity|]. split; [reflexivity | discriminate].
Qed.

Lemma sql_time_combine (x : date) (t : time) : 0 <= t < 1440 -> sql_time (combine x t) = t.
Proof.
  intros Ht. unfold sql_time, combine. rewrite Z.add_comm, Z.mod_add by lia.
  apply Z.mod_small. exact Ht.
Qed.

Lemma py_weekday_week_start (today : date) : py_weekday (today - py_weekday today) = 0.
Proof.
  unfold py_weekday. pose proof (Z.div_mod (today + 3) 7 ltac:(lia)) as Hd.
  pose proof (Z.mod_pos_bound (today + 3) 7 ltac:(lia)).
  apply (mod7_eq _ ((today + 3) / 7)); lia.
Qed.

(** On a Monday, the target date of day [dw] is within the week and falls on
    day [dw] in PostgreSQL's numbering. *)
Lemma gli_target_spec (ws : date) (dw : Z) (t : time) :
  py_weekday ws = 0 -> 0 <= dw <= 6 -> 0 <= t < 1440 ->
  ws <= gli_target ws dw <= ws + 6 /\ sql_dow (combine (gli_target ws dw) t) = dw.
Proof.
  intros Hw Hdw Ht. unfold gli_target. rewrite Hw, Z.sub_0_r.
  set (j := if dw =? 0 then 6 else dw - 1).
  assert (Hj : 0 <= j <= 6) by (unfold j; destruct (Z.eqb_spec dw 0); lia).
  replace (if j <? 0 then j + 7 else j) with j by (destruct (Z.ltb_spec j 0); lia).
  split; [lia|].
  apply dow_target_matches; [exact Ht | exact Hdw|].
  rewrite py_weekday_offset by lia. rewrite Hw, dow_target by exact Hdw.
  fold j. destruct (Z.ltb_spec (0 + j) 7); lia.
Qed.

Lemma gli_fold_placed (ws : date) (rows : list (schedule_row * group)) (d : db) :
  exists rest, lessons (fold_left (gli_step ws) rows d) = lessons d ++ rest
  /\ forall l, In l rest ->
       exists r gr, In (r, gr) rows /\ lesson_group l = Some (sched_group r)
       /\ lesson_start l = combine (gli_target ws (sched_dow r)) (sched_time r)
       /\ lesson_duration l = Some (py_or 60 (group_duration gr))
       /\ find_at d (sched_group r) (lesson_start l) = None.
Proof.
  revert d. induction rows as [|[r gr] rows IH]; intros d; cbn [fold_left].
  - exists []. rewrite app_nil_r. split; [reflexivity | intros l []].
  - unfold gli_step at 2.
    destruct (find_at d (sched_group r) (combine (gli_target ws (sched_dow r)) (sched_time r)))
      eqn:Ef.
    + destruct (IH d) as [rest [Hr Hp]]. exists rest. split; [exact Hr|].
      intros l Hl. destruct (Hp l Hl) as [r' [gr' [Hin Hq]]].
      exists r', gr'. split; [right; exact Hin | exact Hq].
    + set (s := combine (gli_target ws (sched_dow r)) (sched_time r)) in *.
      destruct (IH (insert_lesson d (sched_group r) s (py_or 60 (group_duration gr))))
        as [rest [Hr Hp]].
      exists (mkLesson (next_lesson_id d) (Some (sched_group r)) s
                (Some (py_or 60 (group_duration gr))) :: rest).
      split.
      { rewrite Hr. unfold insert_lesson. cbn [lessons]. rewrite <- app_assoc. reflexivity. }
      intros l [<-|Hl].
      * exists r, gr. split; [left; reflexivity|].
        split; [reflexivity|]. split; [reflexivity|]. split; [reflexivity | exact Ef].
      * destruct (Hp l Hl) as [r' [gr' [Hin [Hg [Hs [Hd Hn]]]]]].
        exists r', gr'. split; [right; exact Hin|].
        split; [exact Hg|]. split; [exact Hs|]. split; [exact Hd|].
        eapply find_at_insert_none. exact Hn.
Qed.

Lemma gli_rows_In (d : db) (r : schedule_row) (gr : group) :
  In (r, gr) (gli_rows d) ->
  In r (schedules d) /\ sched_active r = true
  /\ find_group d (sched_group r) = Some gr /\ group_is_closed gr = false.
Proof.
  unfold gli_rows. rewrite in_flat_map. intros [r' [Hin H]].
  destruct (sched_active r') eqn:A; [|destruct H].
  destruct (find_group d (sched_group r')) as [gr'|] eqn:F; [|destruct H].
  destruct (group_is_closed gr') eqn:Cl; [destruct H|].
  destruct H as [H|[]]. injection H as <- <-. auto.
Qed.

(** X4. With well-formed schedule rows (day of week 0..6, time within the day),
    every lesson [generate_lesson_instances] adds comes from an active
    schedule row of an open group: it belongs to that group, lasts the
    group's duration (60 when unset or 0), falls on the row's day of week
    and time, lies in the current week (Monday [today - today.weekday()] to
    Sunday), and sits at a start where the group had no lesson before. *)
Theorem generate_lesson_instances_placed (d : db) (today : date) :
  (forall r, In r (schedules d) -> 0 <= sched_dow r <= 6 /\ 0 <= sched_time r < 1440) ->
  exists rest, lessons (generate_lesson_instances d today) = lessons d ++ rest
  /\ forall l, In l rest ->
       exists r gr, In r (schedules d) /\ sched_active r = true
       /\ find_group d (sched_group r) = Some gr /\ group_is_closed gr = false
       /\ lesson_group l = Some (sched_group r)
       /\ lesson_duration l = Some (py_or 60 (group_duration gr))
       /\ sql_dow (lesson_start l) = sched_dow r /\ sql_time (lesson_start l) = sched_time r
       /\ (today - py_weekday today) * 1440 <= lesson_start l
       /\ lesson_start l < (today - py_weekday today + 7) * 1440
       /\ find_at d (sched_group r) (lesson_start l) = None.
Proof.
  intros Hrows. unfold generate_lesson_instances.
  destruct (gli_fold_placed (today - py_weekday today) (gli_rows d) d) as [rest [Hr Hp]].
  exists rest. split; [exact Hr|]. intros l Hl.
  destruct (Hp l Hl) as [r [gr [Hin [Hg [Hs [Hd Hn]]]]]].
  destruct (gli_rows_In d r gr Hin) as [Hsch [Ha [Hf Hc]]].
  destruct (Hrows r Hsch) as [Hdw Ht].
  destruct (gli_target_spec (today - py_weekday today) (sched_dow r) (sched_time r)
              (py_weekday_week_start today) Hdw Ht) as [Hb Hdow].
  exists r, gr. split; [exact Hsch|]. split; [exact Ha|]. split; [exact Hf|].
  split; [exact Hc|]. split; [exact Hg|]. split; [exact Hd|].
  rewrite Hs. split; [exact Hdow|]. split; [apply sql_time_combine; exact Ht|].
  split; [unfold combine; lia|]. split; [unfold combine; lia|].
  rewrite <- Hs. exact Hn.
Qed.

(** ** Removing schedule rows and lessons *)

Lemma sync_lessons (d : db) (g : Z) : lessons (sync_group_schedules d g) = lessons d.
Proof. reflexivity. Qed.

Lemma filter_other_group_key (rows : list schedule_row) (g dw : Z) :
  filter (fun r => negb (sched_group r =? g)) (filter (fun r => negb (sched_key g dw r)) rows)
  = filter (fun r => negb (sched_group r =? g)) rows.
Proof.
  induction rows as [|r rows IH]; [reflexivity|]. cbn [filter].
  unfold sched_key at 1. destruct (sched_group r =? g) eqn:Eg; cbn [andb negb].
  - destruct (sched_dow r =? dw); cbn [negb filter]; rewrite ?Eg; exact IH.
  - cbn [filter negb]. rewrite Eg. cbn [negb]. f_equal. exact IH.
Qed.

(** X5. After [delete_group_schedule] succeeds: the lessons left are the
    old ones minus exactly the lessons of the group on that day, at the
    deleted row's time, starting at or after [NOW()] (none when the group
    had no row for that day); the group has a row for that day exactly when
    one of its remaining lessons falls on it, so a past lesson on that day
    brings the row back; the rows of other groups are untouched. *)
Theorem delete_group_schedule_effect (d d' : db) (g dw now : Z) :
  delete_group_schedule d g dw now = Ok d' ->
  (forall l, In l (lessons d') <->
     In l (lessons d)
     /\ ~ (exists t, sched_lookup (schedules d) g dw = Some t
              /\ in_group g l = true /\ sql_dow (lesson_start l) = dw
              /\ sql_time (lesson_start l) = t /\ now <= lesson_start l))
  /\ (sched_lookup (schedules d') g dw = None <->
      forall l, In l (lessons d') -> in_group g l = true -> sql_dow (lesson_start l) <> dw)
  /\ ((exists l, In l (lessons d) /\ in_group g l = true /\ sql_dow (lesson_start l) = dw
                 /\ lesson_start l < now)
      -> sched_lookup (schedules d') g dw <> None)
  /\ filter (fun r => negb (sched_group r =? g)) (schedules d')
     = filter (fun r => negb (sched_group r =? g)) (schedules d).
Proof.
  intros H. unfold delete_group_schedule in H.
  destruct (negb ((0 <=? dw) && (dw <=? 6))); [discriminate|].
  destruct (find_group d g); [|discriminate]. injection H as <-.
  set (ls := match find (sched_key g dw) (schedules d) with
             | Some before => _ | None => lessons d end).
  set (d2 := mkDb (groups d) ls (filter (fun r => negb (sched_key g dw r)) (schedules d))
                  (next_lesson_id d)).
  assert (H1 : forall l, In l (lessons (sync_group_schedules d2 g)) <->
     In l (lessons d)
     /\ ~ (exists t, sched_lookup (schedules d) g dw = Some t
              /\ in_group g l = true /\ sql_dow (lesson_start l) = dw
              /\ sql_time (lesson_start l) = t /\ now <= lesson_start l)).
  { intros l. rewrite sync_lessons. cbn [lessons d2]. unfold ls, sched_lookup.
    destruct (find (sched_key g dw) (schedules d)) as [b|]; cbn [option_map].
    - rewrite filter_In. split.
      + intros [Hin Hf]. split; [exact Hin|].
        intros [t [Ht [Hg [Hd [Hs Hn]]]]]. injection Ht as <-.
        rewrite Hg, Hd, Hs, !Z.eqb_refl in Hf. apply Z.leb_le in Hn. rewrite Hn in Hf.
        discriminate.
      + intros [Hin Hn]. split; [exact Hin|].
        destruct (in_group g l) eqn:Hg; [|reflexivity]. cbn [andb].
        destruct (Z.eqb_spec (sql_dow (lesson_start l)) dw); [|reflexivity].
        destruct (Z.eqb_spec (sql_time (lesson_start l)) (sched_time b)); [|reflexivity].
        destruct (Z.leb_spec now (lesson_start l)); [|reflexivity].
        exfalso. apply Hn. exists (sched_time b). auto.
    - split; [intros Hin; split; [exact Hin|] | intros [Hin _]; exact Hin].
      intros [t [Ht _]]. discriminate. }
  assert (H2 : sched_lookup (schedules (sync_group_schedules d2 g)) g dw = None <->
      forall l, In l (lessons (sync_group_schedules d2 g)) -> in_group g l = true ->
                sql_dow (lesson_start l) <> dw).
  { rewrite sync_lessons. apply sync_lookup_none. }
  split; [exact H1|]. split; [exact H2|]. split.
  - intros [l [Hin [Hg [Hd Hlt]]]] Hnone.
    apply (proj1 H2 Hnone l); [|exact Hg|exact Hd].
    apply H1. split; [exact Hin|]. intros [t [_ [_ [_ [_ Hge]]]]]. lia.
  - rewrite (proj2 (sync_rows_agree d2 g)). cbn [schedules d2].
    apply filter_other_group_key.
Qed.

Lemma delete_lesson_parts (d : db) (lid : Z) :
  lessons (delete_lesson d lid) = filter (fun l => negb (lesson_id l =? lid)) (lessons d)
  /\ next_lesson_id (delete_lesson d lid) = next_lesson_id d.
Proof.
  unfold delete_lesson.
  destruct (find _ (lessons d)) as [l|]; [|split; reflexivity].
  destruct (lesson_group l) as [g|]; [|split; reflexivity].
  destruct (find_group d g); [|split; reflexivity].
  destruct (g =? 0); split; reflexivity.
Qed.

Lemma ids_distinct_filter (f : lesson -> bool) (ls : list lesson) :
  ids_distinct ls = true -> ids_distinct (filter f ls) = true.
Proof.
  induction ls as [|x t IH]; [reflexivity|]. cbn [ids_distinct filter].
  rewrite andb_true_iff, negb_true_iff. intros [Hx Ht].
  destruct (f x); [|exact (IH Ht)]. cbn [ids_distinct].
  rewrite (IH Ht), andb_true_r, negb_true_iff.
  destruct (existsb _ (filter f t)) eqn:E; [|reflexivity].
  apply existsb_exists in E as [y [Hy Hid]]. apply filter_In in Hy as [Hy _].
  assert (existsb (fun l' => lesson_id l' =? lesson_id x) t = true)
    by (apply existsb_exists; exists y; auto).
  congruence.
Qed.

(** X6. [delete_lesson] removes exactly the lessons with that id. On a
    well-formed, overlap-free store it keeps the store well formed and
    overlap-free, and when the deleted lesson belonged to an existing group
    with a nonzero id, the sync step leaves that group a row for a day
    exactly when one of its remaining lessons falls on that day. *)
Theorem delete_lesson_effect (d : db) (lid : Z) :
  store_ok_b d = true -> no_overlap_b d = true ->
  lessons (delete_lesson d lid) = filter (fun l => negb (lesson_id l =? lid)) (lessons d)
  /\ store_ok_b (delete_lesson d lid) = true /\ no_overlap_b (delete_lesson d lid) = true
  /\ (forall l g, In l (lessons d) -> lesson_id l = lid -> lesson_group l = Some g ->
        find_group d g <> None -> g <> 0 ->
        forall dw, sched_lookup (schedules (delete_lesson d lid)) g dw = None <->
          (forall l', In l' (lessons (delete_lesson d lid)) -> in_group g l' = true ->
                      sql_dow (lesson_start l') <> dw)).
Proof.
  intros Hok Hno. destruct (delete_lesson_parts d lid) as [Hl Hn].
  pose proof (proj1 (store_ok_b_spec d) Hok) as [Hd [Hlt Hp]].
  split; [exact Hl|]. split; [|split].
  - apply store_ok_b_spec. rewrite Hl, Hn. split; [apply ids_distinct_filter; exact Hd|].
    split; intros l Hin; apply filter_In in Hin as [Hin _]; auto.
  - apply no_overlap_b_spec. apply no_overlap_b_spec in Hno. rewrite Hl.
    intros l1 l2 H1 H2. apply filter_In in H1 as [H1 _]. apply filter_In in H2 as [H2 _].
    exact (Hno l1 l2 H1 H2).
  - intros l g Hin Hid Hg Hf Hg0 dw. rewrite Hl.
    unfold delete_lesson.
    destruct (find (fun l0 => lesson_id l0 =? lid) (lessons d)) as [m|] eqn:Em.
    2:{ exfalso. apply (find_none _ _ Em l) in Hin. rewrite Hid, Z.eqb_refl in Hin.
        discriminate. }
    apply find_some in Em as [Hm Hmid]. apply Z.eqb_eq in Hmid.
    assert (m = l) as -> by (apply (ids_distinct_unique (lessons d)); auto; congruence).
    rewrite Hg. destruct (find_group d g) as [gr|]; [|contradiction].
    destruct (Z.eqb_spec g 0); [contradiction|].
    apply sync_lookup_none.
Qed.

(** ** Approving a reschedule request *)

(** X7. [approve_reschedule_request] runs no conflict check. When the
    requested start makes the lesson overlap another lesson of its group,
    so that [reschedule_lesson] refuses the same move with 400, the
    approval still succeeds, moves the lesson there (the store is no longer
    overlap-free) and marks the request "approved", whatever its status was. *)
Theorem approve_skips_conflict_check (rd : resched_db) (rid : Z) (q : reschedule_request)
  (l c : lesson) (g t : Z) :
  find (fun x => rr_id x =? rid) (rs_requests rd) = Some q ->
  find (fun x => lesson_id x =? rr_lesson q) (lessons (rs_db rd)) = Some l ->
  lesson_group l = Some g -> find_group (rs_db rd) g <> None ->
  lesson_duration l <> Some 0 ->
  request_new_start q = Some t ->
  find_conflict_resched (rs_db rd) g (rr_lesson q) t (t + py_or60 (lesson_duration l))
    = Some c ->
  reschedule_lesson (rs_db rd) (rr_lesson q) t = Err 400
  /\ exists rd', approve_reschedule_request rd rid = Ok rd'
     /\ rs_db rd' = update_start (rs_db rd) (rr_lesson q) t
     /\ no_overlap_b (rs_db rd') = false
     /\ (forall x, In x (rs_requests rd') -> rr_id x = rid -> rr_status x = "approved"%string).
Proof.
  intros Hq Hl Hg Hf Hd0 Ht Hc.
  destruct (find_group (rs_db rd) g) as [gr|] eqn:Hfg; [|contradiction].
  split.
  { unfold reschedule_lesson. rewrite Hl, Hg, Hfg, Hc. reflexivity. }
  eexists. split.
  { unfold approve_reschedule_request. rewrite Hq, Hl, Hg, Hfg, Ht. reflexivity. }
  cbn [rs_db rs_requests]. split; [reflexivity|]. split.
  - apply find_some in Hl as [Hin Hid]. apply Z.eqb_eq in Hid.
    unfold find_conflict_resched in Hc. apply find_some in Hc as [Hcin Hcc].
    apply andb_true_iff in Hcc as [Hcg Hco]. unfold overlaps_resched in Hco.
    rewrite !andb_true_iff, negb_true_iff, Z.eqb_neq, Z.ltb_lt, Z.ltb_lt in Hco.
    destruct Hco as [[Hcid Hc1] Hc2].
    destruct (no_overlap_b _) eqn:Hno; [exfalso|reflexivity].
    apply no_overlap_b_spec in Hno. unfold update_start in Hno. cbn [lessons] in Hno.
    set (f := fun x => if lesson_id x =? rr_lesson q
                       then mkLesson (lesson_id x) (lesson_group x) t (lesson_duration x)
                       else x) in Hno.
    assert (Hfl : f l = mkLesson (rr_lesson q) (Some g) t (lesson_duration l))
      by (unfold f; rewrite Hid, Z.eqb_refl, Hg; reflexivity).
    assert (Hfc : f c = c)
      by (unfold f; apply Z.eqb_neq in Hcid; rewrite Hcid; reflexivity).
    assert (Hsg : same_group (f l) (f c) = true).
    { rewrite Hfl, Hfc. unfold same_group. cbn [lesson_group].
      unfold in_group in Hcg. destruct (lesson_group c); [|discriminate].
      apply Z.eqb_eq in Hcg. subst. apply Z.eqb_refl. }
    assert (Hne : lesson_id (f l) <> lesson_id (f c)) by (rewrite Hfl, Hfc; cbn; lia).
    pose proof (Hno (f l) (f c) (in_map f _ l Hin) (in_map f _ c Hcin) Hne Hsg) as Hov.
    rewrite Hfl, Hfc in Hov. unfold half_open_overlap, lesson_end in Hov.
    cbn [lesson_start lesson_duration] in Hov.
    assert (Hpy : py_or60 (lesson_duration l) = coalesce60 (lesson_duration l)).
    { unfold py_or60, py_or, coalesce60. destruct (lesson_duration l) as [x|]; [|reflexivity].
      destruct (Z.eqb_spec x 0); [subst; contradiction|reflexivity]. }
    rewrite <- Hpy in Hov. apply Z.ltb_lt in Hc1. apply Z.ltb_lt in Hc2.
    rewrite Hc1, Hc2 in Hov. discriminate.
  - intros x Hx Hxid. apply in_map_iff in Hx as [y [<- Hy]].
    destruct (Z.eqb_spec (rr_id y) rid) as [E|E]; [reflexivity|].
    exfalso. apply E. exact Hxid.
Qed.

(** ** Witnesses of the handler properties *)

Lemma add_group_schedule_lessons_placed_witness :
  add_group_schedule ex_monday_db 1 1 600 660 19723 = Ok (fst ex_monday_out, snd ex_monday_out)
  /\ exists rest, lessons (fst ex_monday_out) = lessons ex_monday_db ++ rest /\ rest <> [].
Proof.
  assert (H : add_group_schedule ex_monday_db 1 1 600 660 19723
              = Ok (fst ex_monday_out, snd ex_monday_out)) by (vm_compute; reflexivity).
  split; [exact H|].
  destruct (add_group_schedule_lessons_placed ex_monday_db (fst ex_monday_out) 1 1 600 660 19723
              (snd ex_monday_out) (mkGroup 1 (Some 19723) None (Some 90) false) H eq_refl)
    as [rest [Hr _]].
  exists rest. split; [exact Hr|]. intros E. rewrite E in Hr. vm_compute in Hr. discriminate.
Defined.

Lemma create_group_lessons_lessons_placed_witness :
  create_group_lessons ex_conflict_db 1 ex_weekly_request = Ok ex_weekly_out
  /\ exists rest, lessons ex_weekly_out = lessons ex_conflict_db ++ rest /\ rest <> [].
Proof.
  assert (H : create_group_lessons ex_conflict_db 1 ex_weekly_request = Ok ex_weekly_out)
    by (vm_compute; reflexivity).
  split; [exact H|].
  destruct (create_group_lessons_lessons_placed ex_conflict_db ex_weekly_out 1
              ex_weekly_request H) as [rest [Hr _]].
  exists rest. split; [exact Hr|]. intros E. rewrite E in Hr. vm_compute in Hr. discriminate.
Defined.

Lemma generate_lesson_instances_placed_witness :
  (forall r, In r (schedules ex_gli_db) -> 0 <= sched_dow r <= 6 /\ 0 <= sched_time r < 1440)
  /\ exists rest, lessons (generate_lesson_instances ex_gli_db 19725) = lessons ex_gli_db ++ rest
     /\ rest <> [].
Proof.
  assert (Hrows : forall r, In r (schedules ex_gli_db) ->
                  0 <= sched_dow r <= 6 /\ 0 <= sched_time r < 1440).
  { intros r [<-|[]]. simpl. lia. }
  split; [exact Hrows|].
  destruct (generate_lesson_instances_placed ex_gli_db 19725 Hrows) as [rest [Hr _]].
  exists rest. split; [exact Hr|]. intros E. rewrite E in Hr. vm_compute in Hr. discriminate.
Defined.

Lemma delete_group_schedule_effect_witness :
  delete_group_schedule ex_dgs_db 1 1 (combine 19725 0) = Ok ex_dgs_out
  /\ sched_lookup (schedules ex_dgs_out) 1 1 <> None.
Proof.
  assert (H : delete_group_schedule ex_dgs_db 1 1 (combine 19725 0) = Ok ex_dgs_out)
    by (vm_compute; reflexivity).
  split; [exact H|].
  destruct (delete_group_schedule_effect ex_dgs_db ex_dgs_out 1 1 (combine 19725 0) H)
    as [_ [_ [H3 _]]].
  apply H3. exists (mkLesson 1 (Some 1) (combine 19723 600) (Some 90)).
  split; [left; reflexivity|]. vm_compute. split; [reflexivity|]. split; reflexivity.
Defined.

Lemma delete_lesson_effect_witness :
  store_ok_b ex_conflict_db = true /\ no_overlap_b ex_conflict_db = true
  /\ lessons (delete_lesson ex_conflict_db 1) = [].
Proof.
  assert (H1 : store_ok_b ex_conflict_db = true) by (vm_compute; reflexivity).
  assert (H2 : no_overlap_b ex_conflict_db = true) by (vm_compute; reflexivity).
  split; [exact H1|]. split; [exact H2|].
  destruct (delete_lesson_effect ex_conflict_db 1 H1 H2) as [Hl _].
  rewrite Hl. vm_compute. reflexivity.
Defined.

Lemma approve_skips_conflict_check_witness :
  reschedule_lesson (rs_db ex_resched_rd) 2 600 = Err 400
  /\ exists rd', approve_reschedule_request ex_resched_rd 1 = Ok rd'
     /\ no_overlap_b (rs_db rd') = false.
Proof.
  destruct (approve_skips_conflict_check ex_resched_rd 1
              (mkRescheduleRequest 1 2 "rejected" (Some 600) None None)
              (mkLesson 2 (Some 1) 800 (Some 60)) (mkLesson 1 (Some 1) 630 (Some 60)) 1 600)
    as [H1 [rd' [H2 [_ [H3 _]]]]].
  - vm_compute. reflexivity.
  - vm_compute. reflexivity.
  - reflexivity.
  - vm_compute. discriminate.
  - discriminate.
  - reflexivity.
  - vm_compute. reflexivity.
  - split; [exact H1|]. exists rd'. split; [exact H2 | exact H3].
Defined.

(** ** The attendance summary *)

Lemma flat_map_guarded {A B : Type} (p : A -> bool) (xs : list B) (es : list A) :
  flat_map (fun e => if p e then xs else []) es = List.concat (List.repeat xs (List.length (filter p es))).
Proof.
  induction es as [|e es IH]; [reflexivity|]. cbn [flat_map filter].
  destruct (p e); cbn [List.length List.repeat List.concat]; rewrite IH; reflexivity.
Qed.

Lemma filter_concat_repeat {B : Type} (p : B -> bool) (xs : list B) (k : nat) :
  filter p (List.concat (List.repeat xs k)) = List.concat (List.repeat (filter p xs) k).
Proof.
  induction k as [|k IH]; [reflexivity|]. cbn [List.repeat List.concat].
  rewrite filter_app, IH. reflexivity.
Qed.

Lemma length_concat_repeat {B : Type} (xs : list B) (k : nat) :
  List.length (List.concat (List.repeat xs k)) = (k * List.length xs)%nat.
Proof.
  induction k as [|k IH]; [reflexivity|]. cbn [List.repeat List.concat].
  rewrite length_app, IH. lia.
Qed.

(** The weighted sum of statuses, as the counts per status give it. *)
Lemma points_by_status (rs : list attendance_record) :
  fold_right (fun r acc => status_points (ar_status r) + acc) 0 rs
  = count_status "P" rs * 2 + count_status "E" rs * 2 + count_status "L" rs * 1
    + count_status "A" rs * 0.
Proof.
  unfold count_status. induction rs as [|r rs IH]; [reflexivity|].
  cbn [fold_right filter]. rewrite IH. unfold status_is, status_points.
  destruct (ar_status r) as [x|]; [|reflexivity].
  destruct (String.eqb_spec x "P") as [->|n1]; [cbn [String.eqb Ascii.eqb Bool.eqb andb orb List.length]; lia|].
  destruct (String.eqb_spec x "E") as [->|n2]; [cbn [String.eqb Ascii.eqb Bool.eqb andb orb List.length]; lia|].
  destruct (String.eqb_spec x "L") as [->|n3]; [cbn [String.eqb Ascii.eqb Bool.eqb andb orb List.length]; lia|].
  destruct (String.eqb_spec x "A") as [->|n4]; [cbn [String.eqb Ascii.eqb Bool.eqb andb orb List.length]; lia|].
  cbn [List.length]. lia.
Qed.

Definition status_valid_rec (r : attendance_record) : bool :=
  match ar_status r with Some x => valid_status x | None => false end.

Lemma counts_valid (rs : list attendance_record) :
  count_status "P" rs + count_status "E" rs + count_status "L" rs + count_status "A" rs
  = Z.of_nat (List.length (filter status_valid_rec rs)).
Proof.
  unfold count_status. induction rs as [|r rs IH]; [reflexivity|].
  cbn [filter]. unfold status_valid_rec at 1, status_is, valid_status. unfold status_is in IH.
  destruct (ar_status r) as [x|]; [|exact IH].
  destruct (String.eqb_spec x "P") as [->|n1]; [cbn [String.eqb Ascii.eqb Bool.eqb andb orb List.length]; lia|].
  destruct (String.eqb_spec x "E") as [->|n2]; [cbn [String.eqb Ascii.eqb Bool.eqb andb orb List.length]; lia|].
  destruct (String.eqb_spec x "L") as [->|n3]; [cbn [String.eqb Ascii.eqb Bool.eqb andb orb List.length]; lia|].
  destruct (String.eqb_spec x "A") as [->|n4]; [cbn [String.eqb Ascii.eqb Bool.eqb andb orb List.length]; lia|].
  exact IH.
Qed.

Lemma filter_length_full {B : Type} (p : B -> bool) (xs : list B) :
  List.length (filter p xs) = List.length xs <-> forall x, In x xs -> p x = true.
Proof.
  induction xs as [|y xs IH]; cbn [filter List.length].
  - split; [intros _ x []|reflexivity].
  - pose proof (filter_length_le p xs) as Hle.
    destruct (p y) eqn:Hy; cbn [List.length].
    + split.
      * intros H x [<-|Hx]; [exact Hy|]. apply IH; [lia|exact Hx].
      * intros H. f_equal. apply IH. intros x Hx. apply H. right. exact Hx.
    + split; [lia|]. intros H. rewrite (H y (or_introl eq_refl)) in Hy. discriminate.
Qed.

Lemma round_div_scale (a b k : Z) : 0 <= a -> 0 < b -> 0 < k -> round_div (k * a) (k * b) = round_div a b.
Proof.
  intros Ha Hb Hk. unfold round_div.
  destruct (Z.leb_spec 0 (k * a)); [|nia]. destruct (Z.leb_spec 0 a); [|lia].
  replace (2 * (k * a) + k * b) with (k * (2 * a + b)) by ring.
  replace (2 * (k * b)) with (k * (2 * b)) by ring.
  apply Z.div_mul_cancel_l; lia.
Qed.

(** X8. Each row of [get_group_attendance_summary] for student [s] counts
    the student's attendance records in the group once per enrollment row
    of [s] in [g] ([k >= 1] rows). The per-status counts add up to at most
    the total, with equality exactly when every record has one of the
    statuses P, E, L, A; and the percentage does not depend on [k]: it is
    the percentage of the records counted once, rounded to a tenth, as
    [get_students_analytics] computes it from the same records. *)
Theorem group_attendance_summary_rows (a : attendance_db) (g s : Z) (sm : summary_row) :
  In (s, sm) (group_attendance_summary a g) ->
  exists k, k = Z.of_nat (List.length (filter (fun e => (en_group e =? g) && (en_student e =? s))
                                               (att_enrollments a)))
  /\ 1 <= k
  /\ sm_total sm = k * Z.of_nat (List.length (records_of a s g))
  /\ sm_present sm + sm_excused sm + sm_late sm + sm_absent sm <= sm_total sm
  /\ (sm_present sm + sm_excused sm + sm_late sm + sm_absent sm = sm_total sm <->
      forall r, In r (records_of a s g) ->
                exists x, ar_status r = Some x /\ valid_status x = true)
  /\ sm_pct sm = attendance_percentage pct_tenths 0 (count_and_points (records_of a s g)).
Proof.
  unfold group_attendance_summary. rewrite in_map_iff.
  intros [s' [Eq Hin]]. injection Eq as -> <-.
  rewrite nodup_In, in_map_iff in Hin. destruct Hin as [e [He Hin]].
  apply filter_In in Hin as [Hin Hg].
  set (pe := fun e => (en_group e =? g) && (en_student e =? s)).
  set (kn := List.length (filter pe (att_enrollments a))).
  assert (Hk : (1 <= kn)%nat).
  { unfold kn. destruct (filter pe (att_enrollments a)) eqn:E; [|cbn; lia].
    exfalso. assert (In e (filter pe (att_enrollments a))).
    { apply filter_In. split; [exact Hin|]. unfold pe. rewrite Hg, He, Z.eqb_refl. reflexivity. }
    rewrite E in H. destruct H. }
  set (rs := records_of a s g).
  assert (Hrows : summary_rows_of a g s = List.concat (List.repeat rs kn))
    by (unfold summary_rows_of; apply (flat_map_guarded pe)).
  assert (Hc : forall x, count_status x (summary_rows_of a g s) = Z.of_nat kn * count_status x rs).
  { intros x. unfold count_status. rewrite Hrows, filter_concat_repeat, length_concat_repeat. lia. }
  assert (Hv : forall r, status_valid_rec r = true <->
                         exists x, ar_status r = Some x /\ valid_status x = true).
  { intros r. unfold status_valid_rec. destruct (ar_status r) as [x|].
    - split; [intros H; exists x; auto | intros [y [Ey Hy]]; injection Ey as <-; exact Hy].
    - split; [discriminate | intros [y [Ey _]]; discriminate]. }
  pose proof (counts_valid rs) as Hcv.
  pose proof (filter_length_le status_valid_rec rs) as Hle.
  exists (Z.of_nat kn). split; [reflexivity|]. split; [lia|].
  unfold summary_of. cbn [sm_total sm_present sm_excused sm_late sm_absent sm_pct].
  rewrite !Hc, Hrows, length_concat_repeat.
  split; [lia|]. split; [nia|]. split.
  - split.
    + intros H. assert (Hn : List.length (filter status_valid_rec rs) = List.length rs) by nia.
      intros r Hr. apply Hv. exact (proj1 (filter_length_full _ _) Hn r Hr).
    + intros H. assert (Hn : List.length (filter status_valid_rec rs) = List.length rs).
      { apply filter_length_full. intros r Hr. apply Hv. exact (H r Hr). }
      nia.
  - unfold attendance_percentage, count_and_points. rewrite fold_points_acc, points_by_status.
    destruct (List.length rs) as [|n] eqn:En.
    + replace (Z.of_nat (kn * 0)) with 0 by lia. reflexivity.
    + replace (Z.of_nat (kn * S n) =? 0) with false by (symmetry; apply Z.eqb_neq; nia).
      replace (0 <? Z.of_nat (S n) * 2) with true by (symmetry; apply Z.ltb_lt; lia).
      unfold pct_tenths. rewrite Z.add_0_l.
      set (pts := count_status "P" rs * 2 + count_status "E" rs * 2 + count_status "L" rs * 1
                  + count_status "A" rs * 0).
      assert (Hpts : 0 <= pts) by (unfold pts, count_status; lia).
      replace ((Z.of_nat kn * count_status "P" rs * 2 + Z.of_nat kn * count_status "E" rs * 2
                + Z.of_nat kn * count_status "L" rs * 1 + Z.of_nat kn * count_status "A" rs * 0)
               * 1000) with (Z.of_nat kn * (pts * 1000)) by (unfold pts; ring).
      replace (Z.of_nat (kn * S n) * 2) with (Z.of_nat kn * (Z.of_nat (S n) * 2)) by lia.
      apply round_div_scale; lia.
Qed.

Lemma group_attendance_summary_rows_witness :
  In (8, mkSummaryRow 2 1 0 0 0 500) (group_attendance_summary ex_attendance_db 5)
  /\ 500 = attendance_percentage pct_tenths 0 (count_and_points (records_of ex_attendance_db 8 5)).
Proof.
  assert (H : In (8, mkSummaryRow 2 1 0 0 0 500) (group_attendance_summary ex_attendance_db 5))
    by (vm_compute; right; left; reflexivity).
  split; [exact H|].
  destruct (group_attendance_summary_rows ex_attendance_db 5 8 _ H)
    as [k [_ [_ [_ [_ [_ Hp]]]]]].
  exact Hp.
Defined.

(** ** Saving the attendance of a lesson *)

Lemma filter_drops_all {A : Type} (f : A -> bool) (l : list A) :
  (forall x, In x l -> f x = false) -> filter f l = [].
Proof.
  induction l as [|x l IH]; intros Hl; [reflexivity|]. cbn [filter].
  rewrite (Hl x (or_introl eq_refl)). apply IH. intros y Hy. exact (Hl y (or_intror Hy)).
Qed.

Lemma filter_keeps_all {A : Type} (f : A -> bool) (l : list A) :
  (forall x, In x l -> f x = true) -> filter f l = l.
Proof.
  induction l as [|x l IH]; intros Hl; [reflexivity|]. cbn [filter].
  rewrite (Hl x (or_introl eq_refl)), IH; [reflexivity|].
  intros y Hy. exact (Hl y (or_intror Hy)).
Qed.

Lemma att_inserts_lesson (n lid g : Z) (es : list att_entry) :
  forall r, In r (att_inserts n lid g es) -> ar_lesson r = lid.
Proof.
  revert n. induction es as [|e es IH]; intros n r Hr; [destruct Hr|].
  destruct Hr as [<-|Hr]; [reflexivity | exact (IH (n + 1) r Hr)].
Qed.

Lemma att_inserts_view (n lid g : Z) (es : list att_entry) :
  map (fun r => (ar_student r, ar_group r, ar_status r)) (att_inserts n lid g es)
  = map (fun e => (ae_student e, g, Some (ae_status e))) es.
Proof.
  revert n. induction es as [|e es IH]; intros n; [reflexivity|].
  cbn [att_inserts map]. rewrite IH. reflexivity.
Qed.

(** X9. When [save_lesson_attendance] succeeds, the lesson exists in that
    group, every submitted status is one of P, E, L, A, the records of the
    lesson are exactly the submitted entries in request order (student,
    group, status), whatever records the lesson had before, and the records
    of every other lesson, the lessons and the enrollments are unchanged. *)
Theorem save_lesson_attendance_replaces (gids : list Z) (a a' : attendance_db)
  (n n' g lid : Z) (es : list att_entry) :
  save_lesson_attendance gids a n g lid es = Ok (a', n') ->
  (exists l, In l (att_lessons a) /\ lesson_id l = lid /\ lesson_group l = Some g)
  /\ (forall e, In e es -> valid_status (ae_status e) = true)
  /\ map (fun r => (ar_student r, ar_group r, ar_status r))
         (filter (fun r => ar_lesson r =? lid) (att_records a'))
     = map (fun e => (ae_student e, g, Some (ae_status e))) es
  /\ filter (fun r => negb (ar_lesson r =? lid)) (att_records a')
     = filter (fun r => negb (ar_lesson r =? lid)) (att_records a)
  /\ att_lessons a' = att_lessons a /\ att_enrollments a' = att_enrollments a
  /\ n' = n + Z.of_nat (List.length es).
Proof.
  intros H. unfold save_lesson_attendance in H.
  destruct (find _ (att_lessons a)) as [l|] eqn:El; [|discriminate].
  destruct (negb (existsb _ gids)); [discriminate|].
  destruct (forallb (fun e => valid_status (ae_status e)) es) eqn:Ev; [|discriminate].
  injection H as <- <-. cbn [att_records att_lessons att_enrollments].
  apply find_some in El as [Hl Hlg]. apply andb_true_iff in Hlg as [Hid Hg].
  split.
  { exists l. split; [exact Hl|]. split; [apply Z.eqb_eq; exact Hid|].
    unfold in_group in Hg. destruct (lesson_group l); [|discriminate].
    apply Z.eqb_eq in Hg. subst. reflexivity. }
  split; [intros e He; rewrite forallb_forall in Ev; exact (Ev e He)|].
  assert (Hins := att_inserts_lesson n lid g es).
  rewrite !filter_app. split; [|split; [|split; [reflexivity|split; reflexivity]]].
  - rewrite filter_drops_all.
    2:{ intros r Hr. apply filter_In in Hr as [_ Hr]. apply negb_true_iff in Hr. exact Hr. }
    rewrite filter_keeps_all.
    + apply att_inserts_view.
    + intros r Hr. rewrite (Hins r Hr). apply Z.eqb_refl.
  - rewrite filter_filter_idem_local.
    rewrite (filter_drops_all _ (att_inserts n lid g es)); [apply app_nil_r|].
    intros r Hr. rewrite (Hins r Hr), Z.eqb_refl. reflexivity.
Qed.

Lemma save_lesson_attendance_replaces_witness :
  exists a' n',
    save_lesson_attendance [5] ex_attendance_db 5 5 10
      [mkAttEntry 8 "L"; mkAttEntry 7 "A"] = Ok (a', n')
    /\ map (fun r => (ar_student r, ar_group r, ar_status r))
         (filter (fun r => ar_lesson r =? 10) (att_records a'))
       = [(8, 5, Some "L"%string); (7, 5, Some "A"%string)]
    /\ n' = 7.
Proof.
  destruct (save_lesson_attendance [5] ex_attendance_db 5 5 10
              [mkAttEntry 8 "L"; mkAttEntry 7 "A"]) as [[a' n']|c] eqn:E;
    [|vm_compute in E; discriminate].
  exists a', n'. split; [reflexivity|].
  destruct (save_lesson_attendance_replaces _ _ _ _ _ _ _ _ E)
    as [_ [_ [Hv [_ [_ [_ Hn]]]]]].
  split; [exact Hv|]. rewrite Hn. reflexivity.
Defined.

(** ** Enrollment invariants of [join_group] and [trial_lesson] *)

Lemma nodup_snoc {A : Type} (l : list A) (x : A) :
  NoDup l -> ~ In x l -> NoDup (l ++ [x]).
Proof.
  induction l as [|y l IH]; intros Hd Hx; cbn [app].
  - constructor; [intros []|constructor].
  - inversion Hd as [|? ? Hy Hl]; subst. constructor.
    + intros Hin. apply in_app_or in Hin as [Hin|[<-|[]]]; [exact (Hy Hin)|].
      apply Hx. left. reflexivity.
    + apply IH; [exact Hl|]. intros Hin. apply Hx. right. exact Hin.
Qed.

Lemma regular_count_snoc (es : list enrollment) (e : enrollment) (g : Z) :
  regular_count (es ++ [e]) g
  = regular_count es g
    + (if (en_group e =? g) && match en_is_trial e with Some false => true | _ => false end
       then 1 else 0).
Proof.
  unfold regular_count. rewrite filter_app, length_app, Nat2Z.inj_add. cbn [filter].
  destruct (_ && _); reflexivity.
Qed.

Lemma enroll_unique_snoc (es : list enrollment) (g sid : Z) (t : option bool) :
  enroll_unique es ->
  existsb (fun e => (en_group e =? g) && (en_student e =? sid)) es = false ->
  enroll_unique (es ++ [mkEnrollment g sid t]).
Proof.
  unfold enroll_unique. intros Hd Hx. rewrite map_app. apply nodup_snoc; [exact Hd|].
  intros Hin. apply in_map_iff in Hin as [e [He Hin]].
  assert (Hb : (en_group e =? g) && (en_student e =? sid) = true).
  { injection He as -> ->. rewrite !Z.eqb_refl. reflexivity. }
  assert (Ht : existsb (fun e => (en_group e =? g) && (en_student e =? sid)) es = true)
    by (apply existsb_exists; exists e; split; assumption).
  rewrite Hx in Ht. discriminate.
Qed.

(** X10. [join_group] and [trial_lesson] keep two invariants of the
    enrollments: no student is enrolled twice in one group (both refuse an
    existing pair, trial or regular, with 409), and no group with a positive
    capacity holds more regular (non-trial) students than its capacity
    ([join_group] refuses a full group; a trial enrollment is not counted). *)
Theorem join_trial_keep_enrollment_invariants (gs : list group_info) (d d' : trial_db)
  (role : string) (uid g : Z) :
  enroll_unique (tr_enrollments d) -> capacity_ok gs (tr_enrollments d) ->
  join_group gs d role uid g = Ok d' \/ trial_lesson d role uid g = Ok d' ->
  enroll_unique (tr_enrollments d') /\ capacity_ok gs (tr_enrollments d').
Proof.
  intros Hu Hc [Hj|Ht].
  - unfold join_group in Hj.
    destruct (negb _); [discriminate|].
    destruct (find_student_by_user d uid) as [s|]; [|discriminate].
    destruct (st_id s =? 0); [discriminate|].
    destruct (find_info gs g) as [gi|] eqn:Ei; [|discriminate].
    destruct (match gi_closed gi with Some b => b | None => false end); [discriminate|].
    destruct (existsb _ (tr_enrollments d)) eqn:Ex; [discriminate|].
    destruct (match gi_capacity gi with
              | Some c => negb (c =? 0) && (c <=? regular_count (tr_enrollments d) g)
              | None => false end) eqn:Ecap; [discriminate|].
    injection Hj as <-. cbn [tr_enrollments]. split; [apply enroll_unique_snoc; assumption|].
    intros g' gi' c Ei' Hc' Hpos. rewrite regular_count_snoc. cbn [en_group en_is_trial].
    specialize (Hc g' gi' c Ei' Hc' Hpos).
    destruct (Z.eqb_spec g g') as [<-|Hne]; cbn [andb]; [|lia].
    rewrite Ei in Ei'. injection Ei' as ->. rewrite Hc' in Ecap.
    apply andb_false_iff in Ecap as [E0|E1].
    + apply negb_false_iff, Z.eqb_eq in E0. lia.
    + apply Z.leb_gt in E1. lia.
  - unfold trial_lesson in Ht.
    destruct (negb _); [discriminate|].
    destruct (find_student_by_user d uid) as [s|]; [|discriminate].
    destruct (st_trials_allowed s <=? st_trials_used s); [discriminate|].
    destruct (existsb _ (tr_enrollments d)) eqn:Ex; [discriminate|].
    injection Ht as <-. unfold set_student. cbn [tr_enrollments].
    split; [apply enroll_unique_snoc; assumption|].
    intros g' gi' c Ei' Hc' Hpos. rewrite regular_count_snoc. cbn [en_is_trial].
    rewrite andb_false_r, Z.add_0_r. exact (Hc g' gi' c Ei' Hc' Hpos).
Qed.

Lemma join_trial_keep_enrollment_invariants_witness :
  exists d',
    join_group ex_join_groups ex_join_db "student" 40 5 = Ok d'
    /\ enroll_unique (tr_enrollments d') /\ capacity_ok ex_join_groups (tr_enrollments d').
Proof.
  destruct (join_group ex_join_groups ex_join_db "student" 40 5) as [d'|c] eqn:E;
    [|vm_compute in E; discriminate].
  exists d'. split; [reflexivity|].
  apply (join_trial_keep_enrollment_invariants ex_join_groups ex_join_db d' "student" 40 5).
  - unfold enroll_unique. cbn. constructor; [intros []|constructor].
  - unfold capacity_ok, find_info. intros g gi c Ei Hc Hp. cbn [find ex_join_groups gi_id] in Ei.
    destruct (Z.eqb_spec 5 g) as [<-|]; [|discriminate].
    injection Ei as <-. cbn in Hc. injection Hc as <-. unfold Z.le. vm_compute. discriminate.
  - left. exact E.
Defined.

(** ** Trial counters over all trial routes *)

Lemma trials_within_set (d : trial_db) (s : student) :
  trials_within d -> st_trials_used s <= st_trials_allowed s ->
  trials_within (set_student d s).
Proof.
  intros Hd Hs x Hx. destruct (set_student_In d s x Hx) as [->|Hin]; [exact Hs|].
  exact (Hd x Hin).
Qed.

(** X11. Every trial route (the student's trial request, the admin listing,
    adjustment and history) keeps [trials_used <= trials_allowed] for every
    student; in particular the admin adjustment never stores an allowance
    below the trials already used. *)
Theorem handle_trial_keeps_trials_within (d d' : trial_db) (q : trial_request) :
  trials_within d -> handle_trial d q = Ok d' -> trials_within d'.
Proof.
  intros Hd Hq. destruct q as [role uid g| |sid delta|sid]; cbn [handle_trial] in Hq.
  - unfold trial_lesson in Hq.
    destruct (negb _); [discriminate|].
    destruct (find_student_by_user d uid) as [s|]; [|discriminate].
    destruct (Z.leb_spec (st_trials_allowed s) (st_trials_used s)); [discriminate|].
    destruct (existsb _ _); [discriminate|].
    injection Hq as <-. apply trials_within_set; [exact Hd|]. cbn [st_trials_used st_trials_allowed]. lia.
  - destruct (trials_enabled d); [injection Hq as <-; exact Hd|discriminate].
  - destruct (trials_enabled d); [|discriminate]. unfold adjust_trials in Hq.
    destruct (find _ (tr_students d)) as [s|]; [|discriminate].
    destruct (Z.ltb_spec (st_trials_allowed s + delta) (st_trials_used s)); [discriminate|].
    injection Hq as <-. apply trials_within_set; [exact Hd|]. cbn [st_trials_used st_trials_allowed]. lia.
  - destruct (trials_enabled d); [injection Hq as <-; exact Hd|discriminate].
Qed.

Lemma handle_trial_keeps_trials_within_witness :
  exists d',
    handle_trial ex_join_db (AdminAdjustTrials 3 2) = Ok d' /\ trials_within d'.
Proof.
  destruct (handle_trial ex_join_db (AdminAdjustTrials 3 2)) as [d'|c] eqn:E;
    [|vm_compute in E; discriminate].
  exists d'. split; [reflexivity|].
  apply (handle_trial_keeps_trials_within ex_join_db d' (AdminAdjustTrials 3 2)); [|exact E].
  intros x Hx. cbn in Hx. destruct Hx as [<-|[<-|[]]]; cbn; lia.
Defined.

(** ** Settings update and the grade listings *)

(** X12. [admin_update_settings] is not atomic on errors: a [grades_scale]
    other than "0-5" and "0-100" is refused with 400 after the
    registration and trial toggles of the same request have been written,
    while the grades and the teacher-edit flag stay as they were; a request
    with no field set is refused with 400 and changes nothing. *)
Theorem admin_update_settings_errors (s : settings_store) (q : settings_request) :
  (forall v, sq_scale q = Some v -> v <> "0-5"%string -> v <> "0-100"%string ->
     admin_update_settings s q
     = (mkSettingsStore (ss_grades s)
          (match sq_registration q with Some b => Some b | None => ss_registration s end)
          (match sq_trials q with Some b => Some b | None => ss_trials s end)
          (ss_teacher_edit s), Err 400))
  /\ (sq_registration q = None -> sq_trials q = None -> sq_scale q = None ->
      sq_teacher_edit q = None -> admin_update_settings s q = (s, Err 400)).
Proof.
  destruct s as [gs reg tr te], q as [qr qt qs qte]. cbn [sq_scale sq_registration sq_trials
    sq_teacher_edit ss_grades ss_registration ss_trials ss_teacher_edit].
  split.
  - intros v -> H5 H100. unfold admin_update_settings.
    cbn [sq_scale sq_registration sq_trials sq_teacher_edit].
    assert (Hs : forall g, admin_update_scale g v = Err 400).
    { intros g. unfold admin_update_scale.
      destruct (String.eqb_spec v "0-5"); [contradiction|].
      destruct (String.eqb_spec v "0-100"); [contradiction|]. reflexivity. }
    destruct qr, qt; cbn [ss_grades ss_registration ss_trials ss_teacher_edit]; rewrite Hs;
      reflexivity.
  - intros -> -> -> ->. reflexivity.
Qed.

Lemma admin_update_settings_errors_witness :
  admin_update_settings
    (mkSettingsStore (mkGradeStore [] true false (Some "0-5"%string) (Some "0-5"%string)) (Some true) None None)
    (mkSettingsRequest (Some false) None (Some "0-10"%string) None)
  = (mkSettingsStore (mkGradeStore [] true false (Some "0-5"%string) (Some "0-5"%string)) (Some false) None None,
     Err 400).
Proof.
  exact (proj1 (admin_update_settings_errors
    (mkSettingsStore (mkGradeStore [] true false (Some "0-5"%string) (Some "0-5"%string)) (Some true) None None)
    (mkSettingsRequest (Some false) None (Some "0-10"%string) None)) "0-10"%string
    eq_refl ltac:(discriminate) ltac:(discriminate)).
Defined.

Lemma clamp_to_within (mx k : Z) : 0 <= mx -> 0 <= clamp_to (Some mx) k <= mx.
Proof. intros H. unfold clamp_to. lia. Qed.

Lemma option_map_clamp_within (mx : Z) (f : Z -> Z) (o : option Z) (x : Z) :
  0 <= mx -> option_map (fun k => clamp_to (Some mx) (f k)) o = Some x -> 0 <= x <= mx.
Proof.
  intros H Ho. destruct o as [k|]; [|discriminate]. injection Ho as <-.
  apply clamp_to_within. exact H.
Qed.

Lemma sys_convert_rows_within (st : grade_store) (from to : string) (f : Z * Z) :
  scale_factor from to = Some f ->
  forall r, In r (grade_rows (exec_grade_stmts st (sys_convert_grades_scale st from to))) ->
  (has_value_col st = true -> forall x, gr_value r = Some x ->
     0 <= x <= (if String.eqb to "0-5" then 5 * 100 else 100 * 100))
  /\ (has_grade_value_col st = true -> forall x, gr_grade_value r = Some x ->
     0 <= x <= (if String.eqb to "0-5" then 5 * 100 else 100 * 100)).
Proof.
  intros Hf r Hr. unfold sys_convert_grades_scale in Hr. rewrite Hf in Hr.
  assert (Hmx : 0 <= (if String.eqb to "0-5" then 5 * 100 else 100 * 100))
    by (destruct (String.eqb to "0-5"); lia).
  revert Hmx Hr.
  generalize (if String.eqb to "0-5" then 5 * 100 else 100 * 100) as mx. intros mx Hmx Hr.
  destruct (has_value_col st) eqn:Hv, (has_grade_value_col st) eqn:Hg;
    cbn [app exec_grade_stmts fold_left exec_grade_stmt grade_rows] in Hr;
    repeat (apply in_map_iff in Hr as [?r [<- Hr]]); cbn [gr_value gr_grade_value];
    split; intros Hc; try discriminate; intros x Hx;
    exact (option_map_clamp_within _ _ _ _ Hmx Hx).
Qed.

Lemma scale_change_factor (cur v : string) :
  (cur = "0-5"%string \/ cur = "0-100"%string) ->
  (v = "0-5"%string \/ v = "0-100"%string) -> cur <> v ->
  exists f, scale_factor cur v = Some f.
Proof.
  intros [-> | ->] [-> | ->] Hne; try (exfalso; apply Hne; reflexivity); eexists; reflexivity.
Qed.

Lemma admin_update_settings_scale_ok (s : settings_store) (q : settings_request) (v : string)
  (g' : grade_store) :
  sq_scale q = Some v -> admin_update_scale (ss_grades s) v = Ok g' ->
  exists s', admin_update_settings s q = (s', Ok tt) /\ ss_grades s' = g'.
Proof.
  destruct s as [gs reg tr te], q as [qr qt qs qte].
  cbn [sq_scale ss_grades]. intros -> Hu. unfold admin_update_settings.
  cbn [sq_scale sq_registration sq_trials sq_teacher_edit count_some].
  destruct qr, qt; cbn [ss_grades ss_registration ss_trials ss_teacher_edit]; rewrite Hu;
    destruct qte; eexists; split; reflexivity.
Qed.

(** X13. When [admin_update_settings] moves the grades scale from "0-5" or
    "0-100" to the other one, it succeeds, stores the new scale as both
    "grades.scale" and "grades.scale_applied", keeps the number of grade
    rows, leaves every stored [value] and [grade_value] within [0, 5] or
    [0, 100] of the new scale (in hundredths), and the grade listings then
    return the stored values without a further rescale. *)
Theorem admin_update_settings_scale_change (s : settings_store) (q : settings_request)
  (v : string) :
  sq_scale q = Some v -> (v = "0-5"%string \/ v = "0-100"%string) ->
  (current_scale (ss_grades s) = "0-5"%string \/ current_scale (ss_grades s) = "0-100"%string) ->
  current_scale (ss_grades s) <> v ->
  exists s',
    admin_update_settings s q = (s', Ok tt)
    /\ setting_scale (ss_grades s') = Some v /\ setting_applied (ss_grades s') = Some v
    /\ List.length (grade_rows (ss_grades s')) = List.length (grade_rows (ss_grades s))
    /\ (forall r, In r (grade_rows (ss_grades s')) ->
         (has_value_col (ss_grades s) = true -> forall x, gr_value r = Some x ->
            0 <= x <= (if String.eqb v "0-5" then 5 * 100 else 100 * 100))
         /\ (has_grade_value_col (ss_grades s) = true -> forall x, gr_grade_value r = Some x ->
            0 <= x <= (if String.eqb v "0-5" then 5 * 100 else 100 * 100)))
    /\ (forall r, selected_value (ss_grades s') r = base_value (ss_grades s') r).
Proof.
  intros Hq Hv Hc Hne.
  set (st := ss_grades s). fold st in Hc, Hne.
  destruct (scale_change_factor _ _ Hc Hv Hne) as [f Hf].
  set (P := sys_convert_grades_scale st (current_scale st) v).
  assert (Hu : admin_update_scale st v
               = Ok (exec_grade_stmts st ((P ++ [SetApplied v]) ++ [SetScale v]))).
  { unfold admin_update_scale.
    assert (Hok : negb (String.eqb v "0-5" || String.eqb v "0-100") = false)
      by (destruct Hv as [-> | ->]; reflexivity).
    rewrite Hok. destruct (String.eqb_spec (current_scale st) v); [contradiction|]. reflexivity. }
  destruct (admin_update_settings_scale_ok s q v _ Hq Hu) as [s' [Hs' Hg]].
  exists s'. split; [exact Hs'|]. rewrite Hg, !exec_grade_stmts_app.
  cbn [exec_grade_stmts fold_left exec_grade_stmt setting_scale setting_applied grade_rows].
  split; [reflexivity|]. split; [reflexivity|]. split.
  - unfold P, sys_convert_grades_scale. rewrite Hf.
    destruct (has_value_col st), (has_grade_value_col st);
      cbn [app exec_grade_stmts fold_left exec_grade_stmt grade_rows]; rewrite ?length_map;
      reflexivity.
  - split; [exact (sys_convert_rows_within st _ v f Hf)|].
    intros r. unfold selected_value, value_select_factor, current_scale.
    cbn [setting_scale setting_applied exec_grade_stmt].
    destruct Hv as [-> | ->]; reflexivity.
Qed.

Lemma admin_update_settings_scale_change_witness :
  exists s',
    admin_update_settings ex_settings (mkSettingsRequest None None (Some "0-100"%string) None)
    = (s', Ok tt)
    /\ setting_applied (ss_grades s') = Some "0-100"%string.
Proof.
  destruct (admin_update_settings_scale_change ex_settings
              (mkSettingsRequest None None (Some "0-100"%string) None) "0-100"%string
              eq_refl (or_intror eq_refl) (or_introl eq_refl) ltac:(vm_compute; discriminate))
    as [s' [Hs [_ [Ha _]]]].
  exists s'. split; [exact Hs | exact Ha].
Defined.

(** X14. After [_ensure_grades_scale_applied] has run, whatever the stored
    scale settings were, the grade listings return the stored values
    ([value], or [COALESCE(value, grade_value)] where the legacy column
    exists) without rescaling them. *)
Theorem selected_value_after_ensure (st : grade_store) (r : grade_row) :
  selected_value (ensure_grades_scale_applied st) r
  = base_value (ensure_grades_scale_applied st) r.
Proof.
  pose proof (ensure_plan_nil_applied _ (ensure_idempotent st)) as Ha.
  unfold selected_value, value_select_factor. cbv zeta. rewrite Ha.
  remember (current_scale (ensure_grades_scale_applied st)) as c eqn:Ec.
  destruct (String.eqb_spec c "0-5") as [->|]; [reflexivity|].
  destruct (String.eqb_spec c "0-100") as [->|]; reflexivity.
Qed.
